(** * copy2blobstorage: a shallow embedding of [main.py]

    The script walks a local directory tree, uploads every file whose MD5
    differs from the Content-MD5 the blob container reports for the same
    key, and (with [--sync]) deletes the blobs under the destination prefix
    that the walk did not produce.

    Layout of this development:
    - [Bytes], [MD5]      : byte strings and [hashlib.md5] (RFC 1321);
    - [PosixPath]         : the [os.path] functions the script calls;
    - [Mimetypes]         : [mimetypes.guess_type] over a types table;
    - [Azure]             : the records, exceptions and client interface of
                            [azure.storage.blob] that the script uses;
    - [Sync]              : the module body of [main.py], written against an
                            abstract container client;
    - [MemStore]          : an in-memory container client;
    - [Examples]          : concrete trees, containers and failures;
    - the properties, each stated for the code above, then on the
      concrete inputs. *)

From Stdlib Require Import ZArith Lia List Ascii String Bool.
From Stdlib.Strings Require Import Byte.
From stdpp Require Import base gmap strings list fin_maps sets.

Import ListNotations.
Local Open Scope Z_scope.

(** ** Byte strings *)

Module Bytes.

(** Python [bytes] / [bytearray] values. *)
Definition bytes := list byte.

Definition byte_to_Z (b : byte) : Z := Z.of_N (Byte.to_N b).

Definition byte_of_Z (z : Z) : byte :=
  match Byte.of_N (Z.to_N (z mod 256)) with
  | Some b => b
  | None => x00
  end.

(** [b1 == b2] on byte strings. *)
Fixpoint bytes_eqb (a b : bytes) : bool :=
  match a, b with
  | [], [] => true
  | x :: a', y :: b' => Byte.eqb x y && bytes_eqb a' b'
  | _, _ => false
  end.

Definition of_string (s : string) : bytes := list_byte_of_string s.

End Bytes.
Import Bytes.

(** ** hashlib.md5 *)

Module MD5.

Definition mask32 (x : Z) : Z := Z.land x 4294967295.

Definition add32 (x y : Z) : Z := mask32 (x + y).

Definition not32 (x : Z) : Z := Z.lxor x 4294967295.

Definition rotl32 (x c : Z) : Z :=
  mask32 (Z.lor (Z.shiftl x c) (Z.shiftr x (32 - c))).

(** Per-round shift amounts. *)
Definition S_table : list Z :=
  [7; 12; 17; 22; 7; 12; 17; 22; 7; 12; 17; 22; 7; 12; 17; 22;
   5; 9; 14; 20; 5; 9; 14; 20; 5; 9; 14; 20; 5; 9; 14; 20;
   4; 11; 16; 23; 4; 11; 16; 23; 4; 11; 16; 23; 4; 11; 16; 23;
   6; 10; 15; 21; 6; 10; 15; 21; 6; 10; 15; 21; 6; 10; 15; 21].

(** [K_table[i] = floor(2^32 * abs(sin(i + 1)))]. *)
Definition K_table : list Z :=
  [3614090360; 3905402710; 606105819; 3250441966; 4118548399; 1200080426;
   2821735955; 4249261313; 1770035416; 2336552879; 4294925233; 2304563134;
   1804603682; 4254626195; 2792965006; 1236535329; 4129170786; 3225465664;
   643717713; 3921069994; 3593408605; 38016083; 3634488961; 3889429448;
   568446438; 3275163606; 4107603335; 1163531501; 2850285829; 4243563512;
   1735328473; 2368359562; 4294588738; 2272392833; 1839030562; 4259657740;
   2763975236; 1272893353; 4139469664; 3200236656; 681279174; 3936430074;
   3572445317; 76029189; 3654602809; 3873151461; 530742520; 3299628645;
   4096336452; 1126891415; 2878612391; 4237533241; 1700485571; 2399980690;
   4293915773; 2240044497; 1873313359; 4264355552; 2734768916; 1309151649;
   4149444226; 3174756917; 718787259; 3951481745].

Record regs := Regs { rA : Z; rB : Z; rC : Z; rD : Z }.

Definition init_regs : regs :=
  Regs 1732584193 4023233417 2562383102 271733878.

(** Little-endian decoding of four bytes. *)
Definition word_of_bytes (bs : list Z) : Z :=
  fold_right (fun b acc => b + 256 * acc) 0 bs.

(** Little-endian encoding of [x] on [n] bytes. *)
Fixpoint le_bytes (n : nat) (x : Z) : list Z :=
  match n with
  | O => []
  | S n' => (x mod 256) :: le_bytes n' (x / 256)
  end.

Fixpoint words_of_block (n : nat) (bs : list Z) : list Z :=
  match n with
  | O => []
  | S n' => word_of_bytes (firstn 4 bs) :: words_of_block n' (skipn 4 bs)
  end.

(** The mixing function and message index of step [i]. *)
Definition round_fg (i b c d : Z) : Z * Z :=
  if i <? 16 then (Z.lor (Z.land b c) (Z.land (not32 b) d), i)
  else if i <? 32 then (Z.lor (Z.land d b) (Z.land (not32 d) c), (5 * i + 1) mod 16)
  else if i <? 48 then (Z.lxor (Z.lxor b c) d, (3 * i + 5) mod 16)
  else (Z.lxor c (Z.lor b (not32 d)), (7 * i) mod 16).

Definition step (M : list Z) (r : regs) (i : nat) : regs :=
  let '(Regs a b c d) := r in
  let '(f, g) := round_fg (Z.of_nat i) b c d in
  let f' := add32 (add32 (add32 f a) (nth i K_table 0)) (nth (Z.to_nat g) M 0) in
  Regs d (add32 b (rotl32 f' (nth i S_table 0))) b c.

Definition process_block (r : regs) (block : list Z) : regs :=
  let M := words_of_block 16 block in
  let '(Regs a b c d) := fold_left (step M) (seq 0 64) r in
  Regs (add32 (rA r) a) (add32 (rB r) b) (add32 (rC r) c) (add32 (rD r) d).

Fixpoint process_blocks (n : nat) (msg : list Z) (r : regs) : regs :=
  match n with
  | O => r
  | S n' => process_blocks n' (skipn 64 msg) (process_block r (firstn 64 msg))
  end.

Definition pad (msg : list Z) : list Z :=
  let n := Z.of_nat (length msg) in
  msg ++ [128] ++ repeat 0 (Z.to_nat ((55 - n) mod 64))
      ++ le_bytes 8 ((8 * n) mod 18446744073709551616).

Definition digest_of_regs (r : regs) : bytes :=
  map byte_of_Z (le_bytes 4 (rA r) ++ le_bytes 4 (rB r)
                 ++ le_bytes 4 (rC r) ++ le_bytes 4 (rD r)).

(** The hash object: [hashlib.md5()], [.update(data)], [.digest()]. *)
Record hash := Hash { buffered : bytes }.

Definition new : hash := Hash [].

Definition update (h : hash) (data : bytes) : hash :=
  Hash (buffered h ++ data).

Definition digest (h : hash) : bytes :=
  let msg := pad (map byte_to_Z (buffered h)) in
  digest_of_regs (process_blocks (Nat.div (length msg) 64) msg init_regs).

Definition hex_digit (n : Z) : string :=
  String.substring (Z.to_nat n) 1 "0123456789abcdef".

Definition hexdigest (h : hash) : string :=
  fold_right (fun b acc =>
                hex_digit (byte_to_Z b / 16) +:+ hex_digit (byte_to_Z b mod 16) +:+ acc)
             EmptyString (digest h).

End MD5.

(** [main.py], lines 28-37. *)
Definition md5 (data : bytes) : bytes :=
  let md5hash := MD5.new in
  let md5hash := MD5.update md5hash data in
  MD5.digest md5hash.

(** ** Python [str] helpers *)

Module Str.

Local Open Scope string_scope.

Definition slash : ascii := "/"%char.
Definition dot : ascii := "."%char.

(** [s.startswith(p)] *)
Fixpoint startswith (s p : string) {struct p} : bool :=
  match p, s with
  | EmptyString, _ => true
  | String _ _, EmptyString => false
  | String b p', String a s' => Ascii.eqb a b && startswith s' p'
  end.

(** [s.endswith(c)] for a one-character [c]. *)
Fixpoint endswith_char (s : string) (c : ascii) : bool :=
  match s with
  | EmptyString => false
  | String x EmptyString => Ascii.eqb x c
  | String _ s' => endswith_char s' c
  end.

(** [s.lstrip(c)] for a one-character [c]. *)
Fixpoint lstrip (s : string) (c : ascii) : string :=
  match s with
  | EmptyString => EmptyString
  | String x s' => if Ascii.eqb x c then lstrip s' c else s
  end.

(** [s.split(c)]: never the empty list. *)
Fixpoint split (s : string) (c : ascii) : list string :=
  match s with
  | EmptyString => [EmptyString]
  | String x s' =>
      if Ascii.eqb x c then EmptyString :: split s' c
      else match split s' c with
           | [] => [String x EmptyString]
           | w :: ws => String x w :: ws
           end
  end.

(** [sep.join(l)] *)
Definition join (sep : string) (l : list string) : string := String.concat sep l.

(** [s.rfind(c)]: index of the last [c], or [-1]. [i] is the index of the
    head of [s], [last] the result so far. *)
Fixpoint rfind_from (s : string) (c : ascii) (i last : Z) : Z :=
  match s with
  | EmptyString => last
  | String x s' => rfind_from s' c (i + 1) (if Ascii.eqb x c then i else last)
  end.

Definition rfind (s : string) (c : ascii) : Z := rfind_from s c 0 (-1).

(** [s.find(c)]: index of the first [c], or [-1]. [i] is the index of the
    head of [s]. *)
Fixpoint find_from (s : string) (c : ascii) (i : Z) : Z :=
  match s with
  | EmptyString => -1
  | String x s' => if Ascii.eqb x c then i else find_from s' c (i + 1)
  end.

Definition find (s : string) (c : ascii) : Z := find_from s c 0.

(** [s[:n]] and [s[n:]] for [0 <= n]. *)
Fixpoint take (n : nat) (s : string) : string :=
  match n, s with
  | S n', String x s' => String x (take n' s')
  | _, _ => EmptyString
  end.

Fixpoint drop (n : nat) (s : string) : string :=
  match n, s with
  | S n', String _ s' => drop n' s'
  | _, _ => s
  end.

(** [s[i:i+1]] *)
Definition char_at (s : string) (i : Z) : string := take 1 (drop (Z.to_nat i) s).

Definition lower_char (c : ascii) : ascii :=
  let n := nat_of_ascii c in
  if (65 <=? n)%nat && (n <=? 90)%nat then ascii_of_nat (n + 32) else c.

(** [s.lower()] on ASCII letters; other bytes are left as they are. *)
Fixpoint lower (s : string) : string :=
  match s with
  | EmptyString => EmptyString
  | String x s' => String (lower_char x) (lower s')
  end.

(** [c in s] for a one-character [c]. *)
Fixpoint contains (s : string) (c : ascii) : bool :=
  match s with
  | EmptyString => false
  | String x s' => Ascii.eqb x c || contains s' c
  end.

Definition is_empty (s : string) : bool :=
  match s with EmptyString => true | _ => false end.

(** [len(s)] *)
Definition len (s : string) : Z := Z.of_nat (String.length s).

(** A component of a split path that is kept: free of [c] and not
    empty. *)
Definition plain (c : ascii) (w : string) : Prop :=
  contains w c = false /\ is_empty w = false.

(** Newline, the default [end] of [print]. *)
Definition nl : string := String (ascii_of_nat 10) EmptyString.

End Str.

(** ** os.path (posixpath) and os.walk *)

Module PosixPath.

Local Open Scope string_scope.

Definition sep : string := "/".
Definition curdir : string := ".".
Definition pardir : string := "..".

Definition isabs (s : string) : bool := Str.startswith s sep.

(** A name as a directory entry has it: not empty, not [.] or [..], and
    without a slash. *)
Definition is_name (c : string) : bool :=
  negb (Str.is_empty c) && negb (String.eqb c curdir) && negb (String.eqb c pardir)
  && negb (Str.contains c Str.slash).

(** One iteration of the loop of [posixpath.join]. *)
Definition join2 (path b : string) : string :=
  if Str.startswith b sep then b
  else if Str.is_empty path || Str.endswith_char path Str.slash then path +:+ b
  else path +:+ sep +:+ b.

(** [path] as [join] extends it: followed by a separator unless it is
    empty or ends with one. *)
Definition glue (path : string) : string :=
  if Str.is_empty path || Str.endswith_char path Str.slash then path else path +:+ "/".

(** [os.path.join(a, *p)] *)
Definition join (a : string) (p : list string) : string := fold_left join2 p a.

(** The loop body of [normpath] over [new_comps]; [new_comps] is kept in
    order, so [new_comps[-1]] is [last new_comps]. *)
Definition norm_step (initial_slashes : nat) (new_comps : list string) (comp : string)
  : list string :=
  if String.eqb comp EmptyString || String.eqb comp curdir then new_comps
  else if negb (String.eqb comp pardir)
          || (Nat.eqb initial_slashes 0 && Nat.eqb (length new_comps) 0)
          || (negb (Nat.eqb (length new_comps) 0)
              && String.eqb (List.last new_comps EmptyString) pardir)
       then (new_comps ++ [comp])%list
       else if negb (Nat.eqb (length new_comps) 0) then removelast new_comps
       else new_comps.

Definition initial_slashes_of (path : string) : nat :=
  if Str.startswith path sep then
    if Str.startswith path "//" && negb (Str.startswith path "///") then 2%nat else 1%nat
  else 0%nat.

Definition or_dot (s : string) : string := if Str.is_empty s then curdir else s.

(** The loop of [normpath] over [path.split("/")]. *)
Definition norm_comps (initial_slashes : nat) (path : string) : list string :=
  fold_left (norm_step initial_slashes) (Str.split path Str.slash) [].

(** [os.path.normpath(path)] *)
Definition normpath (path : string) : string :=
  if Str.is_empty path then curdir
  else
    let initial_slashes := initial_slashes_of path in
    let comps := norm_comps initial_slashes path in
    let path := Str.join sep comps in
    let path :=
      match initial_slashes with
      | O => path
      | 1%nat => sep +:+ path
      | _ => sep +:+ sep +:+ path
      end in
    or_dot path.

(** [os.path.abspath(path)], with [os.getcwd()] as a parameter. *)
Definition made_absolute (cwd path : string) : string :=
  if negb (isabs path) then join cwd [path] else path.

Definition abspath (cwd path : string) : string := normpath (made_absolute cwd path).

(** [len(commonprefix([l1, l2]))] for two lists of components: the length
    of their longest common prefix. *)
Fixpoint commonprefix_len (l1 l2 : list string) : nat :=
  match l1, l2 with
  | x :: l1', y :: l2' => if String.eqb x y then S (commonprefix_len l1' l2') else O
  | _, _ => O
  end.

Definition nonempty_comps (s : string) : list string :=
  List.filter (fun x => negb (Str.is_empty x)) (Str.split s Str.slash).

(** [os.path.relpath(path, start)]; [None] is the [ValueError] raised for
    an empty [path]. *)
Definition relpath (cwd path start : string) : option string :=
  if Str.is_empty path then None
  else
    let start_list := nonempty_comps (abspath cwd start) in
    let path_list := nonempty_comps (abspath cwd path) in
    let i := commonprefix_len start_list path_list in
    let rel_list := (repeat pardir (length start_list - i) ++ skipn i path_list)%list in
    match rel_list with
    | [] => Some curdir
    | a :: p => Some (join a p)
    end.

(** [genericpath._splitext] with [sep = "/"], [extsep = "."]. The inner
    loop scans [n] positions from [filenameIndex]. *)
Fixpoint has_non_dot (p : string) (n : nat) (filenameIndex : Z) : bool :=
  match n with
  | O => false
  | S n' =>
      if negb (String.eqb (Str.char_at p filenameIndex) ".") then true
      else has_non_dot p n' (filenameIndex + 1)
  end.

Definition splitext (p : string) : string * string :=
  let sepIndex := Str.rfind p Str.slash in
  let dotIndex := Str.rfind p Str.dot in
  if (dotIndex >? sepIndex)%Z
     && has_non_dot p (Z.to_nat (dotIndex - (sepIndex + 1))) (sepIndex + 1)
  then (Str.take (Z.to_nat dotIndex) p, Str.drop (Z.to_nat dotIndex) p)
  else (p, EmptyString).

(** A directory as [os.scandir] shows it: regular files with their
    contents, and sub-directories. *)
#[warnings="-register-all"] Inductive tree : Type :=
| Dir (files : list (string * bytes)) (dirs : list (string * tree)).

(** [os.walk(top)], top-down. *)
Fixpoint walk (top : string) (t : tree) : list (string * list string * list string) :=
  match t with
  | Dir files dirs =>
      (top, map fst dirs, map fst files)
        :: (fix walk_dirs (ds : list (string * tree)) :=
              match ds with
              | [] => []
              | (d, t') :: ds' => (walk (join top [d]) t' ++ walk_dirs ds')%list
              end) dirs
  end.

(** The files of a tree, by the path [open] is given. *)
Fixpoint contents (top : string) (t : tree) : list (string * bytes) :=
  match t with
  | Dir files dirs =>
      (map (fun '(f, data) => (join top [f], data)) files
        ++ (fix contents_dirs (ds : list (string * tree)) :=
              match ds with
              | [] => []
              | (d, t') :: ds' => (contents (join top [d]) t' ++ contents_dirs ds')%list
              end) dirs)%list
  end.

End PosixPath.

(** ** mimetypes *)

Module Mimetypes.

Local Open Scope string_scope.

(** Python dictionaries with few, fixed entries. *)
Fixpoint assoc (k : string) (l : list (string * string)) : option string :=
  match l with
  | [] => None
  | (k', v) :: l' => if String.eqb k k' then Some v else assoc k l'
  end.

(** [mimetypes.suffix_map] and [mimetypes.encodings_map]: fixed by the
    library, [mimetypes.init()] only reads types. *)
Definition suffix_map : list (string * string) :=
  [(".svgz", ".svg.gz"); (".tgz", ".tar.gz"); (".taz", ".tar.gz");
   (".tz", ".tar.gz"); (".tbz2", ".tar.bz2"); (".txz", ".tar.xz")].

Definition encodings_map : list (string * string) :=
  [(".gz", "gzip"); (".Z", "compress"); (".bz2", "bzip2"); (".xz", "xz"); (".br", "br")].

(** [while (ext_lower := ext.lower()) in suffix_map:
       base, ext = splitext(base + suffix_map[ext_lower])].
    With no [fuel] left the current pair is returned; [suffix_loop_exits]
    shows that one unit is always enough. *)
Fixpoint suffix_loop (fuel : nat) (base ext : string) : string * string :=
  match assoc (Str.lower ext) suffix_map with
  | None => (base, ext)
  | Some repl =>
      match fuel with
      | O => (base, ext)
      | S fuel' =>
          let '(base', ext') := PosixPath.splitext (base +:+ repl) in
          suffix_loop fuel' base' ext'
      end
  end.

(** [urllib.parse._splittype(url)], which [guess_type] calls first. Its
    regular expression matches, at the start of [url], one character or
    more other than a slash and a colon, then a colon, then the rest.
    [scheme_prefix url] is what stands before the first colon and what
    follows it, when no slash comes before that colon. *)
Fixpoint scheme_prefix (url : string) : option (string * string) :=
  match url with
  | EmptyString => None
  | String c url' =>
      if Ascii.eqb c ":" then Some (EmptyString, url')
      else if Ascii.eqb c "/" then None
      else match scheme_prefix url' with
           | Some (scheme, data) => Some (String c scheme, data)
           | None => None
           end
  end.

(** [(scheme.lower(), data)] when the expression matches, which takes a
    scheme of one character at least; [(None, url)] otherwise. *)
Definition splittype (url : string) : option string * string :=
  match scheme_prefix url with
  | Some (String c scheme, data) => (Some (Str.lower (String c scheme)), data)
  | _ => (None, url)
  end.

(** The branch [if scheme == 'data'] of [guess_type], on what follows
    [data:]: the media type before the first comma, cut at a semicolon,
    and [text/plain] when that holds [=] or no slash. *)
Definition data_url_type (url : string) : option string * option string :=
  let comma := Str.find url "," in
  if (comma <? 0)%Z then (None, None)
  else
    let semi := Str.find (Str.take (Z.to_nat comma) url) ";" in
    let type := if (0 <=? semi)%Z then Str.take (Z.to_nat semi) url
                else Str.take (Z.to_nat comma) url in
    let type := if Str.contains type "=" || negb (Str.contains type "/")
                then "text/plain" else type in
    (Some type, None).

(** The rest of [guess_type] (strict), over the strict types table: the
    pair [(type, encoding)] that the suffixes of [url] give. *)
Definition guess_by_suffix (types_map : gmap string string) (url : string)
  : option string * option string :=
  let '(base, ext) := PosixPath.splitext url in
  let '(base, ext) := suffix_loop (S (String.length url)) base ext in
  let '(encoding, ext) :=
    match assoc ext encodings_map with
    | Some enc => (Some enc, snd (PosixPath.splitext base))
    | None => (None, ext)
    end in
  let ext := Str.lower ext in
  (types_map !! ext, encoding).

(** [mimetypes.guess_type(url)] (strict), as in CPython 3.11: the argument
    is taken as a URL, so a path that starts like one loses its scheme,
    and one that starts with [data:] is read as a data URL. *)
Definition guess_type (types_map : gmap string string) (url : string)
  : option string * option string :=
  let '(scheme, url) := splittype url in
  match scheme with
  | Some s => if String.eqb s "data" then data_url_type url
              else guess_by_suffix types_map url
  | None => guess_by_suffix types_map url
  end.

Definition octet_stream : string := "application/octet-stream".

(** [main.py], lines 22-23, on the table [mimetypes.init()] left. *)
Definition with_overrides (types_map : gmap string string) : gmap string string :=
  <[".ttf" := octet_stream]> (<[".map" := octet_stream]> types_map).

End Mimetypes.

(** ** The container client (azure.storage.blob) *)

Module Azure.

Record ContentSettings := mkContentSettings {
  content_type : option string;
  content_md5 : option bytes
}.

(** [ContentSettings(content_type=ct)]: every other field is [None]. *)
Definition ContentSettings_of_type (ct : string) : ContentSettings :=
  {| content_type := Some ct; content_md5 := None |}.

Record BlobProperties := mkBlobProperties {
  name : string;
  content_settings : ContentSettings
}.

(** The exception classes that occur; all derive from [Exception], and
    [ResourceNotFoundError] derives from [HttpResponseError]. *)
Inductive exn_class :=
| ResourceNotFoundError
| HttpResponseError
| OSError
| ValueError
| KeyError.

Record exn := mkExn { exn_cls : exn_class; exn_msg : string }.

Definition is_ResourceNotFoundError (e : exn) : bool :=
  match exn_cls e with ResourceNotFoundError => true | _ => false end.

(** [str(err)] *)
Definition str_of (e : exn) : string := exn_msg e.

(** The requests the script sends, as a trace. [ListBlobs] stands for the
    iteration of the pager of [list_blobs]: the requests for its pages are
    not told apart. *)
Inductive call :=
| GetBlobProperties (blob : string)
| UploadBlob (blob : string) (data : bytes) (overwrite : bool) (cs : ContentSettings)
| ListBlobs (name_starts_with : string)
| DeleteBlob (blob : string).

Definition is_upload (c : call) : bool :=
  match c with UploadBlob _ _ _ _ => true | _ => false end.

Definition is_delete (c : call) : bool :=
  match c with DeleteBlob _ => true | _ => false end.

Definition is_get_properties (c : call) : bool :=
  match c with GetBlobProperties _ => true | _ => false end.

Definition is_list (c : call) : bool :=
  match c with ListBlobs _ => true | _ => false end.

(** What iterating the pager of [list_blobs] gives: the blobs it yields,
    in order, and the exception that ends the iteration early, if a
    request of the pager fails. *)
Record Listing := mkListing {
  yielded : list BlobProperties;
  raised : option exn
}.

(** What the script needs of a [ContainerClient]: each method takes the
    state [W] of everything behind the client and returns its result or
    the exception it raised, with the next state. [list_blobs] returns a
    lazy pager, which is given by what iterating it yields. *)
Class ContainerClient (W : Type) := {
  get_blob_properties : string -> W -> (exn + BlobProperties) * W;
  upload_blob : string -> bytes -> bool -> ContentSettings -> W -> (exn + unit) * W;
  list_blobs : string -> W -> Listing * W;
  delete_blob : string -> W -> (exn + unit) * W
}.

End Azure.
Import Azure.

(** ** The script *)

Module Sync.

Local Open Scope string_scope.

(** [args], as [argparse] fills it. *)
Record args := mkArgs {
  SOURCE : string;
  DEST : string;
  sync : bool;
  container : string
}.

(** The process environment the script reads. *)
Record env := mkEnv {
  getcwd : string;
  os_walk : string -> list (string * list string * list string);
  (** [open(path, "rb")] followed by [fp.read()]; [None] when either
      raises [OSError]. *)
  open_read : string -> option bytes;
  (** [mimetypes.types_map] after [mimetypes.init()]. *)
  types_map_init : gmap string string;
  (** [os.environ.get("CONNECTION_STRING")] *)
  environ_CONNECTION_STRING : option string
}.

(** The mutable state of a run: what is behind the client, the set
    [files_to_keep], what was printed, and the requests sent so far. *)
Record state (W : Type) := mkState {
  world : W;
  files_to_keep : gset string;
  stdout : list string;
  calls : list call
}.
Arguments mkState {W} _ _ _ _.
Arguments world {W} _.
Arguments files_to_keep {W} _.
Arguments stdout {W} _.
Arguments calls {W} _.

Definition initial_state {W : Type} (w : W) : state W := mkState w ∅ [] [].

(** Statements: a state transformer that returns a value or the exception
    that propagates. *)
Definition M (W A : Type) : Type := state W -> (exn + A) * state W.

#[global] Instance M_ret {W} : MRet (M W) := fun A a st => (inr a, st).

#[global] Instance M_bind {W} : MBind (M W) :=
  fun A B f m st =>
    match m st with
    | (inl e, st') => (inl e, st')
    | (inr a, st') => f a st'
    end.

Definition raise {W A} (e : exn) : M W A := fun st => (inl e, st).

(** [try: body except <handles> as err: handler(err)] *)
Definition try_except {W A} (body : M W A) (handles : exn -> bool) (handler : exn -> M W A)
  : M W A :=
  fun st =>
    match body st with
    | (inl e, st') => if handles e then handler e st' else (inl e, st')
    | (inr a, st') => (inr a, st')
    end.

(** [except Exception]: every class of [exn_class] derives from it. *)
Definition any_Exception (e : exn) : bool := true.

(** [for x in l: body(x)] *)
Fixpoint for_each {W A} (l : list A) (body : A -> M W unit) : M W unit :=
  match l with
  | [] => mret tt
  | x :: l' => body x ;; for_each l' body
  end.

(** [print(s, end='', flush=True)]: [s] is written as it is. *)
Definition print_no_end {W} (s : string) : M W unit :=
  fun st => (inr tt, mkState (world st) (files_to_keep st)
                             (stdout st ++ [s])%list (calls st)).

(** [print(s)]: [s] and a newline are written. *)
Definition print {W} (s : string) : M W unit := print_no_end (s +:+ Str.nl).

(** [files_to_keep.add(k)] *)
Definition keep_add {W} (k : string) : M W unit :=
  fun st => (inr tt, mkState (world st) ({[k]} ∪ files_to_keep st) (stdout st) (calls st)).

Definition get_files_to_keep {W} : M W (gset string) :=
  fun st => (inr (files_to_keep st), st).

(** A request through the client, recorded in [calls]. *)
Definition request {W A} (c : call) (op : W -> (exn + A) * W) : M W A :=
  fun st =>
    let '(r, w') := op (world st) in
    (r, mkState w' (files_to_keep st) (stdout st) (calls st ++ [c])%list).

(** [md5_hash != dest_md5] where [dest_md5] is [None], [b''] or the
    stored digest. *)
Definition md5_differs (md5_hash : bytes) (dest_md5 : option bytes) : bool :=
  match dest_md5 with
  | Some d => negb (bytes_eqb md5_hash d)
  | None => true
  end.

(** Lines 70-72. *)
Definition resolve_content_type (types_map : gmap string string) (path : string) : string :=
  match fst (Mimetypes.guess_type types_map path) with
  | None => Mimetypes.octet_stream
  | Some content_type =>
      if Str.is_empty content_type then Mimetypes.octet_stream else content_type
  end.

Definition uploading_line (path dest_path : string) : string :=
  "Uploading " +:+ path +:+ " ⭢ " +:+ dest_path +:+ "... ".

Definition failed_line (err : exn) : string := "failed, error: " +:+ str_of err.

Definition deleting_line (name : string) : string := "Deleting " +:+ name +:+ "... ".

(** The three texts that lines 79, 81 and 83 print after the line of a
    file. *)
Definition is_outcome (s : string) : Prop :=
  s = "done" +:+ Str.nl \/ s = "skipped" +:+ Str.nl
  \/ exists err, s = failed_line err +:+ Str.nl.

(** Lines 71-72 on the type that [guess_type] returned. *)
Definition type_or_default (guessed : option string) : string :=
  match guessed with
  | None => Mimetypes.octet_stream
  | Some content_type =>
      if Str.is_empty content_type then Mimetypes.octet_stream else content_type
  end.

Section Script.

Context {W : Type} {client : ContainerClient W}.
Variable e : env.
Variable a : args.
Variable types_map : gmap string string.

(** Line 42. *)
Definition dest : string := Str.lstrip (DEST a) Str.slash.

(** Line 48. *)
Definition path_of (root file : string) : string := PosixPath.join root [file].

(** Line 49; [None] when [relpath] raises. *)
Definition dest_path_of (root file : string) : option string :=
  match PosixPath.relpath (getcwd e) (path_of root file) (SOURCE a) with
  | Some rel => Some (PosixPath.join dest [rel])
  | None => None
  end.

(** Lines 62-66. *)
Definition fetch_dest_md5 (dest_path : string) : M W (option bytes) :=
  try_except
    (blob_settings ← request (GetBlobProperties dest_path) (get_blob_properties dest_path);
     mret (content_md5 (content_settings blob_settings)))
    is_ResourceNotFoundError
    (fun _ => mret (Some [])).

(** Lines 75-83. *)
Definition upload_if_changed (dest_path : string) (file_data md5_hash : bytes)
           (dest_md5 : option bytes) (cs : ContentSettings) : M W unit :=
  try_except
    (if md5_differs md5_hash dest_md5 then
       request (UploadBlob dest_path file_data true cs)
               (upload_blob dest_path file_data true cs) ;;
       print "done"
     else
       print "skipped")
    any_Exception
    (fun err => print (failed_line err)).

(** Lines 48-83: the body of the inner loop. *)
Definition process_file (root file : string) : M W unit :=
  let path := path_of root file in
  dest_path ← match dest_path_of root file with
              | Some k => mret k
              | None => raise (mkExn ValueError "no path specified")
              end;
  keep_add dest_path ;;
  print_no_end (uploading_line path dest_path) ;;
  file_data ← match open_read e path with
              | Some data => mret data
              | None => raise (mkExn OSError path)
              end;
  let md5_hash := md5 file_data in
  dest_md5 ← fetch_dest_md5 dest_path;
  let content_type := resolve_content_type types_map path in
  let content_settings := ContentSettings_of_type content_type in
  upload_if_changed dest_path file_data md5_hash dest_md5 content_settings.

(** The same body on a [(root, file)] pair. *)
Definition process (rf : string * string) : M W unit :=
  process_file (fst rf) (snd rf).

(** Lines 45-83. *)
Definition upload_phase : M W unit :=
  for_each (os_walk e (SOURCE a))
           (fun '(root, _, files) => for_each files (fun file => process_file root file)).

(** Lines 88-95: the body of the reconciliation loop. *)
Definition reconcile_blob (file : BlobProperties) : M W unit :=
  keep ← get_files_to_keep;
  if decide (name file ∈ keep) then mret tt
  else
    print_no_end (deleting_line (name file)) ;;
    try_except
      (request (DeleteBlob (name file)) (delete_blob (name file)) ;;
       print "done")
      any_Exception
      (fun err => print (failed_line err)).

(** Lines 87-95. The pager of [list_blobs] is lazy: the body runs on each
    blob as it is yielded, and an exception of the pager leaves the loop,
    and the script, after the blobs yielded before it. What the pager
    yields is fixed when the iteration starts: the deletes of the loop do
    not change it. *)
Definition reconcile_phase : M W unit :=
  listing ← request (ListBlobs dest)
                    (fun w => let '(l, w') := list_blobs dest w in (inr l, w'));
  for_each (yielded listing) reconcile_blob ;;
  match raised listing with
  | Some err => raise err
  | None => mret tt
  end.

(** The [(root, file)] pairs the two loops of lines 45-46 visit, in
    order. *)
Definition traversed : list (string * string) :=
  flat_map (fun '(root, _, files) => map (pair root) files) (os_walk e (SOURCE a)).

(** The value lines 62-66 leave in [dest_md5] for a response of
    [get_blob_properties]; [None] when the exception is not handled
    there. *)
Definition dest_md5_of_response (resp : exn + BlobProperties) : option (option bytes) :=
  match resp with
  | inr blob_settings => Some (content_md5 (content_settings blob_settings))
  | inl err => if is_ResourceNotFoundError err then Some (Some []) else None
  end.

(** Line 73 for the file at [root], [file]. *)
Definition content_settings_of (root file : string) : ContentSettings :=
  ContentSettings_of_type (resolve_content_type types_map (path_of root file)).

(** [c] is the upload request of lines 73-78 for the file at [root],
    [file]: its key, its bytes, [overwrite=True], and content settings
    that carry the resolved content type and nothing else. *)
Definition upload_of (root file : string) (c : call) : Prop :=
  exists k data,
    dest_path_of root file = Some k
    /\ open_read e (path_of root file) = Some data
    /\ c = UploadBlob k data true
             {| content_type := Some (resolve_content_type types_map (path_of root file));
                content_md5 := None |}.

(** The destination key of every traversed file, in order. *)
Definition dest_keys : list (option string) :=
  map (fun rf => dest_path_of (fst rf) (snd rf)) traversed.

(** What a traversal prints when every file is skipped. *)
Definition skipped_report (l : list (string * string)) : list string :=
  flat_map (fun rf =>
              match dest_path_of (fst rf) (snd rf) with
              | Some k => [uploading_line (path_of (fst rf) (snd rf)) k; "skipped" +:+ Str.nl]
              | None => []
              end) l.

(** The requests of the step of a file with key [k]: the metadata
    request, then at most one upload, of the same key. *)
Definition file_requests (rf : string * string) (k : string) (l : list call) : Prop :=
  l = [GetBlobProperties k]
  \/ exists data,
       open_read e (path_of (fst rf) (snd rf)) = Some data
       /\ l = [GetBlobProperties k;
               UploadBlob k data true (content_settings_of (fst rf) (snd rf))].

(** What the step of a file prints: the line of line 51, then its
    outcome. *)
Definition file_report (rf : string * string) (outcome : string) : list string :=
  match dest_path_of (fst rf) (snd rf) with
  | Some k => [uploading_line (path_of (fst rf) (snd rf)) k; outcome]
  | None => []
  end.

(** Lines 40-95: the body of [with ContainerClient...]. *)
Definition sync_body : M W unit :=
  upload_phase ;;
  if sync a then reconcile_phase else mret tt.

End Script.

(** The module body from line 22 on. *)
Definition main {W : Type} {client : ContainerClient W} (e : env) (a : args) : M W unit :=
  let types_map := Mimetypes.with_overrides (types_map_init e) in
  match environ_CONNECTION_STRING e with
  | None => raise (mkExn KeyError "'CONNECTION_STRING'")
  | Some _ => sync_body e a types_map
  end.

(** A run from a fresh process. *)
Definition run {W : Type} {client : ContainerClient W} (e : env) (a : args) (w : W)
  : (exn + unit) * state W :=
  main e a (initial_state w).

End Sync.

(** ** An in-memory container *)

Module MemStore.

Local Open Scope string_scope.

Record Blob := mkBlob {
  blob_data : bytes;
  blob_settings : ContentSettings
}.

Definition props_of (k : string) (b : Blob) : BlobProperties :=
  mkBlobProperties k (blob_settings b).

Section Client.

(** The Content-MD5 the service records by itself for an upload that
    carries none. *)
Variable auto_md5 : bytes -> option bytes.
(** The requests that fail, and the exception each raises. *)
Variable faults : call -> option exn.

Definition stored_settings (data : bytes) (cs : ContentSettings) : ContentSettings :=
  {| content_type := content_type cs;
     content_md5 := match content_md5 cs with
                    | Some m => Some m
                    | None => auto_md5 data
                    end |}.

Definition mem_get_blob_properties (blob : string) (w : gmap string Blob)
  : (exn + BlobProperties) * gmap string Blob :=
  match faults (GetBlobProperties blob) with
  | Some err => (inl err, w)
  | None =>
      match w !! blob with
      | Some b => (inr (props_of blob b), w)
      | None => (inl (mkExn ResourceNotFoundError "The specified blob does not exist."), w)
      end
  end.

Definition mem_upload_blob (blob : string) (data : bytes) (overwrite : bool)
           (cs : ContentSettings) (w : gmap string Blob)
  : (exn + unit) * gmap string Blob :=
  match faults (UploadBlob blob data overwrite cs) with
  | Some err => (inl err, w)
  | None =>
      match w !! blob with
      | Some _ =>
          if overwrite then (inr tt, <[blob := mkBlob data (stored_settings data cs)]> w)
          else (inl (mkExn HttpResponseError "The specified blob already exists."), w)
      | None => (inr tt, <[blob := mkBlob data (stored_settings data cs)]> w)
      end
  end.

(** A failing listing fails at its first request, before a blob is
    yielded. *)
Definition mem_list_blobs (name_starts_with : string) (w : gmap string Blob)
  : Listing * gmap string Blob :=
  match faults (ListBlobs name_starts_with) with
  | Some err => (mkListing [] (Some err), w)
  | None =>
      (mkListing (map (fun kb => props_of (fst kb) (snd kb))
                      (List.filter (fun kb => Str.startswith (fst kb) name_starts_with)
                                   (map_to_list w)))
                 None, w)
  end.

Definition mem_delete_blob (blob : string) (w : gmap string Blob)
  : (exn + unit) * gmap string Blob :=
  match faults (DeleteBlob blob) with
  | Some err => (inl err, w)
  | None =>
      match w !! blob with
      | Some _ => (inr tt, delete blob w)
      | None => (inl (mkExn ResourceNotFoundError "The specified blob does not exist."), w)
      end
  end.

Definition client : ContainerClient (gmap string Blob) :=
  {| get_blob_properties := mem_get_blob_properties;
     upload_blob := mem_upload_blob;
     list_blobs := mem_list_blobs;
     delete_blob := mem_delete_blob |}.

End Client.

(** The client [c] with a pager that fails with [err] once it has yielded
    [n] blobs. *)
Definition interrupted {W : Type} (c : ContainerClient W) (n : nat) (err : exn)
  : ContainerClient W :=
  {| get_blob_properties := get_blob_properties;
     upload_blob := upload_blob;
     list_blobs := fun name_starts_with w =>
       let '(l, w') := list_blobs name_starts_with w in
       (mkListing (firstn n (yielded l)) (Some err), w');
     delete_blob := delete_blob |}.

(** [k not in keep] *)
Definition not_kept (keep : gset string) (k : string) : bool :=
  negb (bool_decide (k ∈ keep)).

(** The keys reconciliation is to delete: those of [w] that start with
    [prefix] and are not in [keep], in listing order. *)
Definition stale_keys (prefix : string) (keep : gset string) (w : gmap string Blob)
  : list string :=
  List.filter (not_kept keep)
    (map fst (List.filter (fun kb => Str.startswith (fst kb) prefix) (map_to_list w))).

(** The blob a file leaves at its key after a step with no failing
    request: the file as uploaded, or the earlier blob [b0] with a
    matching Content-MD5. *)
Definition mirrored (types_map : gmap string string) (root file : string) (data : bytes)
           (b0 : option Blob) (b : Blob) : Prop :=
  (blob_data b = data
   /\ content_type (blob_settings b)
      = Some (Sync.resolve_content_type types_map (Sync.path_of root file)))
  \/ (b0 = Some b /\ content_md5 (blob_settings b) = Some (md5 data)).

(** A service that keeps the Content-MD5 it is sent and computes none. *)
Definition sent_only : bytes -> option bytes := fun _ => None.
(** A service that computes the MD5 of every upload that carries none. *)
Definition computed : bytes -> option bytes := fun data => Some (md5 data).

Definition no_faults : call -> option exn := fun _ => None.

(** The process environment over a directory tree rooted at [top]. *)
Definition env_of_tree (cwd top : string) (t : PosixPath.tree)
           (types_map : gmap string string) : Sync.env :=
  {| Sync.getcwd := cwd;
     Sync.os_walk := fun top' => if String.eqb top' top then PosixPath.walk top t else [];
     Sync.open_read := fun path =>
       snd <$> List.find (fun pd => String.eqb (fst pd) path) (PosixPath.contents top t);
     Sync.types_map_init := types_map;
     Sync.environ_CONNECTION_STRING := Some "UseDevelopmentStorage=true" |}.

End MemStore.

(** ** Concrete inputs *)

Module Examples.

Local Open Scope string_scope.

(** [/a/index.html], [/a/sub/x.txt], [/a/sub/app.js.map]. *)
Definition site_tree : PosixPath.tree :=
  PosixPath.Dir [("index.html", of_string "<html></html>")]
    [("sub", PosixPath.Dir [("x.txt", of_string "hello"); ("app.js.map", of_string "{}")] [])].

(** A types table as [mimetypes.init()] may leave it. *)
Definition system_types : gmap string string :=
  {[ ".html" := "text/html"; ".txt" := "text/plain"; ".ttf" := "font/ttf" ]}.

Definition types : gmap string string := Mimetypes.with_overrides system_types.

Definition site_env : Sync.env :=
  MemStore.env_of_tree "/home/user" "/a" site_tree system_types.

Definition site_args : Sync.args := Sync.mkArgs "/a" "/site" true "$web".

Definition index_html : bytes := of_string "<html></html>".

(** A container that already holds [index.html] with its digest. *)
Definition synced_index : gmap string MemStore.Blob :=
  {[ "site/index.html" :=
       MemStore.mkBlob index_html
         {| content_type := Some "text/html"; content_md5 := Some (md5 index_html) |} ]}.

(** A container that holds the bytes of [index.html] without a digest. *)
Definition index_without_md5 : gmap string MemStore.Blob :=
  {[ "site/index.html" :=
       MemStore.mkBlob index_html {| content_type := Some "text/html"; content_md5 := None |} ]}.

(** One file, [/a/index.html]. *)
Definition one_file_tree : PosixPath.tree :=
  PosixPath.Dir [("index.html", index_html)] [].

Definition one_file_env : Sync.env :=
  MemStore.env_of_tree "/home/user" "/a" one_file_tree system_types.

(** Five files, [/a/f1] to [/a/f5]. *)
Definition five_tree : PosixPath.tree :=
  PosixPath.Dir [("f1", of_string "1"); ("f2", of_string "2"); ("f3", of_string "3");
                 ("f4", of_string "4"); ("f5", of_string "5")] [].

Definition five_env : Sync.env :=
  MemStore.env_of_tree "/home/user" "/a" five_tree system_types.

Definition boom : exn := mkExn HttpResponseError "Server busy".

(** The upload of [site/f3] fails. *)
Definition upload_f3_fails (c : call) : option exn :=
  match c with
  | UploadBlob k _ _ _ => if String.eqb k "site/f3" then Some boom else None
  | _ => None
  end.

(** The metadata request for [site/f3] fails, and not with
    [ResourceNotFoundError]. *)
Definition metadata_f3_fails (c : call) : option exn :=
  match c with
  | GetBlobProperties k => if String.eqb k "site/f3" then Some boom else None
  | _ => None
  end.

(** Every upload fails. *)
Definition uploads_fail (c : call) : option exn :=
  match c with
  | UploadBlob _ _ _ _ => Some boom
  | _ => None
  end.

(** The delete of [site/stale] fails. *)
Definition delete_stale_fails (c : call) : option exn :=
  match c with
  | DeleteBlob k => if String.eqb k "site/stale" then Some boom else None
  | _ => None
  end.

(** [/a/a] and [/a/b], and a container with [site/a], [site/b] and
    [site/stale]. *)
Definition ab_tree : PosixPath.tree :=
  PosixPath.Dir [("a", of_string "A"); ("b", of_string "B")] [].

Definition ab_env : Sync.env :=
  MemStore.env_of_tree "/home/user" "/a" ab_tree system_types.

Definition plain_blob (data : bytes) : MemStore.Blob :=
  MemStore.mkBlob data {| content_type := Some "application/octet-stream";
                          content_md5 := Some (md5 data) |}.

Definition abs_container : gmap string MemStore.Blob :=
  {[ "site/a" := plain_blob (of_string "A");
     "site/b" := plain_blob (of_string "B");
     "site/stale" := plain_blob (of_string "old") ]}.

(** The site tree when [/a/sub/x.txt] cannot be read. *)
Definition unreadable_env : Sync.env :=
  {| Sync.getcwd := Sync.getcwd site_env;
     Sync.os_walk := Sync.os_walk site_env;
     Sync.open_read := fun path =>
       if String.eqb path "/a/sub/x.txt" then None else Sync.open_read site_env path;
     Sync.types_map_init := Sync.types_map_init site_env;
     Sync.environ_CONNECTION_STRING := Sync.environ_CONNECTION_STRING site_env |}.

Definition site_args_no_sync : Sync.args := Sync.mkArgs "/a" "/site" false "$web".

(** A container with the blob [site] itself, a blob under the sibling
    prefix [site2/], and a blob elsewhere. *)
Definition siblings_container : gmap string MemStore.Blob :=
  {[ "site" := plain_blob (of_string "s");
     "site2/index.html" := plain_blob (of_string "other site");
     "other/x" := plain_blob (of_string "x") ]}.

(** A container that holds [index.html] with its digest and an outdated
    content type. *)
Definition stale_type_index : gmap string MemStore.Blob :=
  {[ "site/index.html" :=
       MemStore.mkBlob index_html
         {| content_type := Some "application/octet-stream";
            content_md5 := Some (md5 index_html) |} ]}.

(** Every listing fails. *)
Definition listing_fails (c : call) : option exn :=
  match c with
  | ListBlobs _ => Some boom
  | _ => None
  end.

(** Every request fails. *)
Definition all_fail (c : call) : option exn := Some boom.

End Examples.

(** * Properties *)

(** ** Digests *)

Lemma bytes_eqb_eq (x y : bytes) : bytes_eqb x y = true <-> x = y.
Proof.
  revert y. induction x as [|b x IH]; intros [|c y]; simpl; try (split; congruence).
  rewrite andb_true_iff, IH. split.
  - intros [Hb ->]. apply Byte.byte_dec_bl in Hb. congruence.
  - intros [= -> ->]. split; [apply Byte.byte_dec_lb|]; reflexivity.
Qed.

(** [hashlib.md5(...).digest()] is 16 bytes long. *)
Lemma md5_length (data : bytes) : length (md5 data) = 16%nat.
Proof.
  unfold md5, MD5.digest, MD5.digest_of_regs. rewrite length_map, !length_app. reflexivity.
Qed.

Lemma md5_not_empty (data : bytes) : md5 data <> [].
Proof. intros H. pose proof (md5_length data) as L. rewrite H in L. discriminate L. Qed.

Lemma md5_differs_iff (h : bytes) (fp : option bytes) :
  Sync.md5_differs h fp = true <-> fp <> Some h.
Proof.
  destruct fp as [d|]; simpl; [|split; [discriminate|reflexivity]].
  rewrite negb_true_iff. split.
  - intros Hne [= ->]. assert (bytes_eqb h h = true) by (apply bytes_eqb_eq; reflexivity).
    congruence.
  - intros Hne. destruct (bytes_eqb h d) eqn:E; [|reflexivity].
    apply bytes_eqb_eq in E. congruence.
Qed.

Lemma md5_differs_false_iff (h : bytes) (fp : option bytes) :
  Sync.md5_differs h fp = false <-> fp = Some h.
Proof.
  destruct (Sync.md5_differs h fp) eqn:E.
  - apply md5_differs_iff in E. split; [discriminate|]. intros; contradiction.
  - split; [intros _|reflexivity]. destruct fp as [d|]; [|discriminate E].
    simpl in E. apply negb_false_iff, bytes_eqb_eq in E. congruence.
Qed.

(** ** Strings and paths *)

Section Paths.

Local Open Scope string_scope.
Local Open Scope Z_scope.

Lemma app_cons c (s t : string) : String c s +:+ t = String c (s +:+ t).
Proof. reflexivity. Qed.

Lemma app_nil_l_s (t : string) : EmptyString +:+ t = t.
Proof. reflexivity. Qed.

Lemma app_nil_r_s (s : string) : s +:+ EmptyString = s.
Proof. induction s as [|c s IH]; [reflexivity|]. rewrite app_cons, IH. reflexivity. Qed.

Lemma app_assoc_s (x y z : string) : x +:+ (y +:+ z) = (x +:+ y) +:+ z.
Proof. induction x as [|c x IH]; [reflexivity|]. rewrite !app_cons, IH. reflexivity. Qed.

Lemma split_not_nil s c : Str.split s c <> [].
Proof.
  destruct s as [|x s]; simpl; [discriminate|].
  destruct (Ascii.eqb x c); [discriminate|]. destruct (Str.split s c); discriminate.
Qed.

Lemma split_app_sep x y c :
  Str.split (x +:+ String c y) c = (Str.split x c ++ Str.split y c)%list.
Proof.
  induction x as [|a x IH]; rewrite ?app_cons, ?app_nil_l_s; simpl.
  - rewrite Ascii.eqb_refl. reflexivity.
  - destruct (Ascii.eqb a c); rewrite IH; [reflexivity|].
    pose proof (split_not_nil x c) as Hne.
    destruct (Str.split x c) as [|w ws]; [contradiction|]. reflexivity.
Qed.

Lemma split_no_sep s c : Str.contains s c = false -> Str.split s c = [s].
Proof.
  induction s as [|x s IH]; simpl; [reflexivity|].
  intros H. apply orb_false_iff in H as [Hx Hs]. rewrite Hx, (IH Hs). reflexivity.
Qed.

Lemma split_concat c (l : list string) :
  l <> [] -> Forall (fun w => Str.contains w c = false) l ->
  Str.split (String.concat (String c EmptyString) l) c = l.
Proof.
  induction l as [|a l IH]; [congruence|]. intros _ Hall.
  apply Forall_cons_1 in Hall as [Ha Hl].
  destruct l as [|b l]; [apply split_no_sep, Ha|].
  change (String.concat (String c EmptyString) (a :: b :: l))
    with (a +:+ String c (String.concat (String c EmptyString) (b :: l))).
  rewrite split_app_sep, (split_no_sep _ _ Ha), IH by (congruence || assumption).
  reflexivity.
Qed.

(** *** join2 *)
Lemma name_not_abs c : PosixPath.is_name c = true -> PosixPath.isabs c = false.
Proof.
  unfold PosixPath.is_name, PosixPath.isabs, PosixPath.sep.
  rewrite !andb_true_iff, !negb_true_iff. intros [_ Hc].
  destruct c as [|x c]; [reflexivity|]. simpl in *.
  apply orb_false_iff in Hc as [Hx _]. unfold Str.slash in Hx. rewrite Hx. reflexivity.
Qed.

Lemma name_facts c :
  PosixPath.is_name c = true ->
  Str.is_empty c = false /\ c <> EmptyString /\ c <> "." /\ c <> ".."
  /\ Str.contains c Str.slash = false.
Proof.
  unfold PosixPath.is_name, PosixPath.curdir, PosixPath.pardir.
  rewrite !andb_true_iff, !negb_true_iff, !String.eqb_neq. intros [[[H1 H2] H3] H4].
  repeat split; try assumption. intros ->. discriminate.
Qed.


Lemma join2_name x c :
  PosixPath.isabs c = false -> PosixPath.join2 x c = PosixPath.glue x +:+ c.
Proof.
  intros Hc. unfold PosixPath.join2, PosixPath.glue. fold (PosixPath.isabs c). rewrite Hc.
  destruct (Str.is_empty x || Str.endswith_char x Str.slash); [reflexivity|].
  rewrite <- app_assoc_s. reflexivity.
Qed.

Lemma endswith_char_app x y c :
  Str.is_empty y = false -> Str.endswith_char (x +:+ y) c = Str.endswith_char y c.
Proof.
  intros Hy. induction x as [|a x IH]; [reflexivity|]. rewrite app_cons.
  simpl. rewrite IH. destruct (x +:+ y) eqn:E; [|reflexivity].
  destruct x; [|discriminate E]. rewrite app_nil_l_s in E. subst y. discriminate.
Qed.

Lemma endswith_char_inv x c :
  Str.endswith_char x c = true -> exists x', x = x' +:+ String c EmptyString.
Proof.
  induction x as [|a x IH]; [discriminate|]. simpl.
  destruct x as [|b x].
  - intros H. apply Ascii.eqb_eq in H as ->. exists EmptyString. reflexivity.
  - intros H. destruct (IH H) as [x' ->]. exists (String a x'). reflexivity.
Qed.

Lemma no_sep_endswith s c : Str.contains s c = false -> Str.endswith_char s c = false.
Proof.
  induction s as [|a s IH]; [reflexivity|]. simpl. intros H.
  apply orb_false_iff in H as [Ha Hs]. destruct s; [exact Ha|]. apply IH, Hs.
Qed.

Lemma is_empty_app x y : Str.is_empty (x +:+ y) = Str.is_empty x && Str.is_empty y.
Proof. destruct x; reflexivity. Qed.

(** *** normpath *)
Lemma norm_step_name i l c :
  PosixPath.is_name c = true -> PosixPath.norm_step i l c = (l ++ [c])%list.
Proof.
  intros Hc. destruct (name_facts c Hc) as (_ & H1 & H2 & H3 & _).
  unfold PosixPath.norm_step, PosixPath.curdir, PosixPath.pardir.
  apply String.eqb_neq in H1, H2, H3. rewrite H1, H2, H3. reflexivity.
Qed.

Lemma norm_step_empty i l : PosixPath.norm_step i l EmptyString = l.
Proof. reflexivity. Qed.

Lemma norm_comps_join2 i x c :
  PosixPath.is_name c = true ->
  PosixPath.norm_comps i (PosixPath.join2 x c) = (PosixPath.norm_comps i x ++ [c])%list.
Proof.
  intros Hc. destruct (name_facts c Hc) as (_ & _ & _ & _ & Hslash).
  rewrite join2_name by (apply name_not_abs, Hc).
  unfold PosixPath.norm_comps, PosixPath.glue.
  destruct x as [|a x].
  - cbn [Str.is_empty orb]. rewrite app_nil_l_s, (split_no_sep _ _ Hslash).
    cbn [Str.split fold_left]. rewrite norm_step_empty. cbn [fold_left].
    apply norm_step_name, Hc.
  - cbn [Str.is_empty orb]. destruct (Str.endswith_char (String a x) Str.slash) eqn:He.
    + apply endswith_char_inv in He as [x' ->]. rewrite <- app_assoc_s.
      rewrite app_cons, app_nil_l_s.
      rewrite !split_app_sep, (split_no_sep _ _ Hslash). cbn [Str.split].
      rewrite !fold_left_app. cbn [fold_left]. rewrite norm_step_empty.
      apply norm_step_name, Hc.
    + rewrite <- app_assoc_s. change ("/" +:+ c) with (String Str.slash c).
      rewrite split_app_sep, (split_no_sep _ _ Hslash), fold_left_app. cbn [fold_left].
      apply norm_step_name, Hc.
Qed.

Lemma norm_comps_join i x ds :
  Forall (fun c => PosixPath.is_name c = true) ds ->
  PosixPath.norm_comps i (PosixPath.join x ds) = (PosixPath.norm_comps i x ++ ds)%list.
Proof.
  unfold PosixPath.join. intros Hds. revert x.
  induction Hds as [|c ds Hc Hds IH]; intros x; cbn [fold_left].
  - rewrite app_nil_r. reflexivity.
  - rewrite IH, norm_comps_join2 by exact Hc. rewrite <- app_assoc. reflexivity.
Qed.

Lemma isabs_app x y : PosixPath.isabs x = true -> PosixPath.isabs (x +:+ y) = true.
Proof.
  unfold PosixPath.isabs, PosixPath.sep. destruct x as [|a x]; [discriminate|].
  rewrite app_cons. simpl. auto.
Qed.

Lemma isabs_app_rel x y :
  Str.is_empty x = false -> PosixPath.isabs (x +:+ y) = PosixPath.isabs x.
Proof. destruct x as [|a x]; [discriminate|]. reflexivity. Qed.

Lemma glue_isabs x : PosixPath.isabs (PosixPath.glue x) = PosixPath.isabs x.
Proof.
  unfold PosixPath.glue.
  destruct (Str.is_empty x || Str.endswith_char x Str.slash) eqn:E; [reflexivity|].
  apply isabs_app_rel. apply orb_false_iff in E as [E _]. exact E.
Qed.

Lemma join2_isabs x c :
  PosixPath.isabs c = false -> PosixPath.isabs (PosixPath.join2 x c) = PosixPath.isabs x.
Proof.
  intros Hc. rewrite join2_name by exact Hc. destruct x as [|a x].
  - unfold PosixPath.glue. cbn [Str.is_empty orb]. rewrite app_nil_l_s. exact Hc.
  - rewrite isabs_app_rel, glue_isabs; [reflexivity|].
    unfold PosixPath.glue. destruct (_ || _); reflexivity.
Qed.

Lemma glue_glue x : Str.is_empty x = false -> PosixPath.glue (PosixPath.glue x) = PosixPath.glue x.
Proof.
  intros Hx. unfold PosixPath.glue at 2. rewrite Hx. cbn [orb].
  destruct (Str.endswith_char x Str.slash) eqn:E.
  - unfold PosixPath.glue. rewrite Hx, E. reflexivity.
  - unfold PosixPath.glue. rewrite is_empty_app, Hx, E. cbn [andb orb].
    rewrite endswith_char_app by reflexivity. reflexivity.
Qed.

Lemma glue_app p x : Str.is_empty x = false -> PosixPath.glue (p +:+ x) = p +:+ PosixPath.glue x.
Proof.
  intros Hx. unfold PosixPath.glue. rewrite is_empty_app, Hx, andb_false_r.
  rewrite endswith_char_app by exact Hx. cbn [orb].
  destruct (Str.endswith_char x Str.slash); [reflexivity|]. rewrite app_assoc_s. reflexivity.
Qed.

Lemma made_absolute_join2 cwd x c :
  PosixPath.isabs cwd = true -> PosixPath.is_name c = true ->
  PosixPath.made_absolute cwd (PosixPath.join2 x c)
  = PosixPath.join2 (PosixPath.made_absolute cwd x) c.
Proof.
  intros Hcwd Hc. pose proof (name_not_abs c Hc) as Hrel.
  unfold PosixPath.made_absolute. rewrite join2_isabs by exact Hrel.
  destruct (PosixPath.isabs x) eqn:Hx; cbn [negb]; [reflexivity|].
  unfold PosixPath.join. cbn [fold_left].
  assert (Hcwd' : Str.is_empty cwd = false) by (destruct cwd; [discriminate|reflexivity]).
  rewrite (join2_name cwd x) by exact Hx.
  rewrite (join2_name cwd) by (rewrite join2_isabs; assumption).
  rewrite !(join2_name _ c) by exact Hrel.
  destruct x as [|a x].
  - unfold PosixPath.glue at 2. cbn [Str.is_empty orb]. rewrite app_nil_l_s, app_nil_r_s.
    rewrite glue_glue by exact Hcwd'. reflexivity.
  - rewrite glue_app by reflexivity. rewrite app_assoc_s. reflexivity.
Qed.

Lemma made_absolute_join cwd x ds :
  PosixPath.isabs cwd = true -> Forall (fun c => PosixPath.is_name c = true) ds ->
  PosixPath.made_absolute cwd (PosixPath.join x ds)
  = PosixPath.join (PosixPath.made_absolute cwd x) ds.
Proof.
  unfold PosixPath.join. intros Hcwd Hds. revert x.
  induction Hds as [|c ds Hc Hds IH]; intros x; cbn [fold_left]; [reflexivity|].
  rewrite IH, made_absolute_join2 by assumption. reflexivity.
Qed.

Lemma made_absolute_isabs cwd x :
  PosixPath.isabs cwd = true -> PosixPath.isabs (PosixPath.made_absolute cwd x) = true.
Proof.
  intros Hcwd. unfold PosixPath.made_absolute.
  destruct (PosixPath.isabs x) eqn:Hx; cbn [negb]; [exact Hx|].
  unfold PosixPath.join. cbn [fold_left]. rewrite join2_isabs; assumption.
Qed.

(** *** components of a normalised absolute path *)

Lemma split_no_contains s c : Forall (fun w => Str.contains w c = false) (Str.split s c).
Proof.
  induction s as [|x s IH]; simpl; [repeat constructor|].
  destruct (Ascii.eqb x c) eqn:E; [constructor; [reflexivity|exact IH]|].
  destruct (Str.split s c) as [|w ws]; [repeat constructor; simpl; rewrite E; reflexivity|].
  apply Forall_cons_1 in IH as [Hw Hws]. constructor; [|exact Hws].
  simpl. rewrite E, Hw. reflexivity.
Qed.

Lemma Forall_removelast {A} (P : A -> Prop) (l : list A) :
  Forall P l -> Forall P (removelast l).
Proof.
  induction 1 as [|x l Hx Hl IH]; [constructor|].
  simpl. destruct l; [constructor|]. constructor; assumption.
Qed.

Lemma norm_step_plain i l c :
  Forall (Str.plain Str.slash) l -> Str.contains c Str.slash = false ->
  Forall (Str.plain Str.slash) (PosixPath.norm_step i l c).
Proof.
  intros Hl Hc. unfold PosixPath.norm_step.
  destruct (String.eqb c EmptyString) eqn:E; [exact Hl|]. cbn [orb].
  destruct (String.eqb c PosixPath.curdir); [exact Hl|].
  assert (Hp : Str.plain Str.slash c).
  { split; [exact Hc|]. apply String.eqb_neq in E. destruct c; [congruence|reflexivity]. }
  destruct (_ || _ || _).
  - apply Forall_app. split; [exact Hl|constructor; [exact Hp|constructor]].
  - destruct (negb _); [apply Forall_removelast|]; exact Hl.
Qed.

Lemma norm_comps_plain i y : Forall (Str.plain Str.slash) (PosixPath.norm_comps i y).
Proof.
  unfold PosixPath.norm_comps.
  assert (H : forall comps acc,
             Forall (fun w => Str.contains w Str.slash = false) comps ->
             Forall (Str.plain Str.slash) acc ->
             Forall (Str.plain Str.slash) (fold_left (PosixPath.norm_step i) comps acc)).
  { induction comps as [|c comps IH]; intros acc Hc Hacc; [exact Hacc|].
    apply Forall_cons_1 in Hc as [Hc Hcs]. cbn [fold_left].
    apply IH; [exact Hcs|]. apply norm_step_plain; assumption. }
  apply H; [apply split_no_contains|constructor].
Qed.

Lemma norm_step_initial i j l c :
  i <> 0%nat -> j <> 0%nat -> PosixPath.norm_step i l c = PosixPath.norm_step j l c.
Proof.
  intros Hi Hj. unfold PosixPath.norm_step.
  destruct i; [congruence|]. destruct j; [congruence|]. reflexivity.
Qed.

Lemma norm_comps_initial i j y :
  i <> 0%nat -> j <> 0%nat -> PosixPath.norm_comps i y = PosixPath.norm_comps j y.
Proof.
  intros Hi Hj. unfold PosixPath.norm_comps.
  generalize (@nil string). induction (Str.split y Str.slash) as [|c comps IH]; intros acc;
    [reflexivity|].
  cbn [fold_left]. rewrite (norm_step_initial i j) by assumption. apply IH.
Qed.

Lemma initial_slashes_abs y :
  PosixPath.isabs y = true -> PosixPath.initial_slashes_of y <> 0%nat.
Proof.
  unfold PosixPath.initial_slashes_of, PosixPath.isabs. intros ->.
  destruct (_ && _); discriminate.
Qed.

Lemma filter_plain (l : list string) :
  Forall (Str.plain Str.slash) l -> List.filter (fun x => negb (Str.is_empty x)) l = l.
Proof.
  induction 1 as [|w l [_ Hw] Hl IH]; [reflexivity|]. simpl. rewrite Hw, IH. reflexivity.
Qed.

Lemma nonempty_comps_joined (l : list string) :
  Forall (Str.plain Str.slash) l ->
  List.filter (fun x => negb (Str.is_empty x)) (Str.split (Str.join PosixPath.sep l) Str.slash)
  = l.
Proof.
  intros Hl. destruct l as [|w l]; [reflexivity|].
  unfold Str.join, PosixPath.sep. change "/" with (String Str.slash EmptyString).
  rewrite split_concat; [apply filter_plain, Hl|discriminate|].
  eapply Forall_impl; [exact Hl|]. intros ? [H _]. exact H.
Qed.

Lemma nonempty_comps_normpath y :
  PosixPath.isabs y = true ->
  PosixPath.nonempty_comps (PosixPath.normpath y) = PosixPath.norm_comps 1 y.
Proof.
  intros Habs. pose proof (initial_slashes_abs y Habs) as Hi.
  unfold PosixPath.normpath, PosixPath.nonempty_comps.
  destruct y as [|a y]; [discriminate|]. cbn [Str.is_empty].
  rewrite (norm_comps_initial _ 1) by (exact Hi || discriminate).
  pose proof (norm_comps_plain 1 (String a y)) as Hplain.
  destruct (PosixPath.initial_slashes_of (String a y)) as [|[|n]]; [congruence| |].
  - unfold PosixPath.or_dot, PosixPath.sep. rewrite app_cons, app_nil_l_s.
    cbn [Str.is_empty Str.split]. rewrite Ascii.eqb_refl. cbn [List.filter Str.is_empty negb].
    apply nonempty_comps_joined, Hplain.
  - unfold PosixPath.or_dot, PosixPath.sep. rewrite !app_cons, !app_nil_l_s.
    cbn [Str.is_empty Str.split]. rewrite Ascii.eqb_refl. cbn [List.filter Str.is_empty negb].
    apply nonempty_comps_joined, Hplain.
Qed.

Lemma commonprefix_len_app (l m : list string) :
  PosixPath.commonprefix_len l (l ++ m) = length l.
Proof.
  induction l as [|x l IH]; [destruct m; reflexivity|].
  simpl. rewrite String.eqb_refl, IH. reflexivity.
Qed.

Lemma concat_glued (sep x b : string) (l : list string) :
  String.concat sep ((x +:+ sep +:+ b) :: l) = x +:+ sep +:+ String.concat sep (b :: l).
Proof.
  destruct l as [|c l]; [reflexivity|].
  change (String.concat sep ((x +:+ sep +:+ b) :: c :: l))
    with ((x +:+ sep +:+ b) +:+ sep +:+ String.concat sep (c :: l)).
  change (String.concat sep (b :: c :: l)) with (b +:+ sep +:+ String.concat sep (c :: l)).
  rewrite <- !app_assoc_s. reflexivity.
Qed.

Lemma join_fold acc (p : list string) :
  Str.is_empty acc = false -> Str.endswith_char acc Str.slash = false ->
  Forall (fun c => PosixPath.is_name c = true) p ->
  PosixPath.join acc p = Str.join PosixPath.sep (acc :: p).
Proof.
  unfold PosixPath.join, Str.join. intros He Hs Hp. revert acc He Hs.
  induction Hp as [|b p Hb Hp IH]; intros acc He Hs; [reflexivity|].
  cbn [fold_left].
  destruct (name_facts b Hb) as (Heb & _ & _ & _ & Hsb).
  assert (Hj : PosixPath.join2 acc b = acc +:+ PosixPath.sep +:+ b).
  { rewrite join2_name by (apply name_not_abs, Hb). unfold PosixPath.glue.
    rewrite He, Hs. cbn [orb]. rewrite <- app_assoc_s. reflexivity. }
  rewrite Hj, IH.
  - apply concat_glued.
  - rewrite !is_empty_app, He. reflexivity.
  - rewrite endswith_char_app by (rewrite is_empty_app; reflexivity).
    rewrite endswith_char_app by exact Heb. apply no_sep_endswith, Hsb.
Qed.

Lemma join_names a (p : list string) :
  PosixPath.is_name a = true -> Forall (fun c => PosixPath.is_name c = true) p ->
  PosixPath.join a p = Str.join PosixPath.sep (a :: p).
Proof.
  intros Ha Hp. destruct (name_facts a Ha) as (Hea & _ & _ & _ & Hsa).
  apply join_fold; [exact Hea|apply no_sep_endswith, Hsa|exact Hp].
Qed.

(** *** relpath of a file under the walked root *)
Lemma join2_not_empty x c : Str.is_empty c = false -> Str.is_empty (PosixPath.join2 x c) = false.
Proof.
  intros Hc. unfold PosixPath.join2.
  destruct (Str.startswith c PosixPath.sep); [exact Hc|].
  destruct (_ || _); rewrite !is_empty_app, ?Hc, ?andb_false_r; reflexivity.
Qed.

Lemma relpath_under cwd top ds f :
  PosixPath.isabs cwd = true ->
  Forall (fun c => PosixPath.is_name c = true) ds ->
  PosixPath.is_name f = true ->
  PosixPath.relpath cwd (PosixPath.join (PosixPath.join top ds) [f]) top
  = Some (Str.join PosixPath.sep (ds ++ [f])).
Proof.
  intros Hcwd Hds Hf. destruct (name_facts f Hf) as (Hef & _).
  unfold PosixPath.relpath.
  assert (Hne : Str.is_empty (PosixPath.join (PosixPath.join top ds) [f]) = false)
    by (apply join2_not_empty, Hef).
  rewrite Hne. unfold PosixPath.abspath.
  rewrite !nonempty_comps_normpath by (apply made_absolute_isabs, Hcwd).
  assert (Hall : Forall (fun c => PosixPath.is_name c = true) (ds ++ [f])).
  { apply Forall_app. split; [exact Hds|constructor; [exact Hf|constructor]]. }
  assert (Hpath : PosixPath.join (PosixPath.join top ds) [f] = PosixPath.join top (ds ++ [f])).
  { unfold PosixPath.join. rewrite fold_left_app. reflexivity. }
  rewrite Hpath. rewrite (made_absolute_join cwd top (ds ++ [f]) Hcwd Hall).
  rewrite (norm_comps_join 1 _ _ Hall).
  rewrite commonprefix_len_app, Nat.sub_diag, skipn_app, skipn_all, Nat.sub_diag.
  cbn [repeat skipn app].
  destruct (ds ++ [f])%list as [|c l] eqn:E; [destruct ds; discriminate E|].
  apply Forall_cons_1 in Hall as [Hc Hl]. cbn [drop skipn]. rewrite join_names by assumption.
  reflexivity.
Qed.

(** *** indices *)


Lemma rfind_from_app x y c i last :
  Str.rfind_from (x +:+ y) c i last
  = Str.rfind_from y c (i + Str.len x) (Str.rfind_from x c i last).
Proof.
  unfold Str.len. revert i last. induction x as [|a x IH]; intros i last.
  - rewrite app_nil_l_s. simpl. rewrite Z.add_0_r. reflexivity.
  - rewrite app_cons. cbn [Str.rfind_from String.length]. rewrite IH. f_equal. lia.
Qed.

Lemma rfind_from_none y c i last :
  Str.contains y c = false -> Str.rfind_from y c i last = last.
Proof.
  revert i last. induction y as [|a y IH]; intros i last; [reflexivity|].
  simpl. intros H. apply orb_false_iff in H as [Ha Hy]. rewrite Ha. apply IH, Hy.
Qed.

Lemma rfind_last_sep x e c :
  Str.contains e c = false -> Str.rfind (x +:+ String c e) c = Str.len x.
Proof.
  intros He. unfold Str.rfind. rewrite rfind_from_app. cbn [Str.rfind_from].
  rewrite Ascii.eqb_refl, rfind_from_none by exact He. lia.
Qed.

Lemma drop_app_length x y : Str.drop (String.length x) (x +:+ y) = y.
Proof. induction x as [|a x IH]; [destruct y; reflexivity|]. rewrite app_cons. exact IH. Qed.


Lemma splitext_snd_cases p :
  snd (PosixPath.splitext p) = EmptyString
  \/ snd (PosixPath.splitext p) = Str.drop (Z.to_nat (Str.rfind p Str.dot)) p.
Proof. unfold PosixPath.splitext. destruct (_ && _); [right|left]; reflexivity. Qed.

Lemma splitext_snd_suffix x e :
  Str.contains e Str.dot = false ->
  snd (PosixPath.splitext (x +:+ String Str.dot e)) = EmptyString
  \/ snd (PosixPath.splitext (x +:+ String Str.dot e)) = String Str.dot e.
Proof.
  intros He. destruct (splitext_snd_cases (x +:+ String Str.dot e)) as [H|H]; [left; exact H|].
  right. rewrite H, rfind_last_sep by exact He. unfold Str.len. rewrite Nat2Z.id.
  apply drop_app_length.
Qed.

Lemma assoc_in k v l : Mimetypes.assoc k l = Some v -> In (k, v) l.
Proof.
  induction l as [|[k' v'] l IH]; [discriminate|]. simpl.
  destruct (String.eqb_spec k k') as [->|]; [intros [= ->]; left; reflexivity|].
  intros H. right. apply IH, H.
Qed.

Lemma suffix_map_replacement base ext repl :
  Mimetypes.assoc ext Mimetypes.suffix_map = Some repl ->
  Mimetypes.assoc (Str.lower (snd (PosixPath.splitext (base +:+ repl)))) Mimetypes.suffix_map
  = None.
Proof.
  intros H. apply assoc_in in H. unfold Mimetypes.suffix_map in H.
  assert (Hcases : repl = ".svg.gz" \/ repl = ".tar.gz" \/ repl = ".tar.bz2" \/ repl = ".tar.xz").
  { cbn [In] in H. intuition congruence. }
  assert (Hgo : forall stem e,
             Str.contains e Str.dot = false ->
             Mimetypes.assoc (Str.lower (String Str.dot e)) Mimetypes.suffix_map = None ->
             Mimetypes.assoc
               (Str.lower (snd (PosixPath.splitext (base +:+ (stem +:+ String Str.dot e)))))
               Mimetypes.suffix_map = None).
  { intros stem e He Hnone. rewrite app_assoc_s.
    destruct (splitext_snd_suffix (base +:+ stem) e He) as [-> | ->]; [reflexivity|exact Hnone]. }
  destruct Hcases as [-> | [-> | [-> | ->]]].
  - apply (Hgo ".svg" "gz"); reflexivity.
  - apply (Hgo ".tar" "gz"); reflexivity.
  - apply (Hgo ".tar" "bz2"); reflexivity.
  - apply (Hgo ".tar" "xz"); reflexivity.
Qed.

(** The loop leaves by its own test whenever it may run once. *)
Lemma suffix_loop_exits fuel base ext :
  (1 <= fuel)%nat ->
  Mimetypes.assoc (Str.lower (snd (Mimetypes.suffix_loop fuel base ext))) Mimetypes.suffix_map
  = None.
Proof.
  intros Hfuel. destruct fuel as [|fuel]; [lia|]. cbn [Mimetypes.suffix_loop].
  destruct (Mimetypes.assoc (Str.lower ext) Mimetypes.suffix_map) as [repl|] eqn:E; [|exact E].
  pose proof (suffix_map_replacement base _ repl E) as Hnext.
  destruct (PosixPath.splitext (base +:+ repl)) as [base' ext']. cbn [snd] in Hnext.
  destruct fuel as [|fuel]; cbn [Mimetypes.suffix_loop]; rewrite Hnext; exact Hnext.
Qed.

Lemma suffix_loop_fuel fuel base ext :
  (1 <= fuel)%nat -> Mimetypes.suffix_loop fuel base ext = Mimetypes.suffix_loop 1 base ext.
Proof.
  intros Hfuel. destruct fuel as [|fuel]; [lia|]. cbn [Mimetypes.suffix_loop].
  destruct (Mimetypes.assoc (Str.lower ext) Mimetypes.suffix_map) as [repl|] eqn:E; [|reflexivity].
  pose proof (suffix_map_replacement base _ repl E) as Hnext.
  destruct (PosixPath.splitext (base +:+ repl)) as [base' ext']. cbn [snd] in Hnext.
  destruct fuel as [|fuel]; cbn [Mimetypes.suffix_loop]; rewrite Hnext; reflexivity.
Qed.






















(** *** destination keys *)
Lemma joined_names_not_abs c (l : list string) :
  PosixPath.is_name c = true -> PosixPath.isabs (Str.join PosixPath.sep (c :: l)) = false.
Proof.
  intros Hc. destruct (name_facts c Hc) as (He & _).
  unfold Str.join. destruct l as [|b l]; [apply name_not_abs, Hc|].
  change (String.concat PosixPath.sep (c :: b :: l))
    with (c +:+ PosixPath.sep +:+ String.concat PosixPath.sep (b :: l)).
  rewrite isabs_app_rel by exact He. apply name_not_abs, Hc.
Qed.

(** C5. For a file [f] in the directory that [os.walk] reaches from SOURCE
    through the sub-directories [ds], the destination key is DEST without
    its leading slashes, joined by [os.path.join] with [ds/f], the path of
    the file relative to SOURCE: the stripped DEST, a slash unless it is
    empty or ends with one, then [ds/f]. With SOURCE [/a] and DEST [/site],
    [/a/sub/x.txt] has the key [site/sub/x.txt]. *)
Theorem C5_destination_key (e : Sync.env) (a : Sync.args) (ds : list string) (f : string) :
  PosixPath.isabs (Sync.getcwd e) = true ->
  Forall (fun c => PosixPath.is_name c = true) ds ->
  PosixPath.is_name f = true ->
  let root := PosixPath.join (Sync.SOURCE a) ds in
  let rel := Str.join "/" (ds ++ [f]) in
  let dest := Sync.dest a in
  Sync.dest_path_of e a root f = Some (PosixPath.join dest [rel])
  /\ PosixPath.join dest [rel] = PosixPath.glue dest +:+ rel
  /\ Str.startswith dest "/" = false
  /\ forall e' sync container,
       Sync.dest_path_of e' (Sync.mkArgs "/a" "/site" sync container) "/a/sub" "x.txt"
       = Some "site/sub/x.txt".
Proof.
  intros Hcwd Hds Hf root rel dest. subst root rel dest.
  unfold Sync.dest_path_of, Sync.path_of.
  rewrite (relpath_under _ _ _ _ Hcwd Hds Hf). split; [reflexivity|]. split.
  - unfold PosixPath.join at 1. cbn [fold_left]. apply join2_name.
    destruct ds as [|c ds]; cbn [app].
    + apply (joined_names_not_abs f []), Hf.
    + apply Forall_cons_1 in Hds as [Hc _]. apply joined_names_not_abs, Hc.
  - split; [|reflexivity].
    unfold Sync.dest, Str.slash.
    induction (Sync.DEST a) as [|x s IH]; [reflexivity|]. cbn [Str.lstrip].
    destruct (Ascii.eqb x "/") eqn:E; [exact IH|].
    cbn [Str.startswith]. rewrite E. reflexivity.
Qed.

End Paths.

(** ** Statements and loops *)

Section Statements.

Context {W : Type}.
Implicit Types (st : Sync.state W).

Lemma bind_unfold {A B} (m : Sync.M W A) (f : A -> Sync.M W B) st :
  (m ≫= f) st = match m st with
                | (inl err, st') => (inl err, st')
                | (inr x, st') => f x st'
                end.
Proof. reflexivity. Qed.

Lemma for_each_cons {A} (x : A) l (body : A -> Sync.M W unit) st :
  Sync.for_each (x :: l) body st
  = match body x st with
    | (inl err, st') => (inl err, st')
    | (inr _, st') => Sync.for_each l body st'
    end.
Proof. reflexivity. Qed.

Lemma for_each_app {A} (l1 l2 : list A) (body : A -> Sync.M W unit) st :
  Sync.for_each (l1 ++ l2) body st
  = match Sync.for_each l1 body st with
    | (inl err, st') => (inl err, st')
    | (inr _, st') => Sync.for_each l2 body st'
    end.
Proof.
  revert st. induction l1 as [|x l1 IH]; intros st.
  - reflexivity.
  - simpl app. rewrite !for_each_cons.
    destruct (body x st) as [[err|[]] st']; [reflexivity|]. apply IH.
Qed.

Lemma for_each_map {A B} (f : A -> B) (l : list A) (body : B -> Sync.M W unit) st :
  Sync.for_each (map f l) body st = Sync.for_each l (fun x => body (f x)) st.
Proof.
  revert st. induction l as [|x l IH]; intros st; [reflexivity|].
  simpl map. rewrite !for_each_cons.
  destruct (body (f x) st) as [[err|[]] st']; [reflexivity|]. apply IH.
Qed.

End Statements.

(** Runs a statement of the script symbolically, down to the calls of the
    client. *)
Ltac run_stmt :=
  unfold Sync.fetch_dest_md5, Sync.upload_if_changed, Sync.try_except, Sync.request,
    Sync.print, Sync.print_no_end, Sync.keep_add, Sync.get_files_to_keep, Sync.raise,
    Sync.content_settings_of, mbind, Sync.M_bind, mret, Sync.M_ret;
  cbn -[md5 Sync.md5_differs Sync.resolve_content_type Sync.uploading_line
        Sync.deleting_line Sync.failed_line Sync.path_of Str.nl String.append].

Section Generic.

Context {W : Type} {client : ContainerClient W}.
Variable e : Sync.env.
Variable a : Sync.args.
Variable types_map : gmap string string.
Implicit Types (st : Sync.state W).

Lemma upload_phase_traversed st :
  Sync.upload_phase e a types_map st
  = Sync.for_each (Sync.traversed e a) (Sync.process e a types_map) st.
Proof.
  unfold Sync.upload_phase, Sync.traversed.
  generalize (Sync.os_walk e (Sync.SOURCE a)) as walk. intros walk. revert st.
  induction walk as [|[[root dirs] files] walk IH]; intros st; [reflexivity|].
  rewrite for_each_cons. simpl flat_map. rewrite for_each_app, for_each_map.
  unfold Sync.process at 1. simpl.
  destruct (Sync.for_each files _ st) as [[err|[]] st']; [reflexivity|]. apply IH.
Qed.

Lemma process_file_eq root file st :
  Sync.process_file e a types_map root file st =
  let path := Sync.path_of root file in
  match Sync.dest_path_of e a root file with
  | None => (inl (mkExn ValueError "no path specified"), st)
  | Some k =>
      let st1 := Sync.mkState (Sync.world st) ({[k]} ∪ Sync.files_to_keep st)
                   (Sync.stdout st ++ [Sync.uploading_line path k]) (Sync.calls st) in
      match Sync.open_read e path with
      | None => (inl (mkExn OSError path), st1)
      | Some data =>
          let resp := get_blob_properties k (Sync.world st) in
          let st2 := Sync.mkState (snd resp) (Sync.files_to_keep st1) (Sync.stdout st1)
                       (Sync.calls st ++ [GetBlobProperties k]) in
          match fst resp, Sync.dest_md5_of_response (fst resp) with
          | inl err, None => (inl err, st2)
          | _, None => (inr tt, st2)
          | _, Some fp =>
              if Sync.md5_differs (md5 data) fp then
                let cs := Sync.content_settings_of types_map root file in
                let up := upload_blob k data true cs (snd resp) in
                (inr tt,
                 Sync.mkState (snd up) (Sync.files_to_keep st1)
                   (Sync.stdout st1 ++
                      [match fst up with
                       | inr _ => "done"
                       | inl err => Sync.failed_line err
                       end +:+ Str.nl])
                   (Sync.calls st2 ++ [UploadBlob k data true cs]))
              else
                (inr tt,
                 Sync.mkState (snd resp) (Sync.files_to_keep st1)
                   (Sync.stdout st1 ++ ["skipped" +:+ Str.nl]) (Sync.calls st2))
          end
      end
  end%string.
Proof.
  unfold Sync.process_file.
  destruct (Sync.dest_path_of e a root file) as [k|]; [|reflexivity].
  destruct (Sync.open_read e (Sync.path_of root file)) as [data|]; [|reflexivity].
  run_stmt.
  destruct (get_blob_properties k (Sync.world st)) as [[err|props] w1]; run_stmt.
  - destruct (is_ResourceNotFoundError err); run_stmt; [|reflexivity].
    destruct (Sync.md5_differs _ _); run_stmt; [|reflexivity].
    destruct (upload_blob _ _ _ _ _) as [[err'|[]] w2]; reflexivity.
  - destruct (Sync.md5_differs _ _); run_stmt; [|reflexivity].
    destruct (upload_blob _ _ _ _ _) as [[err'|[]] w2]; reflexivity.
Qed.

(** The traversal up to a file, and what follows it. *)
Lemma upload_phase_split pre rf post st0 st1 :
  Sync.traversed e a = pre ++ rf :: post ->
  Sync.for_each pre (Sync.process e a types_map) st0 = (inr tt, st1) ->
  Sync.upload_phase e a types_map st0
  = match Sync.process e a types_map rf st1 with
    | (inl err, st') => (inl err, st')
    | (inr _, st') => Sync.for_each post (Sync.process e a types_map) st'
    end.
Proof.
  intros Htrav Hpre. rewrite upload_phase_traversed, Htrav, for_each_app, Hpre.
  apply for_each_cons.
Qed.

(** C1. For a file the traversal reaches, with the fingerprint [fp] that
    the metadata response leaves in [dest_md5] (the stored Content-MD5, or
    the empty byte string for a blob that does not exist, which no digest
    equals): the file's requests are the metadata request followed by
    exactly one upload when [fp] differs from the local MD5, and by
    nothing, with "skipped" printed, when it is equal. *)
Theorem C1_upload_iff_fingerprint_differs
  pre root file post st0 st1 k data fp :
  Sync.traversed e a = pre ++ (root, file) :: post ->
  Sync.for_each pre (Sync.process e a types_map) st0 = (inr tt, st1) ->
  Sync.dest_path_of e a root file = Some k ->
  Sync.open_read e (Sync.path_of root file) = Some data ->
  Sync.dest_md5_of_response (fst (get_blob_properties k (Sync.world st1))) = Some fp ->
  exists st2 new,
    Sync.process_file e a types_map root file st1 = (inr tt, st2)
    /\ Sync.upload_phase e a types_map st0
       = Sync.for_each post (Sync.process e a types_map) st2
    /\ Sync.calls st2 = Sync.calls st1 ++ GetBlobProperties k :: new
    /\ (List.Exists (fun c => is_upload c = true) new <-> fp <> Some (md5 data))
    /\ (fp <> Some (md5 data) ->
        new = [UploadBlob k data true (Sync.content_settings_of types_map root file)])
    /\ (fp = Some (md5 data) ->
        new = []
        /\ Sync.stdout st2
           = Sync.stdout st1 ++ [Sync.uploading_line (Sync.path_of root file) k;
                                 ("skipped" +:+ Str.nl)%string])
    /\ Some [] <> Some (md5 data).
Proof.
  intros Htrav Hpre Hk Hopen Hfp.
  pose proof (process_file_eq root file st1) as Heq.
  cbv zeta in Heq. rewrite Hk, Hopen, Hfp in Heq.
  pose proof (upload_phase_split _ _ _ _ _ Htrav Hpre) as Hsplit.
  unfold Sync.process in Hsplit at 1. simpl fst in Hsplit. simpl snd in Hsplit.
  assert (Hne : Some [] <> Some (md5 data)).
  { intros H. assert (Hnil : md5 data = []) by congruence. exact (md5_not_empty _ Hnil). }
  destruct (Sync.md5_differs (md5 data) fp) eqn:Hd.
  - apply md5_differs_iff in Hd.
    assert (Heq' : Sync.process_file e a types_map root file st1
                   = (inr tt, snd (Sync.process_file e a types_map root file st1))).
    { rewrite Heq. destruct (fst (get_blob_properties k (Sync.world st1))); reflexivity. }
    eexists _, [UploadBlob k data true (Sync.content_settings_of types_map root file)].
    split; [exact Heq'|]. rewrite Heq' in Hsplit. split; [exact Hsplit|].
    split.
    { rewrite Heq. destruct (fst (get_blob_properties k (Sync.world st1))); simpl;
        rewrite <- app_assoc; reflexivity. }
    split; [split; [intros _; exact Hd | intros _; constructor; reflexivity]|].
    split; [reflexivity|]. split; [intros; contradiction | exact Hne].
  - apply md5_differs_false_iff in Hd.
    assert (Heq' : Sync.process_file e a types_map root file st1
                   = (inr tt, snd (Sync.process_file e a types_map root file st1))).
    { rewrite Heq. destruct (fst (get_blob_properties k (Sync.world st1))); reflexivity. }
    eexists _, [].
    split; [exact Heq'|]. rewrite Heq' in Hsplit. split; [exact Hsplit|].
    split.
    { rewrite Heq. destruct (fst (get_blob_properties k (Sync.world st1))); reflexivity. }
    split; [split; [intros Hex; inversion Hex | intros; contradiction]|].
    split; [intros; contradiction|]. split; [|exact Hne].
    intros _. split; [reflexivity|].
    rewrite Heq. destruct (fst (get_blob_properties k (Sync.world st1))); simpl;
      rewrite <- app_assoc; reflexivity.
Qed.

(** C9. A blob that exists but whose properties carry no Content-MD5
    compares unequal to every local digest: the file is uploaded again,
    whatever the blob holds (in particular the very bytes of the file),
    and "skipped" is not printed. *)
Theorem C9_unset_md5_is_uploaded_again
  pre root file post st0 st1 k data props :
  Sync.traversed e a = pre ++ (root, file) :: post ->
  Sync.for_each pre (Sync.process e a types_map) st0 = (inr tt, st1) ->
  Sync.dest_path_of e a root file = Some k ->
  Sync.open_read e (Sync.path_of root file) = Some data ->
  fst (get_blob_properties k (Sync.world st1)) = inr props ->
  content_md5 (content_settings props) = None ->
  exists st2 outcome,
    Sync.process_file e a types_map root file st1 = (inr tt, st2)
    /\ Sync.calls st2
       = Sync.calls st1
         ++ [GetBlobProperties k;
             UploadBlob k data true (Sync.content_settings_of types_map root file)]
    /\ Sync.stdout st2
       = Sync.stdout st1 ++ [Sync.uploading_line (Sync.path_of root file) k; outcome]
    /\ outcome <> ("skipped" +:+ Str.nl)%string.
Proof.
  intros Htrav Hpre Hk Hopen Hresp Hmd5.
  pose proof (process_file_eq root file st1) as Heq.
  cbv zeta in Heq. rewrite Hk, Hopen, Hresp in Heq. simpl in Heq. rewrite Hmd5 in Heq.
  simpl in Heq. rewrite Heq. eexists _, _. split; [reflexivity|]. simpl.
  rewrite <- !app_assoc. split; [reflexivity|]. split; [reflexivity|].
  destruct (fst (upload_blob _ _ _ _ _)) as [err|[]]; [|discriminate].
  unfold Sync.failed_line. discriminate.
Qed.

(** C10. An exception of [get_blob_properties] that is not a
    [ResourceNotFoundError] leaves line 65 unhandled: the file's step, the
    traversal and the whole body end with it, right after the metadata
    request, with no outcome printed and no later file visited. A
    [ResourceNotFoundError] is handled: the file is uploaded and the
    traversal goes on. *)
Theorem C10_metadata_failure_aborts
  pre root file post st0 st1 k data err :
  Sync.traversed e a = pre ++ (root, file) :: post ->
  Sync.for_each pre (Sync.process e a types_map) st0 = (inr tt, st1) ->
  Sync.dest_path_of e a root file = Some k ->
  Sync.open_read e (Sync.path_of root file) = Some data ->
  fst (get_blob_properties k (Sync.world st1)) = inl err ->
  (is_ResourceNotFoundError err = false ->
   exists st2,
     Sync.process_file e a types_map root file st1 = (inl err, st2)
     /\ Sync.upload_phase e a types_map st0 = (inl err, st2)
     /\ Sync.sync_body e a types_map st0 = (inl err, st2)
     /\ Sync.calls st2 = Sync.calls st1 ++ [GetBlobProperties k]
     /\ Sync.stdout st2
        = Sync.stdout st1 ++ [Sync.uploading_line (Sync.path_of root file) k])
  /\ (is_ResourceNotFoundError err = true ->
      exists st2,
        Sync.process_file e a types_map root file st1 = (inr tt, st2)
        /\ Sync.upload_phase e a types_map st0
           = Sync.for_each post (Sync.process e a types_map) st2
        /\ Sync.calls st2
           = Sync.calls st1
             ++ [GetBlobProperties k;
                 UploadBlob k data true (Sync.content_settings_of types_map root file)]).
Proof.
  intros Htrav Hpre Hk Hopen Hresp.
  pose proof (process_file_eq root file st1) as Heq.
  cbv zeta in Heq. rewrite Hk, Hopen, Hresp in Heq. simpl in Heq.
  pose proof (upload_phase_split _ _ _ _ _ Htrav Hpre) as Hsplit.
  unfold Sync.process in Hsplit at 1. simpl fst in Hsplit. simpl snd in Hsplit.
  split; intros Hcls; rewrite Hcls in Heq.
  - rewrite Heq in Hsplit. eexists. split; [exact Heq|]. split; [exact Hsplit|].
    split; [|split; reflexivity].
    unfold Sync.sync_body. rewrite bind_unfold, Hsplit. reflexivity.
  - assert (Hd : Sync.md5_differs (md5 data) (Some []) = true).
    { apply md5_differs_iff. intros H.
      assert (Hnil : md5 data = []) by congruence. exact (md5_not_empty _ Hnil). }
    rewrite Hd in Heq. rewrite Heq in Hsplit.
    eexists. split; [exact Heq|]. split; [exact Hsplit|].
    simpl. rewrite <- app_assoc. reflexivity.
Qed.

Lemma reconcile_blob_eq (b : BlobProperties) st :
  Sync.reconcile_blob b st =
  if decide (name b ∈ Sync.files_to_keep st) then (inr tt, st)
  else
    let del := delete_blob (name b) (Sync.world st) in
    (inr tt,
     Sync.mkState (snd del) (Sync.files_to_keep st)
       (Sync.stdout st ++
          [Sync.deleting_line (name b);
           (match fst del with
            | inr _ => "done"
            | inl err => Sync.failed_line err
            end +:+ Str.nl)%string])
       (Sync.calls st ++ [DeleteBlob (name b)])).
Proof.
  unfold Sync.reconcile_blob. run_stmt.
  destruct (decide (name b ∈ Sync.files_to_keep st)); [reflexivity|]. run_stmt.
  destruct (delete_blob (name b) (Sync.world st)) as [[err|[]] w1]; run_stmt;
    rewrite <- app_assoc; reflexivity.
Qed.

(** C7. An exception raised by [upload_blob] for one file is caught by
    line 82: the file's step ends normally with "failed, error: ..."
    printed, and the traversal goes on with the files that follow. An
    exception raised by [delete_blob] for one blob is caught by line 94 in
    the same way, and the loop goes on with the blobs that follow. *)
Theorem C7_failures_are_isolated :
  (forall pre root file post st0 st1 k data fp err,
      Sync.traversed e a = pre ++ (root, file) :: post ->
      Sync.for_each pre (Sync.process e a types_map) st0 = (inr tt, st1) ->
      Sync.dest_path_of e a root file = Some k ->
      Sync.open_read e (Sync.path_of root file) = Some data ->
      Sync.dest_md5_of_response (fst (get_blob_properties k (Sync.world st1))) = Some fp ->
      fp <> Some (md5 data) ->
      fst (upload_blob k data true (Sync.content_settings_of types_map root file)
             (snd (get_blob_properties k (Sync.world st1)))) = inl err ->
      exists st2,
        Sync.process_file e a types_map root file st1 = (inr tt, st2)
        /\ Sync.stdout st2
           = Sync.stdout st1 ++ [Sync.uploading_line (Sync.path_of root file) k;
                                 (Sync.failed_line err +:+ Str.nl)%string]
        /\ Sync.upload_phase e a types_map st0
           = Sync.for_each post (Sync.process e a types_map) st2)
  /\ (forall (b : BlobProperties) post st err,
         name b ∉ Sync.files_to_keep st ->
         fst (delete_blob (name b) (Sync.world st)) = inl err ->
         exists st2,
           Sync.reconcile_blob b st = (inr tt, st2)
           /\ Sync.stdout st2
              = Sync.stdout st ++ [Sync.deleting_line (name b);
                                   (Sync.failed_line err +:+ Str.nl)%string]
           /\ Sync.for_each (b :: post) Sync.reconcile_blob st
              = Sync.for_each post Sync.reconcile_blob st2).
Proof.
  split.
  - intros pre root file post st0 st1 k data fp err Htrav Hpre Hk Hopen Hfp Hne Hup.
    pose proof (process_file_eq root file st1) as Heq.
    cbv zeta in Heq. rewrite Hk, Hopen, Hfp in Heq.
    apply md5_differs_iff in Hne. rewrite Hne, Hup in Heq.
    assert (Heq' : Sync.process_file e a types_map root file st1
                   = (inr tt, snd (Sync.process_file e a types_map root file st1))).
    { rewrite Heq. destruct (fst (get_blob_properties k (Sync.world st1))); reflexivity. }
    pose proof (upload_phase_split _ _ _ _ _ Htrav Hpre) as Hsplit.
    unfold Sync.process in Hsplit at 1. simpl fst in Hsplit. simpl snd in Hsplit.
    rewrite Heq' in Hsplit.
    eexists. split; [exact Heq'|]. split; [|exact Hsplit].
    rewrite Heq. destruct (fst (get_blob_properties k (Sync.world st1))); simpl;
      rewrite <- app_assoc; reflexivity.
  - intros b post st err Hnotin Hdel.
    pose proof (reconcile_blob_eq b st) as Heq.
    destruct (decide (name b ∈ Sync.files_to_keep st)) as [Hin|_]; [contradiction|].
    cbv zeta in Heq. rewrite Hdel in Heq.
    eexists. split; [exact Heq|]. split; [reflexivity|].
    rewrite for_each_cons, Heq. reflexivity.
Qed.

Lemma process_file_calls root file st :
  exists new,
    Sync.calls (snd (Sync.process_file e a types_map root file st)) = Sync.calls st ++ new
    /\ forall c, In c new -> is_upload c = true -> Sync.upload_of e a types_map root file c.
Proof.
  rewrite process_file_eq. cbv zeta.
  destruct (Sync.dest_path_of e a root file) as [k|] eqn:Hk;
    [|exists []; rewrite app_nil_r; split; [reflexivity|intros ? []]].
  destruct (Sync.open_read e (Sync.path_of root file)) as [data|] eqn:Hopen;
    [|exists []; rewrite app_nil_r; split; [reflexivity|intros ? []]].
  assert (Hget : forall c, In c [GetBlobProperties k] -> is_upload c = true ->
                           Sync.upload_of e a types_map root file c).
  { intros c [<-|[]]. discriminate. }
  assert (Hup : forall c,
             In c [GetBlobProperties k;
                   UploadBlob k data true (Sync.content_settings_of types_map root file)] ->
             is_upload c = true -> Sync.upload_of e a types_map root file c).
  { intros c [<-|[<-|[]]]; [discriminate|]. intros _. exists k, data. auto. }
  destruct (fst (get_blob_properties k (Sync.world st))) as [err|props];
    destruct (Sync.dest_md5_of_response _) as [fp|];
    try destruct (Sync.md5_differs (md5 data) fp); simpl; rewrite <- ?app_assoc;
    eexists; (split; [reflexivity|]); assumption.
Qed.

Lemma for_each_process_calls l st :
  exists new,
    Sync.calls (snd (Sync.for_each l (Sync.process e a types_map) st)) = Sync.calls st ++ new
    /\ forall c, In c new -> is_upload c = true ->
                 exists root file, In (root, file) l /\ Sync.upload_of e a types_map root file c.
Proof.
  revert st. induction l as [|[root file] l IH]; intros st.
  - exists []. rewrite app_nil_r. split; [reflexivity|intros ? []].
  - rewrite for_each_cons. unfold Sync.process at 1. simpl fst. simpl snd.
    destruct (process_file_calls root file st) as (new1 & Hc1 & Hu1).
    destruct (Sync.process_file e a types_map root file st) as [[err|[]] st1]; simpl in Hc1.
    + exists new1. split; [exact Hc1|]. intros c Hin Hup.
      exists root, file. split; [left; reflexivity|auto].
    + destruct (IH st1) as (new2 & Hc2 & Hu2).
      exists (new1 ++ new2). rewrite Hc2, Hc1, app_assoc. split; [reflexivity|].
      intros c Hin Hup. apply in_app_or in Hin as [Hin|Hin].
      * exists root, file. split; [left; reflexivity|auto].
      * destruct (Hu2 c Hin Hup) as (r & f & Hrf & Hof).
        exists r, f. split; [right; exact Hrf|exact Hof].
Qed.

(** C3, as the script has it. Every upload request of the upload phase is
    the request of a traversed file: it carries the file's key and bytes,
    [overwrite=True] and content settings whose content type is the
    resolved one and whose Content-MD5 is unset. The script sends no
    fingerprint; what the blob's properties show later is what the
    service records by itself. *)
Theorem C3_upload_sends_content_type_only st0 :
  exists new,
    Sync.calls (snd (Sync.upload_phase e a types_map st0)) = Sync.calls st0 ++ new
    /\ forall c, In c new -> is_upload c = true ->
                 exists root file,
                   In (root, file) (Sync.traversed e a)
                   /\ Sync.upload_of e a types_map root file c.
Proof. rewrite upload_phase_traversed. apply for_each_process_calls. Qed.

Lemma process_file_keep root file st :
  Sync.files_to_keep (snd (Sync.process_file e a types_map root file st))
  = match Sync.dest_path_of e a root file with
    | Some k => {[k]} ∪ Sync.files_to_keep st
    | None => Sync.files_to_keep st
    end.
Proof.
  rewrite process_file_eq. cbv zeta.
  destruct (Sync.dest_path_of e a root file) as [k|]; [|reflexivity].
  destruct (Sync.open_read e (Sync.path_of root file)) as [data|]; [|reflexivity].
  destruct (fst (get_blob_properties k (Sync.world st))) as [err|props];
    destruct (Sync.dest_md5_of_response _) as [fp|];
    try destruct (Sync.md5_differs (md5 data) fp); reflexivity.
Qed.

Lemma process_file_completes root file st st' :
  Sync.process_file e a types_map root file st = (inr tt, st') ->
  exists k, Sync.dest_path_of e a root file = Some k.
Proof.
  rewrite process_file_eq. cbv zeta.
  destruct (Sync.dest_path_of e a root file) as [k|]; [eauto|discriminate].
Qed.

Lemma for_each_process_keep l st st' :
  Sync.for_each l (Sync.process e a types_map) st = (inr tt, st') ->
  exists keys,
    map (fun rf => Sync.dest_path_of e a (fst rf) (snd rf)) l = map Some keys
    /\ Sync.files_to_keep st' = list_to_set keys ∪ Sync.files_to_keep st.
Proof.
  revert st. induction l as [|[root file] l IH]; intros st.
  - intros [= <-]. exists []. split; [reflexivity|]. simpl.
    symmetry. apply (left_id_L ∅ (∪)).
  - rewrite for_each_cons. unfold Sync.process at 1. simpl fst. simpl snd.
    pose proof (process_file_keep root file st) as Hkeep.
    destruct (Sync.process_file e a types_map root file st) as [[err|[]] st1] eqn:Hp;
      [discriminate|].
    intros Hrest. destruct (process_file_completes _ _ _ _ Hp) as [k Hk].
    destruct (IH st1 Hrest) as (keys & Hkeys & Hset).
    exists (k :: keys). simpl. rewrite Hk, Hkeys. split; [reflexivity|].
    rewrite Hset. simpl in Hkeep. rewrite Hkeep, Hk. cbn [list_to_set foldr].
    rewrite (comm_L (∪) {[k]} (list_to_set keys)), (assoc_L (∪)). reflexivity.
Qed.

Lemma for_each_reconcile_keep (l : list BlobProperties) st :
  Sync.files_to_keep (snd (Sync.for_each l Sync.reconcile_blob st)) = Sync.files_to_keep st.
Proof.
  revert st. induction l as [|b l IH]; intros st; [reflexivity|].
  rewrite for_each_cons, reconcile_blob_eq.
  destruct (decide (name b ∈ Sync.files_to_keep st)); [apply IH|].
  cbv beta iota zeta. rewrite IH. reflexivity.
Qed.

(** The loop of lines 87-95 raises nothing itself. *)
Lemma for_each_reconcile_ok (l : list BlobProperties) st :
  fst (Sync.for_each l Sync.reconcile_blob st) = inr tt.
Proof.
  revert st. induction l as [|b l IH]; intros st; [reflexivity|].
  rewrite for_each_cons, reconcile_blob_eq.
  destruct (decide (name b ∈ Sync.files_to_keep st)); apply IH.
Qed.

Lemma reconcile_phase_eq st :
  Sync.reconcile_phase a st =
  let listed := list_blobs (Sync.dest a) (Sync.world st) in
  let st1 := Sync.mkState (snd listed) (Sync.files_to_keep st) (Sync.stdout st)
                          (Sync.calls st ++ [ListBlobs (Sync.dest a)]) in
  (match raised (fst listed) with
   | Some err => inl err
   | None => inr tt
   end,
   snd (Sync.for_each (yielded (fst listed)) Sync.reconcile_blob st1)).
Proof.
  unfold Sync.reconcile_phase. run_stmt.
  destruct (list_blobs (Sync.dest a) (Sync.world st)) as [[blobs stop] w1]. cbn [fst snd yielded raised].
  pose proof (for_each_reconcile_ok blobs
                (Sync.mkState w1 (Sync.files_to_keep st) (Sync.stdout st)
                              (Sync.calls st ++ [ListBlobs (Sync.dest a)]))) as Hok.
  destruct (Sync.for_each blobs Sync.reconcile_blob _) as [[err|[]] st2]; [discriminate Hok|].
  destruct stop; reflexivity.
Qed.

Lemma reconcile_phase_keep st :
  Sync.files_to_keep (snd (Sync.reconcile_phase a st)) = Sync.files_to_keep st.
Proof.
  rewrite reconcile_phase_eq. cbv zeta. cbn [snd].
  rewrite for_each_reconcile_keep. reflexivity.
Qed.

(** C6. The key of a file is in [files_to_keep] from line 50 on, however
    its step ends. When the upload phase of a fresh run completes, every
    traversed file has a key, [files_to_keep] is exactly the set of these
    keys, it has as many elements as there are files when the keys are
    pairwise distinct, and the rest of the run leaves it as it is. *)
Theorem C6_keep_set_is_the_traversed_keys (w : W) (st1 : Sync.state W) :
  Sync.upload_phase e a types_map (Sync.initial_state w) = (inr tt, st1) ->
  (forall root file k st,
      Sync.dest_path_of e a root file = Some k ->
      k ∈ Sync.files_to_keep (snd (Sync.process_file e a types_map root file st)))
  /\ exists keys,
      Sync.dest_keys e a = map Some keys
      /\ Sync.files_to_keep st1 = list_to_set keys
      /\ (NoDup keys ->
          size (Sync.files_to_keep st1) = length (Sync.traversed e a))
      /\ Sync.files_to_keep (snd (Sync.sync_body e a types_map (Sync.initial_state w)))
         = Sync.files_to_keep st1.
Proof.
  intros Hup. split.
  { intros root file k st Hk. rewrite process_file_keep, Hk.
    apply elem_of_union_l, elem_of_singleton. reflexivity. }
  pose proof Hup as Hup'. rewrite upload_phase_traversed in Hup'.
  destruct (for_each_process_keep _ _ _ Hup') as (keys & Hkeys & Hset).
  exists keys. split; [exact Hkeys|].
  assert (Hset' : Sync.files_to_keep st1 = list_to_set keys).
  { rewrite Hset. simpl. apply (right_id_L ∅ (∪)). }
  split; [exact Hset'|]. split.
  - intros Hnd. rewrite Hset', size_list_to_set by exact Hnd.
    apply (f_equal (@length _)) in Hkeys. rewrite !length_map in Hkeys. symmetry. exact Hkeys.
  - unfold Sync.sync_body. rewrite bind_unfold, Hup.
    destruct (Sync.sync a); [apply reconcile_phase_keep|reflexivity].
Qed.

End Generic.

(** ** Runs against the in-memory container *)

Section InMemory.

Variable auto_md5 : bytes -> option bytes.
Variable faults : call -> option exn.
Variable e : Sync.env.
Variable a : Sync.args.
Variable types_map : gmap string string.
Implicit Types (st : Sync.state (gmap string MemStore.Blob)).

Local Abbreviation C := (MemStore.client auto_md5 faults).

(** A step that ends normally on a service that computes the MD5 of
    what it stores leaves the file's digest on its blob, and touches no
    other key. *)
Lemma mem_process_file_stores root file st st1 :
  (forall data, auto_md5 data = Some (md5 data)) ->
  (forall c, faults c = None) ->
  Sync.process_file (client := C) e a types_map root file st = (inr tt, st1) ->
  exists k data b,
    Sync.dest_path_of e a root file = Some k
    /\ Sync.open_read e (Sync.path_of root file) = Some data
    /\ Sync.world st1 !! k = Some b
    /\ content_md5 (MemStore.blob_settings b) = Some (md5 data)
    /\ forall k', k' <> k -> Sync.world st1 !! k' = Sync.world st !! k'.
Proof.
  intros Hauto Hno. rewrite process_file_eq. cbv zeta.
  destruct (Sync.dest_path_of e a root file) as [k|]; [|discriminate].
  destruct (Sync.open_read e (Sync.path_of root file)) as [data|]; [|discriminate].
  cbn [get_blob_properties upload_blob C MemStore.client].
  unfold MemStore.mem_get_blob_properties, MemStore.mem_upload_blob.
  rewrite !Hno.
  destruct (Sync.world st !! k) as [b|] eqn:Hb; cbn [fst snd Sync.dest_md5_of_response
    is_ResourceNotFoundError exn_cls MemStore.props_of content_settings].
  - rewrite Hb.
    destruct (Sync.md5_differs (md5 data) (content_md5 (MemStore.blob_settings b))) eqn:Hd.
    + intros [= <-]. cbn [Sync.world snd]. eexists k, data, _.
      split; [reflexivity|]. split; [reflexivity|].
      rewrite lookup_insert_eq. split; [reflexivity|]. split.
      * unfold MemStore.stored_settings. cbn. apply Hauto.
      * intros k' Hne. apply lookup_insert_ne. congruence.
    + intros [= <-]. cbn [Sync.world snd]. apply md5_differs_false_iff in Hd.
      exists k, data, b. auto.
  - assert (Hd : Sync.md5_differs (md5 data) (Some []) = true).
    { apply md5_differs_iff. intros H.
      assert (Hnil : md5 data = []) by congruence. exact (md5_not_empty _ Hnil). }
    rewrite Hd, Hb. intros [= <-]. cbn [Sync.world snd]. eexists k, data, _.
    split; [reflexivity|]. split; [reflexivity|].
    rewrite lookup_insert_eq. split; [reflexivity|]. split.
    + unfold MemStore.stored_settings. cbn. apply Hauto.
    + intros k' Hne. apply lookup_insert_ne. congruence.
Qed.

(** A step on a file whose blob shows the file's digest: one metadata
    request, "skipped", nothing stored. *)
Lemma mem_process_file_skips root file st k data b :
  faults (GetBlobProperties k) = None ->
  Sync.dest_path_of e a root file = Some k ->
  Sync.open_read e (Sync.path_of root file) = Some data ->
  Sync.world st !! k = Some b ->
  content_md5 (MemStore.blob_settings b) = Some (md5 data) ->
  Sync.process_file (client := C) e a types_map root file st
  = (inr tt,
     Sync.mkState (Sync.world st) ({[k]} ∪ Sync.files_to_keep st)
       (Sync.stdout st ++ [Sync.uploading_line (Sync.path_of root file) k;
                           ("skipped" +:+ Str.nl)%string])
       (Sync.calls st ++ [GetBlobProperties k])).
Proof.
  intros Hno Hk Hopen Hb Hmd5. rewrite process_file_eq. cbv zeta. rewrite Hk, Hopen.
  cbn [get_blob_properties upload_blob C MemStore.client].
  unfold MemStore.mem_get_blob_properties. rewrite Hno, Hb.
  cbn [fst snd Sync.dest_md5_of_response MemStore.props_of content_settings].
  rewrite Hmd5.
  assert (Hd : Sync.md5_differs (md5 data) (Some (md5 data)) = false)
    by (apply md5_differs_false_iff; reflexivity).
  rewrite Hd. cbn [Sync.files_to_keep Sync.stdout Sync.calls].
  rewrite <- app_assoc. reflexivity.
Qed.

Lemma mem_first_run l st st1 :
  (forall data, auto_md5 data = Some (md5 data)) ->
  (forall c, faults c = None) ->
  Sync.for_each l (Sync.process (client := C) e a types_map) st = (inr tt, st1) ->
  NoDup (map (fun rf => Sync.dest_path_of e a (fst rf) (snd rf)) l) ->
  (forall rf, In rf l ->
     exists k data b,
       Sync.dest_path_of e a (fst rf) (snd rf) = Some k
       /\ Sync.open_read e (Sync.path_of (fst rf) (snd rf)) = Some data
       /\ Sync.world st1 !! k = Some b
       /\ content_md5 (MemStore.blob_settings b) = Some (md5 data))
  /\ (forall k', ~ In (Some k') (map (fun rf => Sync.dest_path_of e a (fst rf) (snd rf)) l) ->
                 Sync.world st1 !! k' = Sync.world st !! k').
Proof.
  intros Hauto Hno. revert st. induction l as [|[root file] l IH]; intros st.
  - intros [= <-] _. split; [intros ? []|reflexivity].
  - rewrite for_each_cons. unfold Sync.process at 1. cbn [fst snd].
    destruct (Sync.process_file e a types_map root file st) as [[err|[]] sta] eqn:Hp;
      [discriminate|].
    intros Hrest Hnd. cbn [map fst snd] in Hnd. apply NoDup_cons in Hnd as [Hnotin Hnd].
    rewrite list_elem_of_In in Hnotin.
    destruct (mem_process_file_stores _ _ _ _ Hauto Hno Hp)
      as (k & data & b & Hk & Hopen & Hb & Hmd5 & Hothers).
    destruct (IH sta Hrest Hnd) as [Hfiles Hframe]. rewrite Hk in Hnotin. split.
    + intros rf [<-|Hin]; [|apply Hfiles, Hin].
      exists k, data, b. cbn [fst snd]. rewrite Hframe by exact Hnotin. auto.
    + intros k' Hk'. cbn [map fst snd In] in Hk'. rewrite Hk in Hk'.
      rewrite Hframe by tauto. apply Hothers. intros ->. tauto.
Qed.

Lemma mem_second_run l st :
  (forall c, faults c = None) ->
  (forall rf, In rf l ->
     exists k data b,
       Sync.dest_path_of e a (fst rf) (snd rf) = Some k
       /\ Sync.open_read e (Sync.path_of (fst rf) (snd rf)) = Some data
       /\ Sync.world st !! k = Some b
       /\ content_md5 (MemStore.blob_settings b) = Some (md5 data)) ->
  exists st2,
    Sync.for_each l (Sync.process (client := C) e a types_map) st = (inr tt, st2)
    /\ Sync.world st2 = Sync.world st
    /\ Sync.stdout st2 = Sync.stdout st ++ Sync.skipped_report e a l
    /\ (exists new, Sync.calls st2 = Sync.calls st ++ new
                    /\ forall c, In c new -> is_upload c = false).
Proof.
  intros Hno. revert st. induction l as [|[root file] l IH]; intros st Hall.
  - exists st. split; [reflexivity|]. split; [reflexivity|]. cbn. rewrite app_nil_r.
    split; [reflexivity|]. exists []. rewrite app_nil_r. split; [reflexivity|intros ? []].
  - destruct (Hall (root, file) (or_introl eq_refl))
      as (k & data & b & Hk & Hopen & Hb & Hmd5). cbn [fst snd] in Hk, Hopen.
    rewrite for_each_cons. unfold Sync.process at 1. cbn [fst snd].
    rewrite (mem_process_file_skips _ _ _ _ _ _ (Hno _) Hk Hopen Hb Hmd5).
    edestruct (IH (Sync.mkState (Sync.world st) ({[k]} ∪ Sync.files_to_keep st)
       (Sync.stdout st ++ [Sync.uploading_line (Sync.path_of root file) k;
                           ("skipped" +:+ Str.nl)%string])
       (Sync.calls st ++ [GetBlobProperties k])))
      as (st2 & Hrun & Hw & Hout & new & Hcalls & Hnew).
    { intros rf Hin. apply Hall. right. exact Hin. }
    exists st2. split; [exact Hrun|]. split; [exact Hw|]. split.
    + rewrite Hout. cbn [Sync.stdout Sync.skipped_report flat_map fst snd].
      rewrite Hk, <- app_assoc. reflexivity.
    + exists (GetBlobProperties k :: new). rewrite Hcalls. cbn [Sync.calls].
      rewrite <- app_assoc. split; [reflexivity|].
      intros c [<-|Hin]; [reflexivity|apply Hnew, Hin].
Qed.

(** C2, as the script has it. On a service that records by itself the
    MD5 of every upload, with no request failing, no two files on one
    key, and a first upload phase that ran to its end: a second upload
    phase over the same files, against what the first one left, ends
    normally, prints "skipped" for every file, sends no upload, and
    leaves the container as it was. *)
Theorem C2_second_run_skips_when_md5_is_recorded
  (w0 : gmap string MemStore.Blob) (st1 : Sync.state (gmap string MemStore.Blob)) :
  (forall data, auto_md5 data = Some (md5 data)) ->
  (forall c, faults c = None) ->
  NoDup (Sync.dest_keys e a) ->
  Sync.upload_phase (client := C) e a types_map (Sync.initial_state w0) = (inr tt, st1) ->
  exists st2,
    Sync.upload_phase (client := C) e a types_map (Sync.initial_state (Sync.world st1))
    = (inr tt, st2)
    /\ Sync.stdout st2 = Sync.skipped_report e a (Sync.traversed e a)
    /\ (forall c, In c (Sync.calls st2) -> is_upload c = false)
    /\ Sync.world st2 = Sync.world st1.
Proof.
  intros Hauto Hno Hnd Hfirst. rewrite upload_phase_traversed in Hfirst.
  destruct (mem_first_run _ _ _ Hauto Hno Hfirst Hnd) as [Hfiles _].
  destruct (mem_second_run (Sync.traversed e a) (Sync.initial_state (Sync.world st1))
              Hno Hfiles) as (st2 & Hrun & Hw & Hout & new & Hcalls & Hnew).
  exists st2. rewrite upload_phase_traversed. split; [exact Hrun|].
  split; [exact Hout|]. split; [|exact Hw].
  rewrite Hcalls. exact Hnew.
Qed.

Lemma mem_delete_other k k' (w : gmap string MemStore.Blob) :
  k <> k' -> snd (MemStore.mem_delete_blob faults k' w) !! k = w !! k.
Proof.
  intros Hne. unfold MemStore.mem_delete_blob.
  destruct (faults (DeleteBlob k')); [reflexivity|].
  destruct (w !! k'); [|reflexivity]. cbn. apply lookup_delete_ne. congruence.
Qed.

Lemma mem_delete_same k (w : gmap string MemStore.Blob) :
  faults (DeleteBlob k) = None -> snd (MemStore.mem_delete_blob faults k w) !! k = None.
Proof.
  intros Hno. unfold MemStore.mem_delete_blob. rewrite Hno.
  destruct (w !! k) eqn:Hk; [|exact Hk]. cbn. apply lookup_delete_eq.
Qed.

Lemma mem_reconcile_loop (l : list BlobProperties) st :
  let r := Sync.for_each l (Sync.reconcile_blob (client := C)) st in
  fst r = inr tt
  /\ Sync.calls (snd r)
     = Sync.calls st
       ++ map DeleteBlob (List.filter (MemStore.not_kept (Sync.files_to_keep st)) (map name l))
  /\ (forall k, k ∈ Sync.files_to_keep st \/ ~ In k (map name l) ->
                Sync.world (snd r) !! k = Sync.world st !! k)
  /\ ((forall k, faults (DeleteBlob k) = None) ->
      forall k, In k (map name l) -> k ∉ Sync.files_to_keep st ->
                Sync.world (snd r) !! k = None).
Proof.
  revert st. induction l as [|b l IH]; intros st; cbv zeta.
  - cbn. rewrite app_nil_r. repeat split; try reflexivity. intros _ k [].
  - rewrite for_each_cons, reconcile_blob_eq. cbn [map List.filter]. unfold MemStore.not_kept at 1.
    destruct (decide (name b ∈ Sync.files_to_keep st)) as [Hin|Hnotin].
    + rewrite (bool_decide_eq_true_2 _ Hin). cbn [negb].
      destruct (IH st) as (Hr & Hc & Hkeep & Hdel).
      split; [exact Hr|]. split; [exact Hc|]. split.
      * intros k [Hk|Hk]; apply Hkeep; [left; exact Hk|].
        right. intros Hin'. apply Hk. right. exact Hin'.
      * intros Hno k [<-|Hk] Hnk; [contradiction|]. apply Hdel; assumption.
    + rewrite (bool_decide_eq_false_2 _ Hnotin). cbn [negb]. cbv zeta.
      cbn [delete_blob C MemStore.client].
      set (sta := Sync.mkState _ _ _ _).
      destruct (IH sta) as (Hr & Hc & Hkeep & Hdel). subst sta.
      cbn [Sync.files_to_keep Sync.calls Sync.world] in Hc, Hkeep, Hdel.
      split; [exact Hr|]. split.
      { rewrite Hc. cbn [map]. rewrite <- app_assoc. reflexivity. }
      split.
      * intros k Hk.
        assert (Hne : k <> name b).
        { intros ->. destruct Hk as [Hk|Hk]; [contradiction|]. apply Hk. left. reflexivity. }
        rewrite Hkeep.
        -- apply mem_delete_other, Hne.
        -- destruct Hk as [Hk|Hk]; [left; exact Hk|].
           right. intros Hin'. apply Hk. right. exact Hin'.
      * intros Hno k Hk Hnk.
        destruct (in_dec String.string_dec k (map name l)) as [Hl|Hl].
        -- apply Hdel; assumption.
        -- rewrite Hkeep by (right; exact Hl).
           destruct Hk as [<-|Hk]; [|contradiction]. apply mem_delete_same, Hno.
Qed.

Lemma stale_keys_spec prefix keep (w : gmap string MemStore.Blob) k :
  In k (MemStore.stale_keys prefix keep w)
  <-> is_Some (w !! k) /\ Str.startswith k prefix = true /\ k ∉ keep.
Proof.
  unfold MemStore.stale_keys. rewrite filter_In, in_map_iff. split.
  - intros [[[k' b] [<- Hin]] Hnk]. apply filter_In in Hin as [Hin Hpre]. cbn in *.
    apply list_elem_of_In, elem_of_map_to_list in Hin.
    apply negb_true_iff, bool_decide_eq_false in Hnk. split; [eauto|]. split; assumption.
  - intros ([b Hb] & Hpre & Hnk). split.
    + exists (k, b). split; [reflexivity|]. apply filter_In. split; [|exact Hpre].
      apply list_elem_of_In, elem_of_map_to_list, Hb.
    + apply negb_true_iff, bool_decide_eq_false, Hnk.
Qed.

(** C4. With [--sync], after an upload phase that ran to its end, the
    run goes on with reconciliation. It lists the blobs under the
    prefix and sends one delete for each key of the container that starts
    with the destination prefix and is not in [files_to_keep], and for no
    other key; every other key, in particular every key in
    [files_to_keep], keeps its blob, and when no delete fails every stale
    key is gone. *)
Theorem C4_reconcile_deletes_exactly_the_stale st0 st :
  Sync.sync a = true ->
  Sync.upload_phase (client := C) e a types_map st0 = (inr tt, st) ->
  faults (ListBlobs (Sync.dest a)) = None ->
  let stale := MemStore.stale_keys (Sync.dest a) (Sync.files_to_keep st) (Sync.world st) in
  let r := Sync.sync_body (client := C) e a types_map st0 in
  fst r = inr tt
  /\ Sync.calls (snd r) = Sync.calls st ++ ListBlobs (Sync.dest a) :: map DeleteBlob stale
  /\ (forall k, In k stale
                <-> is_Some (Sync.world st !! k)
                    /\ Str.startswith k (Sync.dest a) = true
                    /\ k ∉ Sync.files_to_keep st)
  /\ (forall k, k ∈ Sync.files_to_keep st -> Sync.world (snd r) !! k = Sync.world st !! k)
  /\ (forall k, ~ In k stale -> Sync.world (snd r) !! k = Sync.world st !! k)
  /\ ((forall k, faults (DeleteBlob k) = None) ->
      forall k, In k stale -> Sync.world (snd r) !! k = None).
Proof.
  intros Hsync Hup Hlist stale r.
  assert (Hr : r = Sync.reconcile_phase (client := C) a st).
  { subst r. unfold Sync.sync_body. rewrite bind_unfold, Hup, Hsync. reflexivity. }
  rewrite Hr. clear r Hr.
  rewrite reconcile_phase_eq. cbv zeta. cbn [list_blobs C MemStore.client].
  unfold MemStore.mem_list_blobs. rewrite Hlist. cbn [fst snd yielded raised].
  set (l := map _ (List.filter _ (map_to_list (Sync.world st)))).
  set (sta := Sync.mkState _ _ _ _).
  assert (Hnames : List.filter (MemStore.not_kept (Sync.files_to_keep st)) (map name l) = stale).
  { subst l stale. unfold MemStore.stale_keys. rewrite map_map. reflexivity. }
  pose proof (mem_reconcile_loop l sta) as (Hres & Hc & Hkeep & Hdel). subst sta.
  cbn [Sync.files_to_keep Sync.calls Sync.world] in Hc, Hkeep, Hdel.
  rewrite Hnames in Hc.
  assert (Hstale_in : forall k, In k stale -> In k (map name l) /\ k ∉ Sync.files_to_keep st).
  { intros k Hk. rewrite <- Hnames in Hk. apply filter_In in Hk as [Hk Hnk].
    split; [exact Hk|]. apply negb_true_iff, bool_decide_eq_false in Hnk. exact Hnk. }
  split; [reflexivity|]. split.
  { rewrite Hc, <- app_assoc. reflexivity. }
  split; [intros k; apply stale_keys_spec|]. split.
  { intros k Hk. apply Hkeep. left. exact Hk. }
  split.
  - intros k Hk. apply Hkeep.
    destruct (decide (k ∈ Sync.files_to_keep st)) as [Hin|Hnotin]; [left; exact Hin|].
    right. intros Hin. apply Hk. rewrite <- Hnames. apply filter_In. split; [exact Hin|].
    apply negb_true_iff, bool_decide_eq_false, Hnotin.
  - intros Hno k Hk. destruct (Hstale_in k Hk) as [Hin Hnk]. apply Hdel; assumption.
Qed.

End InMemory.

(** ** Further properties of the upload phase and of the run *)

Section GenericExtra.

Context {W : Type} {client : ContainerClient W}.
Variable e : Sync.env.
Variable a : Sync.args.
Variable types_map : gmap string string.
Implicit Types (st : Sync.state W).

(** What a step that ends normally sent and printed. *)
Lemma process_file_completed root file st st' :
  Sync.process_file e a types_map root file st = (inr tt, st') ->
  exists k reqs outcome,
    Sync.dest_path_of e a root file = Some k
    /\ Sync.file_requests e types_map (root, file) k reqs
    /\ Sync.calls st' = Sync.calls st ++ reqs
    /\ Sync.is_outcome outcome
    /\ Sync.stdout st' = Sync.stdout st ++ Sync.file_report e a (root, file) outcome
    /\ (reqs = [GetBlobProperties k] <-> outcome = ("skipped" +:+ Str.nl)%string).
Proof.
  rewrite process_file_eq. cbv zeta. unfold Sync.file_report, Sync.file_requests. cbn [fst snd].
  destruct (Sync.dest_path_of e a root file) as [k|]; [|discriminate].
  destruct (Sync.open_read e (Sync.path_of root file)) as [data|]; [|discriminate].
  assert (Hskip : forall (l : list call) (o : string),
             l = [GetBlobProperties k;
                  UploadBlob k data true (Sync.content_settings_of types_map root file)] ->
             (o = ("done" +:+ Str.nl)%string \/ exists err, o = (Sync.failed_line err +:+ Str.nl)%string) ->
             (l = [GetBlobProperties k] <-> o = ("skipped" +:+ Str.nl)%string)).
  { intros l o -> Ho. split; [discriminate|]. intros ->.
    destruct Ho as [Ho|[err Ho]]; [discriminate Ho|]. unfold Sync.failed_line in Ho.
    discriminate Ho. }
  assert (Hup : forall st'',
             st'' = Sync.mkState
                   (snd (upload_blob k data true (Sync.content_settings_of types_map root file)
                           (snd (get_blob_properties k (Sync.world st)))))
                   ({[k]} ∪ Sync.files_to_keep st)
                   ((Sync.stdout st ++ [Sync.uploading_line (Sync.path_of root file) k]) ++
                      [(match fst (upload_blob k data true
                                     (Sync.content_settings_of types_map root file)
                                     (snd (get_blob_properties k (Sync.world st)))) with
                        | inr _ => "done"
                        | inl err => Sync.failed_line err
                        end +:+ Str.nl)%string])
                   ((Sync.calls st ++ [GetBlobProperties k]) ++
                      [UploadBlob k data true (Sync.content_settings_of types_map root file)]) ->
             exists (k0 : string) (reqs : list call) (outcome : string),
               Some k = Some k0
               /\ (reqs = [GetBlobProperties k0]
                   \/ exists data0,
                        Some data = Some data0
                        /\ reqs = [GetBlobProperties k0;
                                   UploadBlob k0 data0 true
                                     (Sync.content_settings_of types_map root file)])
               /\ Sync.calls st'' = Sync.calls st ++ reqs
               /\ Sync.is_outcome outcome
               /\ Sync.stdout st''
                  = Sync.stdout st ++ [Sync.uploading_line (Sync.path_of root file) k; outcome]
               /\ (reqs = [GetBlobProperties k0] <-> outcome = ("skipped" +:+ Str.nl)%string)).
  { intros st'' ->. cbn [Sync.calls Sync.stdout]. rewrite <- !app_assoc. cbn [app].
    destruct (fst (upload_blob _ _ _ _ _)) as [err'|[]];
      (eexists k, _, _; split; [reflexivity|];
       split; [right; exists data; split; reflexivity|]; split; [reflexivity|]).
    + split; [right; right; eexists; reflexivity|]. split; [reflexivity|].
      apply Hskip; eauto.
    + split; [left; reflexivity|]. split; [reflexivity|]. apply Hskip; eauto. }
  assert (Hsk : forall st'',
             st'' = Sync.mkState (snd (get_blob_properties k (Sync.world st)))
                   ({[k]} ∪ Sync.files_to_keep st)
                   ((Sync.stdout st ++ [Sync.uploading_line (Sync.path_of root file) k]) ++
                      [("skipped" +:+ Str.nl)%string])
                   (Sync.calls st ++ [GetBlobProperties k]) ->
             exists (k0 : string) (reqs : list call) (outcome : string),
               Some k = Some k0
               /\ (reqs = [GetBlobProperties k0]
                   \/ exists data0,
                        Some data = Some data0
                        /\ reqs = [GetBlobProperties k0;
                                   UploadBlob k0 data0 true
                                     (Sync.content_settings_of types_map root file)])
               /\ Sync.calls st'' = Sync.calls st ++ reqs
               /\ Sync.is_outcome outcome
               /\ Sync.stdout st''
                  = Sync.stdout st ++ [Sync.uploading_line (Sync.path_of root file) k; outcome]
               /\ (reqs = [GetBlobProperties k0] <-> outcome = ("skipped" +:+ Str.nl)%string)).
  { intros st'' ->. cbn [Sync.calls Sync.stdout]. rewrite <- !app_assoc. cbn [app].
    eexists k, _, _. split; [reflexivity|]. split; [left; reflexivity|].
    split; [reflexivity|]. split; [right; left; reflexivity|].
    split; [reflexivity|]. split; reflexivity. }
  destruct (fst (get_blob_properties k (Sync.world st))) as [err|props];
    cbn [Sync.dest_md5_of_response].
  - destruct (is_ResourceNotFoundError err); [|discriminate].
    destruct (Sync.md5_differs (md5 data) (Some [])); intros [= <-];
      [apply Hup|apply Hsk]; reflexivity.
  - destruct (Sync.md5_differs (md5 data) _); intros [= <-];
      [apply Hup|apply Hsk]; reflexivity.
Qed.

(** The steps of a traversal that ran to its end: for each file its key,
    its requests and its outcome. *)
Lemma for_each_process_completed l st st' :
  Sync.for_each l (Sync.process e a types_map) st = (inr tt, st') ->
  exists steps : list (list call * string),
    Forall2 (fun rf step =>
               exists k,
                 Sync.dest_path_of e a (fst rf) (snd rf) = Some k
                 /\ Sync.file_requests e types_map rf k (fst step)
                 /\ Sync.is_outcome (snd step)
                 /\ (fst step = [GetBlobProperties k]
                     <-> snd step = ("skipped" +:+ Str.nl)%string)) l steps
    /\ Sync.calls st' = Sync.calls st ++ concat (map fst steps)
    /\ Sync.stdout st'
       = Sync.stdout st ++ concat (zip_with (Sync.file_report e a) l (map snd steps)).
Proof.
  revert st. induction l as [|[root file] l IH]; intros st.
  - intros [= <-]. exists []. split; [constructor|]. cbn. rewrite !app_nil_r. split; reflexivity.
  - rewrite for_each_cons. unfold Sync.process at 1. cbn [fst snd].
    destruct (Sync.process_file e a types_map root file st) as [[err|[]] st1] eqn:Hp;
      [discriminate|].
    intros Hrest.
    destruct (process_file_completed _ _ _ _ Hp) as (k & reqs & o & Hk & Hreq & Hc & Ho & Hout & Hiff).
    destruct (IH st1 Hrest) as (steps & Hall & Hcalls & Hstdout).
    exists ((reqs, o) :: steps). split.
    + constructor; [|exact Hall]. exists k. cbn [fst snd]. auto.
    + cbn [map fst snd concat zip_with]. rewrite Hcalls, Hc, Hstdout, Hout, <- !app_assoc.
      split; reflexivity.
Qed.

(** X1. In an upload phase that runs to its end the requests are, file by
    file in traversal order, one [get_blob_properties] for the file's key
    followed by at most one [upload_blob], of that key, with the file's
    bytes, [overwrite=True] and the content settings of line 73. *)
Theorem X1_requests_file_by_file st st' :
  Sync.upload_phase e a types_map st = (inr tt, st') ->
  exists reqs : list (list call),
    Forall2 (fun rf l =>
               exists k,
                 Sync.dest_path_of e a (fst rf) (snd rf) = Some k
                 /\ Sync.file_requests e types_map rf k l) (Sync.traversed e a) reqs
    /\ Sync.calls st' = Sync.calls st ++ concat reqs.
Proof.
  rewrite upload_phase_traversed. intros Hrun.
  destruct (for_each_process_completed _ _ _ Hrun) as (steps & Hall & Hcalls & _).
  exists (map fst steps). split; [|exact Hcalls].
  clear Hcalls Hrun. induction Hall as [|rf step l steps (k & Hk & Hreq & _) Hall IH];
    [constructor|].
  cbn [map]. constructor; [exists k; auto|exact IH].
Qed.

(** X3. An upload phase that runs to its end prints, for each file in
    traversal order, the "Uploading ..." line of line 51 and then exactly
    one of "done", "skipped" and "failed, error: ...". The files printed
    "skipped" and the upload requests together are as many as the files. *)
Theorem X3_one_report_per_file st st' :
  Sync.upload_phase e a types_map st = (inr tt, st') ->
  exists (outcomes : list string) (new : list call),
    length outcomes = length (Sync.traversed e a)
    /\ Forall Sync.is_outcome outcomes
    /\ Sync.stdout st'
       = Sync.stdout st ++ concat (zip_with (Sync.file_report e a) (Sync.traversed e a) outcomes)
    /\ Sync.calls st' = Sync.calls st ++ new
    /\ (length (List.filter (String.eqb ("skipped" +:+ Str.nl)%string) outcomes)
        + length (List.filter is_upload new))%nat
       = length (Sync.traversed e a).
Proof.
  rewrite upload_phase_traversed. intros Hrun.
  destruct (for_each_process_completed _ _ _ Hrun) as (steps & Hall & Hcalls & Hout).
  exists (map snd steps), (concat (map fst steps)).
  split; [rewrite length_map; symmetry; apply (Forall2_length _ _ _ Hall)|].
  split.
  { clear Hcalls Hout Hrun.
    induction Hall as [|rf step l steps (k & _ & _ & Ho & _) Hall IH]; [constructor|].
    cbn [map]. constructor; assumption. }
  split; [exact Hout|]. split; [exact Hcalls|].
  clear Hcalls Hout Hrun.
  induction Hall as [|rf [reqs o] l steps (k & _ & Hreq & _ & Hiff) Hall IH]; [reflexivity|].
  cbn [map fst snd concat List.filter length] in *.
  rewrite List.filter_app, length_app.
  destruct (String.eqb_spec ("skipped" +:+ Str.nl)%string o) as [Heq|Hne].
  - symmetry in Heq. apply Hiff in Heq. subst reqs. cbn. lia.
  - destruct Hreq as [->|(data & _ & ->)].
    + exfalso. apply Hne. symmetry. apply Hiff. reflexivity.
    + cbn. lia.
Qed.

Lemma process_file_request_kinds root file st :
  exists new,
    Sync.calls (snd (Sync.process_file e a types_map root file st)) = Sync.calls st ++ new
    /\ forall c, In c new -> is_list c = false /\ is_delete c = false.
Proof.
  rewrite process_file_eq. cbv zeta.
  destruct (Sync.dest_path_of e a root file) as [k|];
    [|exists []; rewrite app_nil_r; split; [reflexivity|intros ? []]].
  destruct (Sync.open_read e (Sync.path_of root file)) as [data|];
    [|exists []; rewrite app_nil_r; split; [reflexivity|intros ? []]].
  assert (Hget : forall c, In c [GetBlobProperties k] -> is_list c = false /\ is_delete c = false).
  { intros c [<-|[]]. split; reflexivity. }
  assert (Hup : forall c,
             In c [GetBlobProperties k;
                   UploadBlob k data true (Sync.content_settings_of types_map root file)] ->
             is_list c = false /\ is_delete c = false).
  { intros c [<-|[<-|[]]]; split; reflexivity. }
  destruct (fst (get_blob_properties k (Sync.world st))) as [err|props];
    destruct (Sync.dest_md5_of_response _) as [fp|];
    try destruct (Sync.md5_differs (md5 data) fp); simpl; rewrite <- ?app_assoc;
    eexists; (split; [reflexivity|]); assumption.
Qed.

Lemma for_each_process_request_kinds l st :
  exists new,
    Sync.calls (snd (Sync.for_each l (Sync.process e a types_map) st)) = Sync.calls st ++ new
    /\ forall c, In c new -> is_list c = false /\ is_delete c = false.
Proof.
  revert st. induction l as [|[root file] l IH]; intros st.
  - exists []. rewrite app_nil_r. split; [reflexivity|intros ? []].
  - rewrite for_each_cons. unfold Sync.process at 1. cbn [fst snd].
    destruct (process_file_request_kinds root file st) as (new1 & Hc1 & Hk1).
    destruct (Sync.process_file e a types_map root file st) as [[err|[]] st1]; cbn [snd] in Hc1.
    + exists new1. split; [exact Hc1|exact Hk1].
    + destruct (IH st1) as (new2 & Hc2 & Hk2).
      exists (new1 ++ new2). rewrite Hc2, Hc1, app_assoc. split; [reflexivity|].
      intros c Hin. apply in_app_or in Hin as [Hin|Hin]; auto.
Qed.

(** X2. The upload phase sends no [list_blobs] and no [delete_blob]
    request, however it ends; and without [--sync] the body of the run is
    the upload phase alone, so that nothing is listed or deleted. *)
Theorem X2_no_delete_without_sync st :
  Sync.sync a = false ->
  exists new,
    Sync.calls (snd (Sync.sync_body e a types_map st)) = Sync.calls st ++ new
    /\ (forall c, In c new -> is_list c = false /\ is_delete c = false)
    /\ Sync.sync_body e a types_map st = Sync.upload_phase e a types_map st.
Proof.
  intros Hsync.
  assert (Heq : Sync.sync_body e a types_map st = Sync.upload_phase e a types_map st).
  { unfold Sync.sync_body. rewrite bind_unfold, Hsync.
    destruct (Sync.upload_phase e a types_map st) as [[err|[]] st1]; reflexivity. }
  rewrite Heq, upload_phase_traversed.
  destruct (for_each_process_request_kinds (Sync.traversed e a) st) as (new & Hc & Hk).
  exists new. split; [exact Hc|]. split; [exact Hk|reflexivity].
Qed.

(** X4. A file that cannot be opened or read ends the run: the [OSError]
    is raised outside both [try] blocks, after the key was added to
    [files_to_keep] and the "Uploading ..." line was printed; no request
    is sent for the file, no later file is visited, and reconciliation
    does not run. *)
Theorem X4_unreadable_file_aborts pre root file post st0 st1 k :
  Sync.traversed e a = pre ++ (root, file) :: post ->
  Sync.for_each pre (Sync.process e a types_map) st0 = (inr tt, st1) ->
  Sync.dest_path_of e a root file = Some k ->
  Sync.open_read e (Sync.path_of root file) = None ->
  exists err st2,
    exn_cls err = OSError
    /\ Sync.upload_phase e a types_map st0 = (inl err, st2)
    /\ Sync.sync_body e a types_map st0 = (inl err, st2)
    /\ Sync.calls st2 = Sync.calls st1
    /\ Sync.world st2 = Sync.world st1
    /\ Sync.stdout st2
       = Sync.stdout st1 ++ [Sync.uploading_line (Sync.path_of root file) k]
    /\ Sync.files_to_keep st2 = {[k]} ∪ Sync.files_to_keep st1.
Proof.
  intros Htrav Hpre Hk Hopen.
  pose proof (process_file_eq e a types_map root file st1) as Heq.
  cbv zeta in Heq. rewrite Hk, Hopen in Heq.
  pose proof (upload_phase_split e a types_map _ _ _ _ _ Htrav Hpre) as Hsplit.
  unfold Sync.process in Hsplit at 1. cbn [fst snd] in Hsplit. rewrite Heq in Hsplit.
  eexists _, _. split; [|split; [exact Hsplit|]]; [reflexivity|].
  split; [unfold Sync.sync_body; rewrite bind_unfold, Hsplit; reflexivity|].
  repeat split; reflexivity.
Qed.

Lemma type_or_default_not_empty guessed : Str.is_empty (Sync.type_or_default guessed) = false.
Proof.
  unfold Sync.type_or_default. destruct guessed as [ct|]; [|reflexivity].
  destruct (Str.is_empty ct) eqn:E; [reflexivity|exact E].
Qed.

(** X14. Every upload request carries a content type, and never the
    empty one: a missing or empty guess is replaced by
    [application/octet-stream] before [ContentSettings] is built. *)
Theorem X14_upload_content_type_not_empty st :
  exists new,
    Sync.calls (snd (Sync.upload_phase e a types_map st)) = Sync.calls st ++ new
    /\ forall k data overwrite cs,
         In (UploadBlob k data overwrite cs) new ->
         exists ct, content_type cs = Some ct /\ Str.is_empty ct = false.
Proof.
  rewrite upload_phase_traversed.
  destruct (for_each_process_calls e a types_map (Sync.traversed e a) st) as (new & Hc & Hup).
  exists new. split; [exact Hc|].
  intros k data overwrite cs Hin.
  destruct (Hup _ Hin eq_refl) as (root & file & _ & k' & data' & _ & _ & Heq).
  injection Heq as _ _ _ ->. eexists. split; [reflexivity|].
  apply (type_or_default_not_empty (fst (Mimetypes.guess_type types_map (Sync.path_of root file)))).
Qed.

Lemma for_each_reconcile_calls (l : list BlobProperties) st :
  Sync.calls (snd (Sync.for_each l Sync.reconcile_blob st))
  = Sync.calls st
    ++ map DeleteBlob (List.filter (MemStore.not_kept (Sync.files_to_keep st)) (map name l)).
Proof.
  revert st. induction l as [|b l IH]; intros st; [cbn; rewrite app_nil_r; reflexivity|].
  rewrite for_each_cons, reconcile_blob_eq. cbn [map List.filter]. unfold MemStore.not_kept at 1.
  destruct (decide (name b ∈ Sync.files_to_keep st)) as [Hin|Hnotin].
  - rewrite (bool_decide_eq_true_2 _ Hin). cbn [negb]. apply IH.
  - rewrite (bool_decide_eq_false_2 _ Hnotin). cbn [negb]. cbv zeta.
    rewrite IH. cbn [Sync.calls Sync.files_to_keep map]. rewrite <- app_assoc. reflexivity.
Qed.

(** X15. With [--sync], an exception that ends the iteration of
    [list_blobs] is not caught. The blobs that the pager yielded before it
    are reconciled as usual: one delete request for each whose name is not
    in [files_to_keep], in order, and none for a blob that was not yielded;
    then the run ends with that exception. When the pager fails before its
    first blob, nothing is deleted and nothing more is printed. *)
Theorem X15_listing_failure_aborts st0 st1 blobs err w1 :
  Sync.sync a = true ->
  Sync.upload_phase e a types_map st0 = (inr tt, st1) ->
  list_blobs (Sync.dest a) (Sync.world st1) = (mkListing blobs (Some err), w1) ->
  exists st2,
    Sync.sync_body e a types_map st0 = (inl err, st2)
    /\ Sync.calls st2
       = Sync.calls st1
         ++ ListBlobs (Sync.dest a)
            :: map DeleteBlob
                 (List.filter (MemStore.not_kept (Sync.files_to_keep st1)) (map name blobs))
    /\ Sync.files_to_keep st2 = Sync.files_to_keep st1
    /\ (blobs = [] -> Sync.stdout st2 = Sync.stdout st1 /\ Sync.world st2 = w1).
Proof.
  intros Hsync Hup Hlist. unfold Sync.sync_body. rewrite bind_unfold, Hup, Hsync.
  rewrite reconcile_phase_eq, Hlist. cbv zeta. cbn [fst snd yielded raised].
  eexists. split; [reflexivity|]. split; [|split].
  - rewrite for_each_reconcile_calls. cbn [Sync.calls Sync.files_to_keep].
    rewrite <- app_assoc. reflexivity.
  - rewrite for_each_reconcile_keep. reflexivity.
  - intros ->. split; reflexivity.
Qed.

End GenericExtra.

(** ** Further properties of keys and content types *)

Section Keys.

Local Open Scope string_scope.

Lemma plain_not_abs c : Str.plain Str.slash c -> PosixPath.isabs c = false.
Proof.
  intros [Hs He]. destruct c as [|x c]; [reflexivity|].
  unfold PosixPath.isabs, PosixPath.sep. cbn [Str.startswith].
  cbn [Str.contains] in Hs. apply orb_false_iff in Hs as [Hx _].
  unfold Str.slash in Hx. rewrite Hx. reflexivity.
Qed.

Lemma nonempty_comps_plain s : Forall (Str.plain Str.slash) (PosixPath.nonempty_comps s).
Proof.
  unfold PosixPath.nonempty_comps.
  pose proof (split_no_contains s Str.slash) as H.
  induction H as [|w l Hw Hl IH]; [constructor|]. cbn [List.filter].
  destruct (Str.is_empty w) eqn:E; cbn [negb]; [exact IH|].
  constructor; [split; assumption|exact IH].
Qed.

Lemma join_fold_plain acc (p : list string) :
  Str.is_empty acc = false -> Str.endswith_char acc Str.slash = false ->
  Forall (Str.plain Str.slash) p ->
  PosixPath.join acc p = Str.join PosixPath.sep (acc :: p).
Proof.
  unfold PosixPath.join, Str.join. intros He Hs Hp. revert acc He Hs.
  induction Hp as [|b p [Hsb Heb] Hp IH]; intros acc He Hs; [reflexivity|].
  cbn [fold_left].
  assert (Hj : PosixPath.join2 acc b = acc +:+ PosixPath.sep +:+ b).
  { rewrite join2_name by (apply plain_not_abs; split; assumption). unfold PosixPath.glue.
    rewrite He, Hs. cbn [orb]. rewrite <- app_assoc_s. reflexivity. }
  rewrite Hj, IH.
  - apply concat_glued.
  - rewrite !is_empty_app, He. reflexivity.
  - rewrite endswith_char_app by (rewrite is_empty_app; reflexivity).
    rewrite endswith_char_app by exact Heb. apply no_sep_endswith, Hsb.
Qed.

Lemma joined_plain_relative c (l : list string) :
  Str.plain Str.slash c ->
  Str.is_empty (Str.join PosixPath.sep (c :: l)) = false
  /\ PosixPath.isabs (Str.join PosixPath.sep (c :: l)) = false.
Proof.
  intros Hc. pose proof (plain_not_abs c Hc) as Habs. destruct Hc as [_ He].
  unfold Str.join. destruct l as [|b l]; [split; assumption|].
  change (String.concat PosixPath.sep (c :: b :: l))
    with (c +:+ PosixPath.sep +:+ String.concat PosixPath.sep (b :: l)).
  rewrite is_empty_app, He, isabs_app_rel by exact He. split; [reflexivity|exact Habs].
Qed.

(** What [relpath] returns is a relative path, and not the empty one. *)
Lemma relpath_relative cwd path start rel :
  PosixPath.relpath cwd path start = Some rel ->
  Str.is_empty rel = false /\ PosixPath.isabs rel = false.
Proof.
  unfold PosixPath.relpath. destruct (Str.is_empty path); [discriminate|]. cbv zeta.
  set (start_list := PosixPath.nonempty_comps (PosixPath.abspath cwd start)).
  set (path_list := PosixPath.nonempty_comps (PosixPath.abspath cwd path)).
  set (i := PosixPath.commonprefix_len start_list path_list).
  assert (Hall : Forall (Str.plain Str.slash)
                   (repeat PosixPath.pardir (length start_list - i) ++ skipn i path_list)%list).
  { apply Forall_app. split.
    - apply Forall_forall. intros x Hx. apply list_elem_of_In, repeat_spec in Hx. subst x.
      split; reflexivity.
    - apply Forall_drop, nonempty_comps_plain. }
  destruct (repeat PosixPath.pardir (length start_list - i) ++ skipn i path_list)%list
    as [|c l]; [intros [= <-]; split; reflexivity|].
  intros [= <-]. apply Forall_cons_1 in Hall as [Hc Hl].
  destruct Hc as [Hcs Hce].
  rewrite join_fold_plain by (assumption || apply no_sep_endswith, Hcs).
  apply joined_plain_relative. split; assumption.
Qed.

Lemma startswith_app x y : Str.startswith (x +:+ y) x = true.
Proof.
  induction x as [|c x IH]; [reflexivity|]. rewrite app_cons. cbn [Str.startswith].
  rewrite Ascii.eqb_refl. exact IH.
Qed.

Lemma startswith_glue x y : Str.startswith (PosixPath.glue x +:+ y) x = true.
Proof.
  unfold PosixPath.glue. destruct (_ || _); [apply startswith_app|].
  rewrite <- app_assoc_s. apply startswith_app.
Qed.

(** The shape of a destination key. *)
Lemma dest_path_shape (e : Sync.env) (a : Sync.args) root file k :
  Sync.dest_path_of e a root file = Some k ->
  exists rel,
    k = PosixPath.glue (Sync.dest a) +:+ rel
    /\ Str.is_empty rel = false /\ PosixPath.isabs rel = false.
Proof.
  unfold Sync.dest_path_of.
  destruct (PosixPath.relpath _ _ _) as [rel|] eqn:Hrel; [|discriminate].
  intros [= <-]. destruct (relpath_relative _ _ _ _ Hrel) as [He Habs].
  exists rel. split; [|split; assumption].
  unfold PosixPath.join. cbn [fold_left]. apply join2_name, Habs.
Qed.

(** X5. For every directory and every non-empty file name the key of line
    49 is defined ([relpath] does not raise), and it is the stripped DEST,
    a slash unless that is empty or ends with one, and then a non-empty
    relative path: every key starts with the prefix that reconciliation
    lists by. *)
Theorem X5_destination_key_shape (e : Sync.env) (a : Sync.args) root file :
  Str.is_empty file = false ->
  exists rel,
    Sync.dest_path_of e a root file = Some (PosixPath.glue (Sync.dest a) +:+ rel)
    /\ Str.is_empty rel = false
    /\ PosixPath.isabs rel = false
    /\ Str.startswith (PosixPath.glue (Sync.dest a) +:+ rel) (Sync.dest a) = true.
Proof.
  intros Hfile.
  destruct (Sync.dest_path_of e a root file) as [k|] eqn:Hk.
  - destruct (dest_path_shape _ _ _ _ _ Hk) as (rel & -> & He & Habs).
    exists rel. split; [reflexivity|]. split; [exact He|]. split; [exact Habs|].
    apply startswith_glue.
  - exfalso. unfold Sync.dest_path_of, Sync.path_of, PosixPath.relpath in Hk.
    unfold PosixPath.join at 1 in Hk. cbn [fold_left] in Hk.
    rewrite (join2_not_empty root file Hfile) in Hk.
    cbv zeta in Hk.
    destruct (_ ++ _)%list in Hk; discriminate Hk.
Qed.









End Keys.

(** ** Further properties against the in-memory container *)

Section InMemoryExtra.

Variable auto_md5 : bytes -> option bytes.
Variable faults : call -> option exn.
Variable e : Sync.env.
Variable a : Sync.args.
Variable types_map : gmap string string.
Implicit Types (st : Sync.state (gmap string MemStore.Blob)).

Local Abbreviation C := (MemStore.client auto_md5 faults).

(** What the step of one file does to the container: nothing, or it
    stores the file under its key. *)
Lemma mem_process_file_world root file st :
  Sync.world (snd (Sync.process_file (client := C) e a types_map root file st)) = Sync.world st
  \/ exists k data,
       Sync.dest_path_of e a root file = Some k
       /\ Sync.open_read e (Sync.path_of root file) = Some data
       /\ Sync.world (snd (Sync.process_file (client := C) e a types_map root file st))
          = <[k := MemStore.mkBlob data
                     (MemStore.stored_settings auto_md5 data
                        (Sync.content_settings_of types_map root file))]> (Sync.world st).
Proof.
  rewrite process_file_eq. cbv zeta.
  destruct (Sync.dest_path_of e a root file) as [k|]; [|left; reflexivity].
  destruct (Sync.open_read e (Sync.path_of root file)) as [data|]; [|left; reflexivity].
  cbn [get_blob_properties upload_blob C MemStore.client].
  assert (Hup : Sync.world st
                = snd (MemStore.mem_upload_blob auto_md5 faults k data true
                         (Sync.content_settings_of types_map root file) (Sync.world st))
                \/ snd (MemStore.mem_upload_blob auto_md5 faults k data true
                          (Sync.content_settings_of types_map root file) (Sync.world st))
                   = <[k := MemStore.mkBlob data
                              (MemStore.stored_settings auto_md5 data
                                 (Sync.content_settings_of types_map root file))]> (Sync.world st)).
  { unfold MemStore.mem_upload_blob.
    destruct (faults (UploadBlob _ _ _ _)); [left; reflexivity|].
    destruct (Sync.world st !! k); right; reflexivity. }
  assert (Hget : snd (MemStore.mem_get_blob_properties faults k (Sync.world st)) = Sync.world st).
  { unfold MemStore.mem_get_blob_properties.
    destruct (faults (GetBlobProperties k)); [reflexivity|].
    destruct (Sync.world st !! k); reflexivity. }
  rewrite Hget.
  destruct (fst (MemStore.mem_get_blob_properties faults k (Sync.world st))) as [err|props];
    destruct (Sync.dest_md5_of_response _) as [fp|]; try (left; reflexivity);
    (destruct (Sync.md5_differs (md5 data) fp); [|left; reflexivity]);
    cbn [snd Sync.world];
    (destruct Hup as [Hup|Hup]; [left; symmetry; exact Hup|right; exists k, data; auto]).
Qed.

(** The upload phase removes no blob, and leaves every blob whose key is
    not the key of a file of the list. *)
Lemma mem_for_each_process_frame l st :
  (forall k, is_Some (Sync.world st !! k) ->
             is_Some (Sync.world (snd (Sync.for_each l (Sync.process (client := C) e a types_map) st))
                        !! k))
  /\ (forall k, ~ In (Some k) (map (fun rf => Sync.dest_path_of e a (fst rf) (snd rf)) l) ->
                Sync.world (snd (Sync.for_each l (Sync.process (client := C) e a types_map) st))
                  !! k
                = Sync.world st !! k).
Proof.
  revert st. induction l as [|[root file] l IH]; intros st; [split; auto|].
  rewrite for_each_cons. unfold Sync.process at 1 3. cbn [fst snd map].
  pose proof (mem_process_file_world root file st) as Hw.
  destruct (Sync.process_file e a types_map root file st) as [[err|[]] st1]; cbn [snd] in *.
  - split.
    + intros k Hk. destruct Hw as [->|(k' & data & _ & _ & ->)]; [exact Hk|].
      destruct (decide (k' = k)) as [->|Hne];
        [rewrite lookup_insert_eq; eauto|rewrite lookup_insert_ne by exact Hne; exact Hk].
    + intros k Hk. destruct Hw as [->|(k' & data & Hk' & _ & ->)]; [reflexivity|].
      apply lookup_insert_ne. intros ->. apply Hk. left. exact Hk'.
  - destruct (IH st1) as [Hmono Hframe]. split.
    + intros k Hk. apply Hmono. destruct Hw as [->|(k' & data & _ & _ & ->)]; [exact Hk|].
      destruct (decide (k' = k)) as [->|Hne];
        [rewrite lookup_insert_eq; eauto|rewrite lookup_insert_ne by exact Hne; exact Hk].
    + intros k Hk. rewrite Hframe by (intros Hin; apply Hk; right; exact Hin).
      destruct Hw as [->|(k' & data & Hk' & _ & ->)]; [reflexivity|].
      apply lookup_insert_ne. intros ->. apply Hk. left. exact Hk'.
Qed.

(** X7. The upload phase never removes a blob, and never touches a blob
    whose key is not the destination key of a traversed file, whatever
    fails and whatever the service records. *)
Theorem X7_upload_phase_frame st :
  let st' := snd (Sync.upload_phase (client := C) e a types_map st) in
  (forall k, is_Some (Sync.world st !! k) -> is_Some (Sync.world st' !! k))
  /\ (forall k, ~ In (Some k) (Sync.dest_keys e a) ->
                Sync.world st' !! k = Sync.world st !! k).
Proof.
  cbv zeta. rewrite upload_phase_traversed. apply mem_for_each_process_frame.
Qed.

(** A step that ends normally when no request fails: the file is
    skipped on a matching Content-MD5, and stored otherwise. *)
Lemma mem_process_file_no_faults root file st st1 :
  (forall c, faults c = None) ->
  Sync.process_file (client := C) e a types_map root file st = (inr tt, st1) ->
  exists k data,
    Sync.dest_path_of e a root file = Some k
    /\ Sync.open_read e (Sync.path_of root file) = Some data
    /\ ((exists b, Sync.world st !! k = Some b
                   /\ content_md5 (MemStore.blob_settings b) = Some (md5 data)
                   /\ Sync.world st1 = Sync.world st)
        \/ Sync.world st1
           = <[k := MemStore.mkBlob data
                      (MemStore.stored_settings auto_md5 data
                         (Sync.content_settings_of types_map root file))]> (Sync.world st)).
Proof.
  intros Hno. rewrite process_file_eq. cbv zeta.
  destruct (Sync.dest_path_of e a root file) as [k|]; [|discriminate].
  destruct (Sync.open_read e (Sync.path_of root file)) as [data|]; [|discriminate].
  cbn [get_blob_properties upload_blob C MemStore.client].
  unfold MemStore.mem_get_blob_properties, MemStore.mem_upload_blob. rewrite !Hno.
  destruct (Sync.world st !! k) as [b|] eqn:Hb;
    cbn [fst snd Sync.dest_md5_of_response is_ResourceNotFoundError exn_cls MemStore.props_of
         content_settings]; rewrite ?Hb.
  - destruct (Sync.md5_differs (md5 data) (content_md5 (MemStore.blob_settings b))) eqn:Hd;
      intros [= <-]; exists k, data; (split; [reflexivity|]); (split; [reflexivity|]).
    + right. reflexivity.
    + left. exists b. apply md5_differs_false_iff in Hd. auto.
  - assert (Hd : Sync.md5_differs (md5 data) (Some []) = true).
    { apply md5_differs_iff. intros H.
      assert (Hnil : md5 data = []) by congruence. exact (md5_not_empty _ Hnil). }
    rewrite Hd. intros [= <-]. exists k, data. split; [reflexivity|]. split; [reflexivity|].
    right. reflexivity.
Qed.

Lemma mem_upload_result l st st' :
  (forall c, faults c = None) ->
  Sync.for_each l (Sync.process (client := C) e a types_map) st = (inr tt, st') ->
  NoDup (map (fun rf => Sync.dest_path_of e a (fst rf) (snd rf)) l) ->
  forall rf, In rf l ->
    exists k data b,
      Sync.dest_path_of e a (fst rf) (snd rf) = Some k
      /\ Sync.open_read e (Sync.path_of (fst rf) (snd rf)) = Some data
      /\ Sync.world st' !! k = Some b
      /\ MemStore.mirrored types_map (fst rf) (snd rf) data (Sync.world st !! k) b.
Proof.
  intros Hno. revert st. induction l as [|[root file] l IH]; intros st; [intros _ _ ? []|].
  rewrite for_each_cons. unfold Sync.process at 1. cbn [fst snd].
  destruct (Sync.process_file e a types_map root file st) as [[err|[]] st1] eqn:Hp;
    [discriminate|].
  intros Hrest Hnd. cbn [map fst snd] in Hnd. apply NoDup_cons in Hnd as [Hnotin Hnd].
  rewrite list_elem_of_In in Hnotin.
  destruct (mem_process_file_no_faults _ _ _ _ Hno Hp) as (k & data & Hk & Hopen & Hstep).
  rewrite Hk in Hnotin.
  pose proof (mem_for_each_process_frame l st1) as [_ Hframe]. rewrite Hrest in Hframe.
  cbn [snd] in Hframe.
  intros rf [<-|Hin].
  - cbn [fst snd]. pose proof (Hframe k Hnotin) as Hsame.
    destruct Hstep as [(b & Hb & Hmd5 & Hw)|Hw].
    + exists k, data, b. rewrite Hsame, Hw. repeat split; try assumption. right. auto.
    + eexists k, data, _. rewrite Hsame, Hw, lookup_insert_eq.
      repeat split; try assumption. left. split; reflexivity.
  - destruct (IH st1 Hrest Hnd rf Hin) as (k' & data' & b' & Hk' & Hopen' & Hb' & Hm).
    exists k', data', b'. repeat split; try assumption.
    assert (Hne : k <> k').
    { intros ->. apply Hnotin. apply in_map_iff. exists rf. split; [exact Hk'|exact Hin]. }
    assert (Hsame : Sync.world st1 !! k' = Sync.world st !! k').
    { destruct Hstep as [(b & _ & _ & ->) | ->]; [reflexivity|].
      apply lookup_insert_ne, Hne. }
    rewrite <- Hsame. exact Hm.
Qed.

(** Every file of a traversal that ran to its end without a failing
    request has a blob under its key. *)
Lemma mem_keys_present l st st' :
  (forall c, faults c = None) ->
  Sync.for_each l (Sync.process (client := C) e a types_map) st = (inr tt, st') ->
  forall k, In (Some k) (map (fun rf => Sync.dest_path_of e a (fst rf) (snd rf)) l) ->
            is_Some (Sync.world st' !! k).
Proof.
  intros Hno. revert st. induction l as [|[root file] l IH]; intros st; [intros _ ? []|].
  rewrite for_each_cons. unfold Sync.process at 1. cbn [fst snd].
  destruct (Sync.process_file e a types_map root file st) as [[err|[]] st1] eqn:Hp;
    [discriminate|].
  intros Hrest k Hin. cbn [map fst snd] in Hin.
  destruct (mem_process_file_no_faults _ _ _ _ Hno Hp) as (k0 & data & Hk & Hopen & Hstep).
  pose proof (mem_for_each_process_frame l st1) as [Hmono _]. rewrite Hrest in Hmono.
  cbn [snd] in Hmono.
  destruct Hin as [Heq|Hin]; [|exact (IH st1 Hrest k Hin)].
  rewrite Hk in Heq. injection Heq as ->. apply Hmono.
  destruct Hstep as [(b & Hb & _ & ->) | ->]; [eauto|]. rewrite lookup_insert_eq. eauto.
Qed.

(** X8. After an upload phase that ran to its end with no failing
    request and no two files on one key, every traversed file has a blob
    under its key: the file's bytes with the resolved content type, or,
    when the file was skipped, the blob that was there before, whose
    Content-MD5 is the file's digest. *)
Theorem X8_upload_phase_mirrors st st' :
  (forall c, faults c = None) ->
  NoDup (Sync.dest_keys e a) ->
  Sync.upload_phase (client := C) e a types_map st = (inr tt, st') ->
  forall root file, In (root, file) (Sync.traversed e a) ->
    exists k data b,
      Sync.dest_path_of e a root file = Some k
      /\ Sync.open_read e (Sync.path_of root file) = Some data
      /\ Sync.world st' !! k = Some b
      /\ MemStore.mirrored types_map root file data (Sync.world st !! k) b.
Proof.
  intros Hno Hnd Hrun root file Hin. rewrite upload_phase_traversed in Hrun.
  exact (mem_upload_result _ _ _ Hno Hrun Hnd (root, file) Hin).
Qed.

(** Reconciliation against the in-memory container. *)
Lemma mem_reconcile_phase st :
  let stale := MemStore.stale_keys (Sync.dest a) (Sync.files_to_keep st) (Sync.world st) in
  let r := Sync.reconcile_phase (client := C) a st in
  (forall k, k ∈ Sync.files_to_keep st -> Sync.world (snd r) !! k = Sync.world st !! k)
  /\ (forall k, ~ In k stale -> Sync.world (snd r) !! k = Sync.world st !! k)
  /\ ((forall c, faults c = None) -> forall k, In k stale -> Sync.world (snd r) !! k = None).
Proof.
  cbv zeta. rewrite reconcile_phase_eq. cbv zeta. cbn [list_blobs C MemStore.client].
  unfold MemStore.mem_list_blobs.
  destruct (faults (ListBlobs (Sync.dest a))) as [err|] eqn:Hlist; cbn [fst snd yielded raised].
  { cbn [Sync.for_each]. cbn [snd Sync.world]. split; [reflexivity|]. split; [reflexivity|].
    intros Hno. rewrite Hno in Hlist. discriminate Hlist. }
  set (l := map _ (List.filter _ (map_to_list (Sync.world st)))).
  set (sta := Sync.mkState _ _ _ _).
  assert (Hnames : List.filter (MemStore.not_kept (Sync.files_to_keep st)) (map name l)
                   = MemStore.stale_keys (Sync.dest a) (Sync.files_to_keep st) (Sync.world st)).
  { subst l. unfold MemStore.stale_keys. rewrite map_map. reflexivity. }
  pose proof (mem_reconcile_loop auto_md5 faults l sta) as (_ & _ & Hkeep & Hdel). subst sta.
  cbn [Sync.files_to_keep Sync.calls Sync.world] in Hkeep, Hdel.
  split; [intros k Hk; apply Hkeep; left; exact Hk|]. split.
  - intros k Hk. apply Hkeep.
    destruct (decide (k ∈ Sync.files_to_keep st)) as [Hin|Hnotin]; [left; exact Hin|].
    right. intros Hin. apply Hk. rewrite <- Hnames. apply filter_In. split; [exact Hin|].
    apply negb_true_iff, bool_decide_eq_false, Hnotin.
  - intros Hno k Hk. rewrite <- Hnames in Hk. apply filter_In in Hk as [Hk Hnk].
    apply negb_true_iff, bool_decide_eq_false in Hnk.
    apply Hdel; [intros k'; apply Hno|exact Hk|exact Hnk].
Qed.

(** The keys kept after an upload phase of a fresh run that ran to its
    end. *)
Lemma fresh_keep_set (w : gmap string MemStore.Blob) st1 :
  Sync.upload_phase (client := C) e a types_map (Sync.initial_state w) = (inr tt, st1) ->
  forall k, k ∈ Sync.files_to_keep st1 <-> In (Some k) (Sync.dest_keys e a).
Proof.
  intros Hup k. rewrite upload_phase_traversed in Hup.
  destruct (for_each_process_keep e a types_map _ _ _ Hup) as (keys & Hkeys & Hset).
  unfold Sync.dest_keys. rewrite Hkeys, Hset. cbn [Sync.initial_state Sync.files_to_keep].
  rewrite elem_of_union, elem_of_list_to_set, list_elem_of_In, in_map_iff. split.
  - intros [Hin|Hin]; [exists k; auto|]. apply not_elem_of_empty in Hin. contradiction.
  - intros (k' & [= ->] & Hin). left. exact Hin.
Qed.

Lemma sync_body_after_upload st0 st1 :
  Sync.sync a = true ->
  Sync.upload_phase (client := C) e a types_map st0 = (inr tt, st1) ->
  Sync.sync_body (client := C) e a types_map st0 = Sync.reconcile_phase (client := C) a st1.
Proof.
  intros Hsync Hup. unfold Sync.sync_body. rewrite bind_unfold, Hup, Hsync. reflexivity.
Qed.

(** X9. After a run with [--sync] in which no request fails, the blobs
    whose key starts with the destination prefix are exactly the
    destination keys of the traversed files, and every blob whose key does
    not start with the prefix is as it was before the run. *)
Theorem X9_sync_mirrors_the_prefix (w : gmap string MemStore.Blob) st1 :
  (forall c, faults c = None) ->
  Sync.sync a = true ->
  Sync.upload_phase (client := C) e a types_map (Sync.initial_state w) = (inr tt, st1) ->
  let w' := Sync.world (snd (Sync.sync_body (client := C) e a types_map (Sync.initial_state w))) in
  (forall k, Str.startswith k (Sync.dest a) = true ->
             (is_Some (w' !! k) <-> In (Some k) (Sync.dest_keys e a)))
  /\ (forall k, Str.startswith k (Sync.dest a) = false -> w' !! k = w !! k).
Proof.
  intros Hno Hsync Hup. cbv zeta. rewrite (sync_body_after_upload _ _ Hsync Hup).
  pose proof (mem_reconcile_phase st1) as (Hkept & Hother & Hgone). cbv zeta in *.
  pose proof (fresh_keep_set w st1 Hup) as Hkeep.
  pose proof Hup as Hup'. rewrite upload_phase_traversed in Hup'.
  pose proof (mem_keys_present _ _ _ Hno Hup') as Hpresent.
  pose proof (mem_for_each_process_frame (Sync.traversed e a) (Sync.initial_state w))
    as [_ Hframe]. rewrite Hup' in Hframe. cbn [snd Sync.initial_state Sync.world] in Hframe.
  split.
  - intros k Hpre. split.
    + intros Hsome. apply Hkeep.
      destruct (decide (k ∈ Sync.files_to_keep st1)) as [Hin|Hnotin]; [exact Hin|exfalso].
      destruct (Sync.world st1 !! k) as [b|] eqn:Hb.
      * rewrite Hgone in Hsome; [destruct Hsome; discriminate|exact Hno|].
        apply stale_keys_spec. split; [rewrite Hb; eauto|]. split; assumption.
      * rewrite Hother, Hb in Hsome; [destruct Hsome; discriminate|].
        intros Hin. apply stale_keys_spec in Hin as [Hs _]. rewrite Hb in Hs.
        destruct Hs; discriminate.
    + intros Hin. rewrite Hkept by (apply Hkeep, Hin). apply Hpresent, Hin.
  - intros k Hpre. rewrite Hother.
    + apply Hframe. intros Hin. apply in_map_iff in Hin as ([root file] & Hk & _).
      cbn [fst snd] in Hk. destruct (dest_path_shape _ _ _ _ _ Hk) as (rel & -> & _).
      rewrite startswith_glue in Hpre. discriminate Hpre.
    + intros Hin. apply stale_keys_spec in Hin as (_ & Hp & _). congruence.
Qed.

(** X6. Reconciliation lists by string prefix. With a destination prefix
    that is not empty and does not end with a slash, a blob whose key is
    the prefix followed by anything that does not start with a slash (the
    prefix itself, or a sibling such as [site2/x] for the prefix [site])
    is never the key of a traversed file, and a run with [--sync] in which
    no request fails deletes it. *)
Theorem X6_sync_deletes_sibling_prefixes (w : gmap string MemStore.Blob) st1 (s : string) :
  (forall c, faults c = None) ->
  Sync.sync a = true ->
  Sync.upload_phase (client := C) e a types_map (Sync.initial_state w) = (inr tt, st1) ->
  Str.is_empty (Sync.dest a) = false ->
  Str.endswith_char (Sync.dest a) Str.slash = false ->
  PosixPath.isabs s = false ->
  is_Some (w !! (Sync.dest a +:+ s)) ->
  ~ In (Some (Sync.dest a +:+ s)) (Sync.dest_keys e a)
  /\ Sync.world (snd (Sync.sync_body (client := C) e a types_map (Sync.initial_state w)))
       !! (Sync.dest a +:+ s) = None.
Proof.
  intros Hno Hsync Hup Hne Hslash Hs Hsome.
  assert (Hnokey : ~ In (Some (Sync.dest a +:+ s)) (Sync.dest_keys e a)).
  { intros Hin. apply in_map_iff in Hin as ([root file] & Hk & _). cbn [fst snd] in Hk.
    destruct (dest_path_shape _ _ _ _ _ Hk) as (rel & Heq & _ & Hrel).
    unfold PosixPath.glue in Heq. rewrite Hne, Hslash in Heq. cbn [orb] in Heq.
    rewrite <- app_assoc_s in Heq. apply (inj (String.app _)) in Heq. subst s.
    discriminate Hs. }
  split; [exact Hnokey|].
  rewrite (sync_body_after_upload _ _ Hsync Hup).
  pose proof (mem_reconcile_phase st1) as (_ & _ & Hgone). cbv zeta in Hgone.
  apply Hgone; [exact Hno|]. apply stale_keys_spec.
  pose proof Hup as Hup'. rewrite upload_phase_traversed in Hup'.
  pose proof (mem_for_each_process_frame (Sync.traversed e a) (Sync.initial_state w))
    as [_ Hframe]. rewrite Hup' in Hframe. cbn [snd Sync.initial_state Sync.world] in Hframe.
  split; [rewrite (Hframe _ Hnokey); exact Hsome|]. split; [apply startswith_app|].
  intros Hin. apply Hnokey, (fresh_keep_set w st1 Hup), Hin.
Qed.

(** X10. A file whose digest equals the Content-MD5 of its blob is
    skipped whatever else the blob holds: a blob whose stored content type
    differs from the one resolved now keeps the old one, and no upload is
    sent. *)
Theorem X10_skip_keeps_stale_content_type root file st k data b :
  faults (GetBlobProperties k) = None ->
  Sync.dest_path_of e a root file = Some k ->
  Sync.open_read e (Sync.path_of root file) = Some data ->
  Sync.world st !! k = Some b ->
  content_md5 (MemStore.blob_settings b) = Some (md5 data) ->
  content_type (MemStore.blob_settings b)
  <> Some (Sync.resolve_content_type types_map (Sync.path_of root file)) ->
  let st' := snd (Sync.process_file (client := C) e a types_map root file st) in
  Sync.calls st' = Sync.calls st ++ [GetBlobProperties k]
  /\ Sync.world st' = Sync.world st
  /\ exists b', Sync.world st' !! k = Some b'
                /\ content_type (MemStore.blob_settings b')
                   <> Some (Sync.resolve_content_type types_map (Sync.path_of root file)).
Proof.
  intros Hno Hk Hopen Hb Hmd5 Hct. cbv zeta.
  rewrite (mem_process_file_skips auto_md5 faults e a types_map _ _ _ _ _ _ Hno Hk Hopen Hb Hmd5).
  cbn [snd Sync.calls Sync.world]. split; [reflexivity|]. split; [reflexivity|].
  exists b. split; assumption.
Qed.

(** X11. A run never removes the blob of a traversed file: a blob that
    exists before the run under the destination key of a traversed file
    exists after it, with or without [--sync], whatever fails and
    wherever the run ends. *)
Theorem X11_run_keeps_traversed_keys (w : gmap string MemStore.Blob) k :
  In (Some k) (Sync.dest_keys e a) ->
  is_Some (w !! k) ->
  is_Some (Sync.world (snd (Sync.sync_body (client := C) e a types_map (Sync.initial_state w)))
             !! k).
Proof.
  intros Hin Hsome.
  pose proof (mem_for_each_process_frame (Sync.traversed e a) (Sync.initial_state w))
    as [Hmono _]. rewrite <- upload_phase_traversed in Hmono.
  specialize (Hmono k Hsome).
  unfold Sync.sync_body. rewrite bind_unfold.
  destruct (Sync.upload_phase e a types_map (Sync.initial_state w)) as [[err|[]] st1] eqn:Hup;
    [exact Hmono|]. cbn [snd] in Hmono.
  destruct (Sync.sync a); [|exact Hmono].
  pose proof (mem_reconcile_phase st1) as (Hkept & _). cbv zeta in Hkept.
  rewrite Hkept; [exact Hmono|]. apply (fresh_keep_set w st1 Hup), Hin.
Qed.

End InMemoryExtra.

(** ** The properties on concrete inputs *)

Import Examples.

Local Open Scope string_scope.

(** A container whose service computes the MD5 of what it stores, with no
    failing request. *)
Local Abbreviation computing := (MemStore.client MemStore.computed MemStore.no_faults).

(** A container whose service keeps only the Content-MD5 it is sent. *)
Local Abbreviation keeping := (MemStore.client MemStore.sent_only MemStore.no_faults).

Example md5_empty :
  MD5.hexdigest (MD5.update MD5.new (of_string EmptyString))
  = "d41d8cd98f00b204e9800998ecf8427e".
Proof. vm_compute. reflexivity. Qed.

Example md5_abc :
  MD5.hexdigest (MD5.update MD5.new (of_string "abc")) = "900150983cd24fb0d6963f7d28e17f72".
Proof. vm_compute. reflexivity. Qed.

Example md5_two_blocks :
  MD5.hexdigest (MD5.update MD5.new (of_string
    "12345678901234567890123456789012345678901234567890123456789012345678901234567890"))
  = "57edf4a22be3c955ac49da2e2107b67a".
Proof. vm_compute. reflexivity. Qed.

Example relpath_examples :
  PosixPath.relpath "/home/user" "/a/sub/x.txt" "/a" = Some "sub/x.txt"
  /\ PosixPath.relpath "/home/user" "build/./sub//x.txt" "build/" = Some "sub/x.txt"
  /\ PosixPath.relpath "/home/user" "../x.txt" "build/" = Some "../../x.txt".
Proof. vm_compute. auto. Qed.

Example splitext_examples :
  map PosixPath.splitext ["/a/app.js.map"; "/a.b/c"; "/a/.html"; "/a/..x.y"; "x."; "...a"]
  = [("/a/app.js", ".map"); ("/a.b/c", EmptyString); ("/a/.html", EmptyString);
     ("/a/..x", ".y"); ("x", "."); ("...a", EmptyString)].
Proof. vm_compute. reflexivity. Qed.

(** [guess_type] takes its argument as a URL. Under a directory named like
    a data URL the type is the media type of that URL, or [text/plain],
    and not the type of the extension; any other scheme is split off and
    the extension decides. *)
Example guess_type_examples :
  map (Mimetypes.guess_type types)
      ["data:x,y/app.js.map"; "data:text/html;charset=utf-8,x/font.ttf";
       "data:nocomma/index.html"; "DATA:a=b/c,x/index.html";
       "c:x/app.js.map"; "2024-01-01T10:00/index.html"; "./a:b/index.html";
       "/a/X.HTML.gz"; "/a/x.tgz"]
  = [(Some "text/plain", None); (Some "text/html", None);
     (None, None); (Some "text/plain", None);
     (Some "application/octet-stream", None); (Some "text/html", None);
     (Some "text/html", None);
     (Some "text/html", Some "gzip"); (None, Some "gzip")]
  /\ Sync.resolve_content_type types (Sync.path_of "data:x,y" "app.js.map") = "text/plain".
Proof. vm_compute. auto. Qed.

Example walk_site_tree :
  PosixPath.walk "/a" site_tree
  = [("/a", ["sub"], ["index.html"]); ("/a/sub", [], ["x.txt"; "app.js.map"])].
Proof. vm_compute. reflexivity. Qed.

(** A whole run with [--sync] on the site tree against a container that
    holds one stale blob. *)
Example run_site_tree :
  let r := Sync.run (client := computing) site_env site_args
             {[ "site/stale" := plain_blob (of_string "old") ]} in
  fst r = inr tt
  /\ Sync.stdout (snd r)
     = ["Uploading /a/index.html ⭢ site/index.html... "; "done" +:+ Str.nl;
        "Uploading /a/sub/x.txt ⭢ site/sub/x.txt... "; "done" +:+ Str.nl;
        "Uploading /a/sub/app.js.map ⭢ site/sub/app.js.map... "; "done" +:+ Str.nl;
        "Deleting site/stale... "; "done" +:+ Str.nl]
  /\ elements (dom (Sync.world (snd r)))
     = ["site/sub/app.js.map"; "site/sub/x.txt"; "site/index.html"].
Proof. vm_compute. auto. Qed.

(** C1 on [/a/index.html] against a container that holds it with its
    digest: one metadata request, no upload, "skipped". *)
Lemma C1_witness :
  exists st2,
    Sync.process_file (client := computing) site_env site_args types "/a" "index.html"
      (Sync.initial_state synced_index) = (inr tt, st2)
    /\ Sync.calls st2 = [GetBlobProperties "site/index.html"]
    /\ Sync.stdout st2
       = [Sync.uploading_line "/a/index.html" "site/index.html"; "skipped" +:+ Str.nl].
Proof.
  destruct (C1_upload_iff_fingerprint_differs (client := computing) site_env site_args types
              [] "/a" "index.html" [("/a/sub", "x.txt"); ("/a/sub", "app.js.map")]
              (Sync.initial_state synced_index) (Sync.initial_state synced_index)
              "site/index.html" index_html (Some (md5 index_html)))
    as (st2 & new & Hp & _ & Hc & _ & _ & Hskip & _);
    [vm_compute; reflexivity..|].
  destruct (Hskip eq_refl) as [-> Hout]. exists st2. split; [exact Hp|]. split; assumption.
Defined.

(** C2 (as amended) on the site tree: a first run into an empty container,
    then a second one. *)
Lemma C2_witness :
  exists st2,
    Sync.upload_phase (client := computing) site_env site_args types
      (Sync.initial_state
         (Sync.world (snd (Sync.upload_phase (client := computing) site_env site_args types
                             (Sync.initial_state ∅)))))
    = (inr tt, st2)
    /\ Sync.stdout st2 = Sync.skipped_report site_env site_args (Sync.traversed site_env site_args)
    /\ (forall c, In c (Sync.calls st2) -> is_upload c = false)
    /\ Sync.world st2
       = Sync.world (snd (Sync.upload_phase (client := computing) site_env site_args types
                            (Sync.initial_state ∅))).
Proof.
  apply (C2_second_run_skips_when_md5_is_recorded MemStore.computed MemStore.no_faults
           site_env site_args types ∅).
  - intros data. reflexivity.
  - intros c. reflexivity.
  - apply (bool_decide_unpack _). vm_compute. exact I.
  - vm_compute. reflexivity.
Defined.

(** C2 as stated fails. On a service that keeps only the Content-MD5 it
    is sent, the blob of the first run shows none, and the second run
    uploads the unchanged file again and prints "done". On a service that
    does compute the MD5, the same happens when the upload of the first run
    failed. *)
Lemma C2_counterexample :
  (let first := Sync.upload_phase (client := keeping) one_file_env site_args types
                  (Sync.initial_state ∅) in
   let second := Sync.upload_phase (client := keeping) one_file_env site_args types
                   (Sync.initial_state (Sync.world (snd first))) in
   fst first = inr tt
   /\ fst second = inr tt
   /\ Sync.stdout (snd second)
      = ["Uploading /a/index.html ⭢ site/index.html... "; "done" +:+ Str.nl]
   /\ Sync.stdout (snd second)
      <> Sync.skipped_report one_file_env site_args (Sync.traversed one_file_env site_args)
   /\ In (UploadBlob "site/index.html" index_html true
            {| content_type := Some "text/html"; content_md5 := None |})
         (Sync.calls (snd second)))
  /\ (let first := Sync.upload_phase
                     (client := MemStore.client MemStore.computed uploads_fail)
                     one_file_env site_args types (Sync.initial_state ∅) in
      let second := Sync.upload_phase (client := computing) one_file_env site_args types
                      (Sync.initial_state (Sync.world (snd first))) in
      fst first = inr tt
      /\ Sync.stdout (snd first)
         = ["Uploading /a/index.html ⭢ site/index.html... ";
            "failed, error: Server busy" +:+ Str.nl]
      /\ Sync.stdout (snd second)
         = ["Uploading /a/index.html ⭢ site/index.html... "; "done" +:+ Str.nl]
      /\ Sync.stdout (snd second)
         <> Sync.skipped_report one_file_env site_args
              (Sync.traversed one_file_env site_args)).
Proof.
  vm_compute. repeat split; try (intros H; discriminate H). right. left. reflexivity.
Qed.

(** C3 as stated fails. The upload request of [/a/index.html] carries the
    content type and no Content-MD5; on a service that keeps what it is sent
    the properties of the blob then show none. *)
Lemma C3_counterexample :
  let st := snd (Sync.upload_phase (client := keeping) one_file_env site_args types
                   (Sync.initial_state ∅)) in
  exists cs,
    Sync.calls st
    = [GetBlobProperties "site/index.html"; UploadBlob "site/index.html" index_html true cs]
    /\ content_type cs = Some "text/html"
    /\ content_md5 cs = None
    /\ content_md5 cs <> Some (md5 index_html)
    /\ fst (get_blob_properties (ContainerClient := keeping) "site/index.html" (Sync.world st))
       = inr (mkBlobProperties "site/index.html"
                {| content_type := Some "text/html"; content_md5 := None |}).
Proof.
  exists {| content_type := Some "text/html"; content_md5 := None |}.
  vm_compute. repeat split. intros H. discriminate H.
Qed.

(** C4 on the container [{site/a, site/b, site/stale}] with the files [a]
    and [b] under SOURCE: exactly [site/stale] is deleted, the other two
    remain. *)
Lemma C4_witness :
  let r := Sync.sync_body (client := computing) ab_env site_args types
             (Sync.initial_state abs_container) in
  fst r = inr tt
  /\ List.filter is_delete (Sync.calls (snd r)) = [DeleteBlob "site/stale"]
  /\ Sync.world (snd r) !! "site/stale" = None
  /\ Sync.world (snd r) !! "site/a" = abs_container !! "site/a"
  /\ Sync.world (snd r) !! "site/b" = abs_container !! "site/b".
Proof.
  pose proof (C4_reconcile_deletes_exactly_the_stale MemStore.computed MemStore.no_faults
                ab_env site_args types (Sync.initial_state abs_container)
                (snd (Sync.upload_phase (client := computing) ab_env site_args types
                        (Sync.initial_state abs_container))))
    as H.
  destruct H as (Hr & Hc & _ & Hkept & _ & Hgone);
    [reflexivity | vm_compute; reflexivity | reflexivity |].
  split; [exact Hr|]. split.
  { rewrite Hc. vm_compute. reflexivity. }
  split.
  { apply Hgone; [intros k; reflexivity|]. vm_compute. left. reflexivity. }
  split.
  - rewrite Hkept by (apply (bool_decide_unpack _); vm_compute; exact I).
    vm_compute. reflexivity.
  - rewrite Hkept by (apply (bool_decide_unpack _); vm_compute; exact I).
    vm_compute. reflexivity.
Defined.

(** C5 on [/a/sub/x.txt] with SOURCE [/a] and DEST [/site]. *)
Lemma C5_witness :
  Sync.dest_path_of site_env site_args (PosixPath.join "/a" ["sub"]) "x.txt"
  = Some (PosixPath.join (Sync.dest site_args) [Str.join "/" ["sub"; "x.txt"]])
  /\ PosixPath.join (Sync.dest site_args) [Str.join "/" ["sub"; "x.txt"]] = "site/sub/x.txt".
Proof.
  split; [|reflexivity].
  apply (C5_destination_key site_env site_args ["sub"] "x.txt"); [reflexivity| |reflexivity].
  constructor; [reflexivity|constructor].
Defined.

(** C6 on the site tree: three files, three keys, and reconciliation
    leaves the set as it is. *)
Lemma C6_witness :
  let st1 := snd (Sync.upload_phase (client := computing) site_env site_args types
                    (Sync.initial_state ∅)) in
  size (Sync.files_to_keep st1) = 3%nat
  /\ Sync.files_to_keep
       (snd (Sync.sync_body (client := computing) site_env site_args types
               (Sync.initial_state ∅)))
     = Sync.files_to_keep st1.
Proof.
  destruct (C6_keep_set_is_the_traversed_keys (client := computing) site_env site_args types ∅
              (snd (Sync.upload_phase (client := computing) site_env site_args types
                      (Sync.initial_state ∅))))
    as (_ & keys & Hkeys & _ & Hsize & Hsame); [vm_compute; reflexivity|].
  split; [|exact Hsame].
  vm_compute in Hkeys.
  destruct keys as [|k1 [|k2 [|k3 [|k4 keys]]]]; try discriminate Hkeys.
  injection Hkeys as <- <- <-.
  rewrite Hsize; [reflexivity|].
  apply (bool_decide_unpack _). vm_compute. exact I.
Defined.

(** C7 on five files when the upload of the third fails, and on a delete
    that fails. *)
Lemma C7_witness :
  (let st0 := Sync.initial_state (∅ : gmap string MemStore.Blob) in
   let failing := MemStore.client MemStore.computed upload_f3_fails in
   Sync.stdout (snd (Sync.upload_phase (client := failing) five_env site_args types st0))
   = ["Uploading /a/f1 ⭢ site/f1... "; "done" +:+ Str.nl;
      "Uploading /a/f2 ⭢ site/f2... "; "done" +:+ Str.nl;
      "Uploading /a/f3 ⭢ site/f3... "; "failed, error: Server busy" +:+ Str.nl;
      "Uploading /a/f4 ⭢ site/f4... "; "done" +:+ Str.nl;
      "Uploading /a/f5 ⭢ site/f5... "; "done" +:+ Str.nl]
   /\ exists st2,
       Sync.upload_phase (client := failing) five_env site_args types st0
       = Sync.for_each [("/a", "f4"); ("/a", "f5")]
           (Sync.process (client := failing) five_env site_args types) st2)
  /\ (let failing := MemStore.client MemStore.computed delete_stale_fails in
      let st := Sync.mkState abs_container ({[ "site/a"; "site/b" ]} : gset string) [] [] in
      let b := mkBlobProperties "site/stale"
                 (MemStore.blob_settings (plain_blob (of_string "old"))) in
      exists st2,
        Sync.reconcile_blob (client := failing) b st = (inr tt, st2)
        /\ Sync.stdout st2
           = (Sync.stdout st ++ [Sync.deleting_line "site/stale";
                                 Sync.failed_line boom +:+ Str.nl])%list).
Proof.
  split.
  - split; [vm_compute; reflexivity|].
    destruct (proj1 (C7_failures_are_isolated
                       (client := MemStore.client MemStore.computed upload_f3_fails)
                       five_env site_args types)
                [("/a", "f1"); ("/a", "f2")] "/a" "f3" [("/a", "f4"); ("/a", "f5")]
                (Sync.initial_state ∅)
                (snd (Sync.for_each [("/a", "f1"); ("/a", "f2")]
                        (Sync.process (client := MemStore.client MemStore.computed upload_f3_fails)
                           five_env site_args types) (Sync.initial_state ∅)))
                "site/f3" (of_string "3") (Some []) boom)
      as (st2 & _ & _ & Hrest);
      [vm_compute; reflexivity.. | intros H; discriminate H | vm_compute; reflexivity |].
    exists st2. exact Hrest.
  - destruct (proj2 (C7_failures_are_isolated
                       (client := MemStore.client MemStore.computed delete_stale_fails)
                       five_env site_args types)
                (mkBlobProperties "site/stale"
                   (MemStore.blob_settings (plain_blob (of_string "old"))))
                [] (Sync.mkState abs_container ({[ "site/a"; "site/b" ]} : gset string) [] [])
                boom)
      as (st2 & Hb & Hout & _);
      [apply (bool_decide_unpack _); vm_compute; exact I | vm_compute; reflexivity |].
    exists st2. split; assumption.
Defined.


(** C9 on [/a/index.html] against a container that holds the very bytes of
    the file, with no Content-MD5. *)
Lemma C9_witness :
  MemStore.blob_data <$> index_without_md5 !! "site/index.html"
  = Sync.open_read one_file_env "/a/index.html"
  /\ exists st2 outcome,
      Sync.process_file (client := computing) one_file_env site_args types "/a" "index.html"
        (Sync.initial_state index_without_md5) = (inr tt, st2)
      /\ Sync.calls st2
         = (Sync.calls (Sync.initial_state index_without_md5)
            ++ [GetBlobProperties "site/index.html";
                UploadBlob "site/index.html" index_html true
                  (Sync.content_settings_of types "/a" "index.html")])%list
      /\ Sync.stdout st2
         = (Sync.stdout (Sync.initial_state index_without_md5)
            ++ [Sync.uploading_line (Sync.path_of "/a" "index.html") "site/index.html";
                outcome])%list
      /\ outcome <> "skipped" +:+ Str.nl.
Proof.
  split; [vm_compute; reflexivity|].
  apply (C9_unset_md5_is_uploaded_again (client := computing) one_file_env site_args types
           [] "/a" "index.html" [] (Sync.initial_state index_without_md5)
           (Sync.initial_state index_without_md5) "site/index.html" index_html
           (mkBlobProperties "site/index.html"
              {| content_type := Some "text/html"; content_md5 := None |}));
    vm_compute; reflexivity.
Defined.

(** C10 on five files when the metadata request of the third fails with
    an error other than [ResourceNotFoundError]: the run ends there. *)
Lemma C10_witness :
  let failing := MemStore.client MemStore.computed metadata_f3_fails in
  let st0 := Sync.initial_state (∅ : gmap string MemStore.Blob) in
  Sync.stdout (snd (Sync.run (client := failing) five_env site_args ∅))
  = ["Uploading /a/f1 ⭢ site/f1... "; "done" +:+ Str.nl;
     "Uploading /a/f2 ⭢ site/f2... "; "done" +:+ Str.nl;
     "Uploading /a/f3 ⭢ site/f3... "]
  /\ exists st2,
      Sync.upload_phase (client := failing) five_env site_args types st0 = (inl boom, st2)
      /\ Sync.sync_body (client := failing) five_env site_args types st0 = (inl boom, st2).
Proof.
  split; [vm_compute; reflexivity|].
  destruct (proj1 (C10_metadata_failure_aborts
                     (client := MemStore.client MemStore.computed metadata_f3_fails)
                     five_env site_args types
                     [("/a", "f1"); ("/a", "f2")] "/a" "f3" [("/a", "f4"); ("/a", "f5")]
                     (Sync.initial_state ∅)
                     (snd (Sync.for_each [("/a", "f1"); ("/a", "f2")]
                             (Sync.process
                                (client := MemStore.client MemStore.computed metadata_f3_fails)
                                five_env site_args types) (Sync.initial_state ∅)))
                     "site/f3" (of_string "3") boom
                     ltac:(vm_compute; reflexivity) ltac:(vm_compute; reflexivity)
                     ltac:(vm_compute; reflexivity) ltac:(vm_compute; reflexivity)
                     ltac:(vm_compute; reflexivity))
              eq_refl)
    as (st2 & _ & Hup & Hbody & _).
  exists st2. split; assumption.
Defined.

(** ** The further properties on concrete inputs *)

(** X1 on the site tree, into an empty container. *)
Lemma X1_witness :
  exists reqs : list (list call),
    Forall2 (fun rf l =>
               exists k,
                 Sync.dest_path_of site_env site_args (fst rf) (snd rf) = Some k
                 /\ Sync.file_requests site_env types rf k l)
            (Sync.traversed site_env site_args) reqs
    /\ Sync.calls (snd (Sync.upload_phase (client := computing) site_env site_args types
                          (Sync.initial_state ∅)))
       = (Sync.calls (Sync.initial_state (∅ : gmap string MemStore.Blob)) ++ concat reqs)%list.
Proof.
  apply (X1_requests_file_by_file (client := computing) site_env site_args types).
  vm_compute. reflexivity.
Defined.

(** X2 on the site tree without [--sync], against a container with a stale
    blob. *)
Lemma X2_witness :
  exists new,
    Sync.calls (snd (Sync.sync_body (client := computing) site_env site_args_no_sync types
                       (Sync.initial_state abs_container)))
    = (Sync.calls (Sync.initial_state abs_container) ++ new)%list
    /\ (forall c, In c new -> is_list c = false /\ is_delete c = false)
    /\ Sync.sync_body (client := computing) site_env site_args_no_sync types
         (Sync.initial_state abs_container)
       = Sync.upload_phase (client := computing) site_env site_args_no_sync types
           (Sync.initial_state abs_container).
Proof.
  apply (X2_no_delete_without_sync (client := computing) site_env site_args_no_sync types).
  reflexivity.
Defined.

(** X3 on the site tree, against a container that already holds
    [index.html]. *)
Lemma X3_witness :
  exists (outcomes : list string) (new : list call),
    length outcomes = length (Sync.traversed site_env site_args)
    /\ Forall Sync.is_outcome outcomes
    /\ Sync.stdout (snd (Sync.upload_phase (client := computing) site_env site_args types
                           (Sync.initial_state synced_index)))
       = (Sync.stdout (Sync.initial_state synced_index)
          ++ concat (zip_with (Sync.file_report site_env site_args)
                       (Sync.traversed site_env site_args) outcomes))%list
    /\ Sync.calls (snd (Sync.upload_phase (client := computing) site_env site_args types
                          (Sync.initial_state synced_index)))
       = (Sync.calls (Sync.initial_state synced_index) ++ new)%list
    /\ (length (List.filter (String.eqb ("skipped" +:+ Str.nl)) outcomes)
        + length (List.filter is_upload new))%nat
       = length (Sync.traversed site_env site_args).
Proof.
  apply (X3_one_report_per_file (client := computing) site_env site_args types).
  vm_compute. reflexivity.
Defined.

(** X4 on the site tree when [/a/sub/x.txt] cannot be read: the run ends
    at the second of three files. *)
Lemma X4_witness :
  Sync.stdout (snd (Sync.run (client := computing) unreadable_env site_args ∅))
  = ["Uploading /a/index.html ⭢ site/index.html... "; "done" +:+ Str.nl;
     "Uploading /a/sub/x.txt ⭢ site/sub/x.txt... "]
  /\ exists err st2,
      exn_cls err = OSError
      /\ Sync.upload_phase (client := computing) unreadable_env site_args types
           (Sync.initial_state ∅) = (inl err, st2)
      /\ Sync.sync_body (client := computing) unreadable_env site_args types
           (Sync.initial_state ∅) = (inl err, st2).
Proof.
  split; [vm_compute; reflexivity|].
  destruct (X4_unreadable_file_aborts (client := computing) unreadable_env site_args types
              [("/a", "index.html")] "/a/sub" "x.txt" [("/a/sub", "app.js.map")]
              (Sync.initial_state ∅)
              (snd (Sync.for_each [("/a", "index.html")]
                      (Sync.process (client := computing) unreadable_env site_args types)
                      (Sync.initial_state ∅)))
              "site/sub/x.txt")
    as (err & st2 & Hcls & Hup & Hbody & _); [vm_compute; reflexivity..|].
  exists err, st2. split; [exact Hcls|]. split; assumption.
Defined.

(** X5 on [x.txt] in [/a/sub]. *)
Lemma X5_witness :
  exists rel,
    Sync.dest_path_of site_env site_args "/a/sub" "x.txt"
    = Some (PosixPath.glue (Sync.dest site_args) +:+ rel)
    /\ Str.is_empty rel = false
    /\ PosixPath.isabs rel = false
    /\ Str.startswith (PosixPath.glue (Sync.dest site_args) +:+ rel) (Sync.dest site_args)
       = true.
Proof. apply (X5_destination_key_shape site_env site_args "/a/sub" "x.txt"). reflexivity. Defined.

(** X6 with the prefix [site]: the blob [site2/index.html] is deleted. *)
Lemma X6_witness :
  ~ In (Some (Sync.dest site_args +:+ "2/index.html")) (Sync.dest_keys site_env site_args)
  /\ Sync.world (snd (Sync.sync_body (client := computing) site_env site_args types
                        (Sync.initial_state siblings_container)))
       !! (Sync.dest site_args +:+ "2/index.html") = None.
Proof.
  apply (X6_sync_deletes_sibling_prefixes MemStore.computed MemStore.no_faults
           site_env site_args types siblings_container
           (snd (Sync.upload_phase (client := computing) site_env site_args types
                   (Sync.initial_state siblings_container)))
           "2/index.html").
  - intros c. reflexivity.
  - reflexivity.
  - vm_compute. reflexivity.
  - reflexivity.
  - reflexivity.
  - reflexivity.
  - vm_compute. eauto.
Defined.

(** X8 on [/a/index.html] of the site tree, into an empty container. *)
Lemma X8_witness :
  exists k data b,
    Sync.dest_path_of site_env site_args "/a" "index.html" = Some k
    /\ Sync.open_read site_env (Sync.path_of "/a" "index.html") = Some data
    /\ Sync.world (snd (Sync.upload_phase (client := computing) site_env site_args types
                          (Sync.initial_state ∅))) !! k = Some b
    /\ MemStore.mirrored types "/a" "index.html" data
         (Sync.world (Sync.initial_state (∅ : gmap string MemStore.Blob)) !! k) b.
Proof.
  apply (X8_upload_phase_mirrors MemStore.computed MemStore.no_faults site_env site_args types
           (Sync.initial_state ∅)).
  - intros c. reflexivity.
  - apply (bool_decide_unpack _). vm_compute. exact I.
  - vm_compute. reflexivity.
  - vm_compute. left. reflexivity.
Defined.

(** X9 on the site tree against the container with [site],
    [site2/index.html] and [other/x]. *)
Lemma X9_witness :
  (forall k, Str.startswith k (Sync.dest site_args) = true ->
             (is_Some (Sync.world
                         (snd (Sync.sync_body (client := computing) site_env site_args types
                                 (Sync.initial_state siblings_container))) !! k)
              <-> In (Some k) (Sync.dest_keys site_env site_args)))
  /\ (forall k, Str.startswith k (Sync.dest site_args) = false ->
                Sync.world
                  (snd (Sync.sync_body (client := computing) site_env site_args types
                          (Sync.initial_state siblings_container))) !! k
                = siblings_container !! k).
Proof.
  apply (X9_sync_mirrors_the_prefix MemStore.computed MemStore.no_faults
           site_env site_args types siblings_container
           (snd (Sync.upload_phase (client := computing) site_env site_args types
                   (Sync.initial_state siblings_container)))).
  - intros c. reflexivity.
  - reflexivity.
  - vm_compute. reflexivity.
Defined.

(** X10 on [/a/index.html] against a blob with the right digest and the
    content type [application/octet-stream]. *)
Lemma X10_witness :
  let st' := snd (Sync.process_file (client := computing) one_file_env site_args types
                    "/a" "index.html" (Sync.initial_state stale_type_index)) in
  Sync.calls st'
  = (Sync.calls (Sync.initial_state stale_type_index)
     ++ [GetBlobProperties "site/index.html"])%list
  /\ Sync.world st' = Sync.world (Sync.initial_state stale_type_index)
  /\ exists b', Sync.world st' !! "site/index.html" = Some b'
                /\ content_type (MemStore.blob_settings b')
                   <> Some (Sync.resolve_content_type types (Sync.path_of "/a" "index.html")).
Proof.
  apply (X10_skip_keeps_stale_content_type MemStore.computed MemStore.no_faults
           one_file_env site_args types "/a" "index.html"
           (Sync.initial_state stale_type_index) "site/index.html" index_html
           (MemStore.mkBlob index_html
              {| content_type := Some "application/octet-stream";
                 content_md5 := Some (md5 index_html) |})).
  - reflexivity.
  - vm_compute. reflexivity.
  - vm_compute. reflexivity.
  - vm_compute. reflexivity.
  - reflexivity.
  - vm_compute. intros H. discriminate H.
Defined.

(** X11 on [site/index.html] when every request fails. *)
Lemma X11_witness :
  is_Some (Sync.world
             (snd (Sync.sync_body (client := MemStore.client MemStore.computed all_fail)
                     site_env site_args types (Sync.initial_state synced_index)))
             !! "site/index.html").
Proof.
  apply (X11_run_keeps_traversed_keys MemStore.computed all_fail site_env site_args types
           synced_index "site/index.html").
  - vm_compute. left. reflexivity.
  - vm_compute. eauto.
Defined.



(** X15 on the files [a] and [b]: when the pager fails after its first two
    blobs, and when it fails at once. *)
Lemma X15_witness :
  (exists st2,
     Sync.sync_body
       (client := MemStore.interrupted (MemStore.client MemStore.computed MemStore.no_faults)
                    2 boom)
       ab_env site_args types (Sync.initial_state abs_container) = (inl boom, st2)
     /\ List.filter is_delete (Sync.calls st2) = [DeleteBlob "site/stale"]
     /\ dom (Sync.world st2) = {["site/a"; "site/b"]})
  /\ (exists st2,
        Sync.sync_body (client := MemStore.client MemStore.computed listing_fails)
          ab_env site_args types (Sync.initial_state abs_container) = (inl boom, st2)
        /\ List.filter is_delete (Sync.calls st2) = []
        /\ Sync.world st2 = abs_container).
Proof.
  split.
  - pose (c := MemStore.interrupted (MemStore.client MemStore.computed MemStore.no_faults)
                 2 boom).
    pose (st1 := snd (Sync.upload_phase (client := c) ab_env site_args types
                        (Sync.initial_state abs_container))).
    destruct (X15_listing_failure_aborts
                (client := c) ab_env site_args types (Sync.initial_state abs_container) st1
                (yielded (fst (list_blobs (ContainerClient := c)
                                 (Sync.dest site_args) (Sync.world st1))))
                boom (Sync.world st1))
      as (st2 & Hbody & _); [reflexivity | vm_compute; reflexivity | vm_compute; reflexivity |].
    exists st2. split; [exact Hbody|].
    apply (f_equal snd) in Hbody. cbn [snd] in Hbody. subst st2.
    split; [vm_compute; reflexivity|].
    vm_compute. reflexivity.
  - destruct (X15_listing_failure_aborts
                (client := MemStore.client MemStore.computed listing_fails)
                ab_env site_args types (Sync.initial_state abs_container)
                (snd (Sync.upload_phase
                        (client := MemStore.client MemStore.computed listing_fails)
                        ab_env site_args types (Sync.initial_state abs_container)))
                [] boom abs_container)
      as (st2 & Hbody & _); [reflexivity | vm_compute; reflexivity | vm_compute; reflexivity |].
    exists st2. split; [exact Hbody|].
    apply (f_equal snd) in Hbody. cbn [snd] in Hbody. subst st2.
    split; vm_compute; reflexivity.
Defined.
